(** * Maamani asset register: the tag generator, the update-history
    bookkeeping, the asset repository and the credential store.

    The repository holds two variants of one Streamlit application:
    [asset_manager.py] over SQLite (module [Sqlite] below) and
    [tester_copyUpdatesFixFinal.py] over an Excel workbook (module [Sheet]).
    Both are embedded as pure functions over an explicit store; what a
    function raises in Python is an [exn] here.

    Text is modelled by [string], one [ascii] per character, and is meant
    to be ASCII: on that range [upper] is Python's [str.upper] and the
    UTF-8 encoding of a string is its list of characters.  What is proved
    of the length or of the characters of uppercased text is stated for
    ASCII text. *)

From Stdlib Require Import ZArith PrimFloat Ascii String List DecimalString.
From Stdlib Require Import Sorting.Permutation Sorting.Sorted.
From Stdlib Require Uint63 FloatOps SpecFloat.
From Stdlib Require DecimalNat DecimalFacts.
From stdpp Require Import gmap strings list fin_maps.

Local Open Scope string_scope.

(** ** Exceptions and results *)

(** The Python exceptions the modelled code can raise.  [Unmodelled] is not
    one of them: it marks a run that leaves the fragment embedded here
    (rendering a finite float as text, parsing a number out of text,
    SQLite converting a value to the storage class of its column, a key that
    is spliced into the SQL text and is not a plain identifier, an
    assignment to the implicit rowid of a table).  What is proved of
    [update_asset] is stated for keys and values inside the fragment. *)
Inductive exn :=
| TypeError
| ValueError
| KeyError
| IndexError
| OverflowError
| OperationalError
| IntegrityError
| BinasciiError
| Unmodelled.

Inductive result (A : Type) :=
| Ok (a : A)
| Raise (e : exn).
Arguments Ok {A} a.
Arguments Raise {A} e.

#[global] Instance result_ret : MRet result := fun A a => Ok a.
#[global] Instance result_bind : MBind result := fun A B k m =>
  match m with
  | Ok a => k a
  | Raise e => Raise e
  end.


(** ** Strings *)

Definition code (c : ascii) : nat := nat_of_ascii c.

Definition is_lower (c : ascii) : bool :=
  (97 <=? code c)%nat && (code c <=? 122)%nat.

Definition is_digit (c : ascii) : bool :=
  (48 <=? code c)%nat && (code c <=? 57)%nat.

Definition is_ascii_char (c : ascii) : bool := (code c <? 128)%nat.

Definition upper_char (c : ascii) : ascii :=
  if is_lower c then ascii_of_nat (code c - 32) else c.

(** [s.upper()] on ASCII text: the letters a to z are raised, every other
    character is kept.  (Outside ASCII [str.upper] raises other letters
    too, some of them to more than one character.) *)
Fixpoint upper (s : string) : string :=
  match s with
  | EmptyString => EmptyString
  | String c r => String (upper_char c) (upper r)
  end.

(** [s[:n]] *)
Fixpoint take_str (n : nat) (s : string) : string :=
  match n, s with
  | S m, String c r => String c (take_str m r)
  | _, _ => EmptyString
  end.

Fixpoint zeros (n : nat) : string :=
  match n with
  | O => EmptyString
  | S m => String "0" (zeros m)
  end.

Definition is_sign (c : ascii) : bool :=
  Ascii.eqb c "+" || Ascii.eqb c "-".

(** [s.zfill(width)]: zeros on the left up to [width] characters, after a
    leading sign when there is one. *)
Definition zfill (width : nat) (s : string) : string :=
  let n := String.length s in
  if (width <=? n)%nat then s
  else match s with
       | String c r =>
           if is_sign c then String c (zeros (width - n) +:+ r)
           else zeros (width - n) +:+ s
       | EmptyString => zeros width
       end.

Fixpoint all_chars (p : ascii -> bool) (s : string) : bool :=
  match s with
  | EmptyString => true
  | String c r => p c && all_chars p r
  end.

Definition str_of_nat (n : nat) : string :=
  NilZero.string_of_uint (Nat.to_uint n).

Definition str_of_Z (z : Z) : string :=
  NilZero.string_of_int (Z.to_int z).

(** ** Python values *)

Record date := { year : nat; month : nat; day : nat }.

Record datetime := {
  dt_date : date;
  hour : nat;
  minute : nat;
  second : nat
}.

(** [d.strftime("%Y-%m-%d")] and [d.isoformat()].  The two agree from the
    year 1000 on, where the year has its four digits; for an earlier year
    [isoformat] pads it with zeros, as here, and [strftime] leaves the
    padding to the C library. *)
Definition strftime_date (d : date) : string :=
  zfill 4 (str_of_nat (year d)) +:+ "-" +:+ zfill 2 (str_of_nat (month d))
  +:+ "-" +:+ zfill 2 (str_of_nat (day d)).

(** [t.strftime("%Y-%m-%d %H:%M:%S")] *)
Definition strftime_datetime (t : datetime) : string :=
  strftime_date (dt_date t) +:+ " " +:+ zfill 2 (str_of_nat (hour t))
  +:+ ":" +:+ zfill 2 (str_of_nat (minute t))
  +:+ ":" +:+ zfill 2 (str_of_nat (second t)).

(** The scalars that flow through the two programs: [None], [str], [int],
    [float] (a binary64, [nan] included) and [datetime.date]. *)
Inductive value :=
| PyNone
| PyStr (s : string)
| PyInt (z : Z)
| PyFloat (f : float)
| PyDate (d : date).

Definition is_nan (f : float) : bool := negb (PrimFloat.eqb f f).

(** Truth value of an object, as [if x] and [x or y] test it. *)
Definition truthy (v : value) : bool :=
  match v with
  | PyNone => false
  | PyStr s => negb (String.eqb s "")
  | PyInt z => negb (Z.eqb z 0)
  | PyFloat f => negb (PrimFloat.eqb f 0%float)
  | PyDate _ => true
  end.

(** [a or b] *)
Definition py_or (a b : value) : value := if truthy a then a else b.

(** [str(v)] *)
Definition py_str (v : value) : result string :=
  match v with
  | PyNone => Ok "None"
  | PyStr s => Ok s
  | PyInt z => Ok (str_of_Z z)
  | PyFloat f => if is_nan f then Ok "nan" else Raise Unmodelled
  | PyDate d => Ok (strftime_date d)
  end.

(** [v[:3].upper()] *)
Definition slice3_upper (v : value) : result string :=
  match v with
  | PyStr s => Ok (upper (take_str 3 s))
  | _ => Raise TypeError
  end.

(** [pd.isna(v)] on a scalar *)
Definition isna (v : value) : bool :=
  match v with
  | PyNone => true
  | PyFloat f => is_nan f
  | _ => false
  end.

(** ** Dictionaries

    A Python [dict] keeps its keys in insertion order, and [update_asset]
    walks [updates.items()] in that order: an association list with
    update in place. *)

Definition dict := list (string * value).

Fixpoint dict_get (d : dict) (k : string) : option value :=
  match d with
  | [] => None
  | (k', v) :: r => if String.eqb k' k then Some v else dict_get r k
  end.

(** [d[k] = v] *)
Fixpoint dict_set (d : dict) (k : string) (v : value) : dict :=
  match d with
  | [] => [(k, v)]
  | (k', v') :: r =>
      if String.eqb k' k then (k', v) :: r else (k', v') :: dict_set r k v
  end.

(** [d.get(k, dflt)] *)
Definition get_or (d : dict) (k : string) (dflt : value) : value :=
  match dict_get d k with Some v => v | None => dflt end.

(** [d.get(k)] *)
Definition get (d : dict) (k : string) : value := get_or d k PyNone.

(** [d[k]] *)
Definition getitem (d : dict) (k : string) : result value :=
  match dict_get d k with Some v => Ok v | None => Raise KeyError end.

(** ** Tag generation *)

(** [generate_asset_tag], asset_manager.py lines 275-280. *)
Definition generate_asset_tag (form_data : dict) : result string :=
  serial ← (if truthy (get form_data "Serial Number")
            then s ← py_str (get_or form_data "Serial Number" (PyStr ""));
                 Ok (zfill 4 s)
            else Ok "0000");
  dept ← slice3_upper (py_or (get form_data "Department") (PyStr "GEN"));
  loc ← slice3_upper (py_or (get form_data "Location") (PyStr "LOC"));
  asset ← slice3_upper (py_or (get form_data "Asset Name") (PyStr "AST"));
  Ok (asset +:+ "-" +:+ loc +:+ "-" +:+ dept +:+ "-" +:+ serial).

(** [float(v)] and [int(v)].  A number parsed out of text, a float rounded
    from a large [int] and a float truncated to an [int] are not modelled. *)
Definition py_float (v : value) : result float :=
  match v with
  | PyFloat f => Ok f
  | PyInt z =>
      if (Z.abs z <=? 2 ^ 53)%Z
      then let m := PrimFloat.of_uint63 (Uint63.of_Z (Z.abs z)) in
           Ok (if (z <? 0)%Z then PrimFloat.opp m else m)
      else Raise Unmodelled
  | PyStr _ => Raise Unmodelled
  | PyNone | PyDate _ => Raise TypeError
  end.

Definition py_int (v : value) : result Z :=
  match v with
  | PyInt z => Ok z
  | PyFloat _ | PyStr _ => Raise Unmodelled
  | PyNone | PyDate _ => Raise TypeError
  end.

(** [to_iso], asset_manager.py lines 262-270.  The last branch hands any
    other object to [pd.to_datetime]. *)
Definition to_iso (d : value) : result value :=
  match d with
  | PyNone => Ok PyNone
  | PyStr s => if String.eqb s "" then Ok PyNone else Raise Unmodelled
  | PyDate d => Ok (PyStr (strftime_date d))
  | PyInt _ | PyFloat _ => Raise Unmodelled
  end.

(** [now_iso], asset_manager.py lines 272-273, given [datetime.now()]. *)
Definition now_iso (clock : datetime) : string := strftime_datetime clock.

(** What the widgets of the asset form return when the form is submitted:
    [st.selectbox] and [st.text_input] a [str], [st.date_input] a [date]
    (the disposal date only behind its checkbox), [st.number_input] a
    [float]. *)
Record form := {
  Category : string;
  Department : string;
  Condition : string;
  Status : string;
  Asset_Name : string;
  Description : string;
  Serial_Number : string;
  Assigned_To : string;
  Location : string;
  Notes : string;
  Purchase_Date : date;
  Warranty_End_Date : date;
  Maintenance_Schedule : string;
  Disposal_Date : option date;
  Purchase_Price : float
}.

Inductive action := Add_New_Asset | Update_Existing_Asset.

(** [st.selectbox(label, options)]: the option the user picked, the first
    one unless the user moved it; there is none when [options] is empty. *)
Definition selectbox {A} (options : list A) (pick : nat) : option A :=
  match options !! pick with
  | Some o => Some o
  | None => head options
  end.

(** ** The SQLite variant, asset_manager.py *)

Module Sqlite.

(** The columns of [assets] declared [TEXT] ... *)
Inductive text_column :=
| asset_tag | asset_name | category | description | serial_number
| assigned_to | department | purchase_date | condition | location | status
| warranty_end_date | maintenance_schedule | date_added | last_updated
| disposal_date | notes | update_history.

(** ... and all twenty: [purchase_price_ghs REAL], [update_count INTEGER]. *)
Inductive column :=
| TEXT (c : text_column)
| purchase_price_ghs
| update_count.

#[global] Instance text_column_eq_dec : EqDecision text_column.
Proof. solve_decision. Defined.
#[global] Instance column_eq_dec : EqDecision column.
Proof. solve_decision. Defined.

(** Column names as CREATE TABLE spells them. *)
Definition schema : list (string * column) :=
  [("asset_tag", TEXT asset_tag); ("asset_name", TEXT asset_name);
   ("category", TEXT category); ("description", TEXT description);
   ("serial_number", TEXT serial_number); ("assigned_to", TEXT assigned_to);
   ("department", TEXT department); ("purchase_date", TEXT purchase_date);
   ("purchase_price_ghs", purchase_price_ghs); ("condition", TEXT condition);
   ("location", TEXT location); ("status", TEXT status);
   ("warranty_end_date", TEXT warranty_end_date);
   ("maintenance_schedule", TEXT maintenance_schedule);
   ("date_added", TEXT date_added); ("last_updated", TEXT last_updated);
   ("disposal_date", TEXT disposal_date); ("notes", TEXT notes);
   ("update_count", update_count); ("update_history", TEXT update_history)].

(** A row of [assets].  SQLite keeps a value in the storage class its
    column's affinity gives it: NULL or text in a [TEXT] column, NULL or a
    float in the [REAL] one, NULL or a 64-bit integer in the [INTEGER]
    one.  NULL is [None]. *)
Record row := {
  text : text_column -> option string;
  price : option float;
  count : option Z
}.

Record user_row := {
  password_hash : string;
  salt : string;
  role : string
}.

(** The database file: a table is [None] until CREATE TABLE has run.
    [assets] is kept in rowid order, [users] by its primary key. *)
Record db := {
  assets : option (list row);
  users : option (gmap string user_row)
}.

Definition fresh : db := {| assets := None; users := None |}.

Definition with_assets (d : db) (rows : list row) : db :=
  {| assets := Some rows; users := users d |}.

Definition with_users (d : db) (us : gmap string user_row) : db :=
  {| assets := assets d; users := Some us |}.

Definition tag (r : row) : option string := text r asset_tag.

Definition tags (rows : list row) : list (option string) := map tag rows.

Definition set_text (c : text_column) (v : option string) (r : row) : row :=
  {| text := fun c' => if decide (c' = c) then v else text r c';
     price := price r;
     count := count r |}.

Definition set_price (v : option float) (r : row) : row :=
  {| text := text r; price := v; count := count r |}.

Definition set_count (v : option Z) (r : row) : row :=
  {| text := text r; price := price r; count := v |}.

(** [dict(row)[name]] for the column [c] named [name]. *)
Definition cell (c : column) (r : row) : value :=
  match c with
  | TEXT t => match text r t with Some s => PyStr s | None => PyNone end
  | purchase_price_ghs =>
      match price r with Some f => PyFloat f | None => PyNone end
  | update_count => match count r with Some z => PyInt z | None => PyNone end
  end.

Definition in_int64 (z : Z) : bool :=
  ((- 2 ^ 63 <=? z) && (z <? 2 ^ 63))%Z.

(** Binding a Python object to a statement parameter: [None], [str],
    [float] go as they are, an [int] must fit 64 bits, a [date] goes
    through the module's default adapter, its ISO text. *)
Definition bind_param (v : value) : result value :=
  match v with
  | PyInt z => if in_int64 z then Ok v else Raise OverflowError
  | PyDate d => Ok (PyStr (strftime_date d))
  | _ => Ok v
  end.

(** Storing a bound value in a column.  A value of another storage class
    than the column's is converted by SQLite's affinity rules; of those
    only integer to text is modelled.  A [nan] is stored as NULL, and a
    zero of either sign is read back as [0.0]. *)
Definition store (c : column) (v : value) (r : row) : result row :=
  match c, v with
  | TEXT t, PyNone => Ok (set_text t None r)
  | TEXT t, PyStr s => Ok (set_text t (Some s) r)
  | TEXT t, PyInt z => Ok (set_text t (Some (str_of_Z z)) r)
  | purchase_price_ghs, PyNone => Ok (set_price None r)
  | purchase_price_ghs, PyFloat f =>
      Ok (set_price
            (if is_nan f then None
             else Some (if PrimFloat.eqb f 0 then 0%float else f)) r)
  | update_count, PyNone => Ok (set_count None r)
  | update_count, PyInt z => Ok (set_count (Some z) r)
  | _, _ => Raise Unmodelled
  end.

Definition null_row : row :=
  {| text := fun _ => None; price := None; count := None |}.

(** [get_conn] opens the one database file; the store is passed around
    instead. *)

(** [init_db], lines 63-119.  The administrator secret is read and the
    [admin] rows are counted, and neither is used. *)
Definition init_db (ADMIN_PASSWORD : option string) (d : db) : db :=
  let d1 :=
    match assets d with
    | Some _ => d
    | None => with_assets d []
    end in
  let d2 :=
    match users d1 with
    | Some _ => d1
    | None => with_users d1 ∅
    end in
  let admin_pw := ADMIN_PASSWORD in
  let exists_ :=
    match users d2 with
    | Some us => match us !! "admin" with Some _ => 1%nat | None => 0%nat end
    | None => 0%nat
    end in
  d2.

(** SQLite's order on the values of a [TEXT] column: NULL first, then text
    byte by byte. *)
Definition text_leb (a b : option string) : bool :=
  match a, b with
  | None, _ => true
  | Some _, None => false
  | Some x, Some y => String.leb x y
  end.

(** [ORDER BY date_added DESC].  SQL leaves the order of equal keys open;
    this sort keeps them in rowid order. *)
Fixpoint insert_desc (r : row) (sorted : list row) : list row :=
  match sorted with
  | [] => [r]
  | x :: rest =>
      if text_leb (text x date_added) (text r date_added)
      then r :: sorted
      else x :: insert_desc r rest
  end.

Definition order_by_date_added_desc (rows : list row) : list row :=
  foldr insert_desc [] rows.

(** [get_all_assets_df], lines 168-169. *)
Definition get_all_assets_df (d : db) : result (list row) :=
  match assets d with
  | None => Raise OperationalError
  | Some rows => Ok (order_by_date_added_desc rows)
  end.

(** [get_asset], lines 171-177. *)
Definition get_asset (d : db) (asset_tag_ : string) : result (option row) :=
  match assets d with
  | None => Raise OperationalError
  | Some rows =>
      Ok (head (filter (fun r => tag r = Some asset_tag_) rows))
  end.

(** The pairs of a record and the columns they are inserted into, in the
    order of the VALUES tuple. *)
Definition inserted : list (string * column) :=
  [("Asset Tag", TEXT asset_tag); ("Asset Name", TEXT asset_name);
   ("Category", TEXT category); ("Description", TEXT description);
   ("Serial Number", TEXT serial_number); ("Assigned To", TEXT assigned_to);
   ("Department", TEXT department); ("Purchase Date", TEXT purchase_date);
   ("Purchase Price (GHS)", purchase_price_ghs);
   ("Condition", TEXT condition); ("Location", TEXT location);
   ("Status", TEXT status); ("Warranty End Date", TEXT warranty_end_date);
   ("Maintenance Schedule", TEXT maintenance_schedule);
   ("Date Added", TEXT date_added); ("Last Updated", TEXT last_updated);
   ("Disposal Date", TEXT disposal_date); ("Notes", TEXT notes);
   ("Update Count", update_count); ("Update History", TEXT update_history)].

(** One entry of the VALUES tuple: [record.get(key)], but
    [float(record.get(key, 0) or 0)] for the price and
    [int(record.get(key, 0) or 0)] for the counter. *)
Definition insert_value (record : dict) (key : string) (c : column)
  : result value :=
  match c with
  | TEXT _ => Ok (get record key)
  | purchase_price_ghs =>
      f ← py_float (py_or (get_or record key (PyInt 0)) (PyInt 0));
      Ok (PyFloat f)
  | update_count =>
      z ← py_int (py_or (get_or record key (PyInt 0)) (PyInt 0));
      Ok (PyInt z)
  end.

Fixpoint insert_values (record : dict) (cols : list (string * column))
  : result (list (column * value)) :=
  match cols with
  | [] => Ok []
  | (key, c) :: rest =>
      v ← insert_value record key c;
      vs ← insert_values record rest;
      Ok ((c, v) :: vs)
  end.

Fixpoint bind_params (vs : list (column * value))
  : result (list (column * value)) :=
  match vs with
  | [] => Ok []
  | (c, v) :: rest =>
      v' ← bind_param v;
      rest' ← bind_params rest;
      Ok ((c, v') :: rest')
  end.

(** The assignments of a statement applied to one row, left to right: of
    two assignments to one column the right one stays. *)
Fixpoint store_all (vs : list (column * value)) (r : row) : result row :=
  match vs with
  | [] => Ok r
  | (c, v) :: rest => r' ← store c v r; store_all rest r'
  end.

(** [insert_asset], lines 179-215.  [asset_tag] is the primary key: a
    second row with a tag that is there already is refused (two NULL tags
    are not). *)
Definition insert_asset (d : db) (record : dict) : result db :=
  vs ← insert_values record inserted;
  match assets d with
  | None => Raise OperationalError
  | Some rows =>
      bound ← bind_params vs;
      r ← store_all bound null_row;
      match tag r with
      | Some t =>
          if decide (Some t ∈ tags rows) then Raise IntegrityError
          else Ok (with_assets d (rows ++ [r]))
      | None => Ok (with_assets d (rows ++ [r]))
      end
  end.

(** [_py_to_sql_col], lines 234-257. *)
Definition _py_to_sql_col (py_col : string) : string :=
  let mapping :=
    [("Asset Tag", "asset_tag"); ("Asset Name", "asset_name");
     ("Category", "category"); ("Description", "description");
     ("Serial Number", "serial_number"); ("Assigned To", "assigned_to");
     ("Department", "department"); ("Purchase Date", "purchase_date");
     ("Purchase Price (GHS)", "purchase_price_ghs");
     ("Condition", "condition"); ("Location", "location");
     ("Status", "status"); ("Warranty End Date", "warranty_end_date");
     ("Maintenance Schedule", "maintenance_schedule");
     ("Date Added", "date_added"); ("Last Updated", "last_updated");
     ("Disposal Date", "disposal_date"); ("Notes", "notes");
     ("Update Count", "update_count"); ("Update History", "update_history")] in
  match find (fun kv => String.eqb (fst kv) py_col) mapping with
  | Some kv => snd kv
  | None => py_col
  end.

Definition lower_char (c : ascii) : ascii :=
  if (65 <=? code c)%nat && (code c <=? 90)%nat
  then ascii_of_nat (code c + 32) else c.

Fixpoint lower (s : string) : string :=
  match s with
  | EmptyString => EmptyString
  | String c r => String (lower_char c) (lower r)
  end.

Definition is_ident_start (c : ascii) : bool :=
  is_lower c || is_lower (lower_char c) || Ascii.eqb c "_".

Definition is_ident_char (c : ascii) : bool :=
  is_ident_start c || is_digit c || Ascii.eqb c "$".

(** The column names are spliced into the SQL text ([f"{col}=?"]); only a
    plain identifier is read back as one name. *)
Definition is_identifier (s : string) : bool :=
  match s with
  | EmptyString => false
  | String c r => is_ident_start c && all_chars is_ident_char r
  end.

(** [rowid], [oid] and [_rowid_] name the implicit integer key of a table
    that declares no column of that name. *)
Definition names_rowid (name : string) : bool :=
  bool_decide (lower name ∈ ["rowid"; "oid"; "_rowid_"]).

(** SQLite finds a column by its name, whatever the case of its letters;
    an identifier that names none does not compile.  The implicit rowid
    can be assigned to; the rows carry none here. *)
Definition resolve_column (name : string) : result column :=
  match find (fun kv => String.eqb (fst kv) (lower name)) schema with
  | Some kv => Ok (snd kv)
  | None => if names_rowid name then Raise Unmodelled
            else Raise OperationalError
  end.

(** The SET list of [update_asset]: one assignment per item of [updates]. *)
Fixpoint set_list (updates : dict) : result (list (column * value)) :=
  match updates with
  | [] => Ok []
  | (k, v) :: rest =>
      c ← resolve_column (_py_to_sql_col k);
      sets ← set_list rest;
      Ok ((c, v) :: sets)
  end.

(** [UPDATE assets SET ... WHERE asset_tag=?] over the rows of the table. *)
Fixpoint update_rows (asset_tag_ : string) (sets : list (column * value))
  (rows : list row) : result (list row) :=
  match rows with
  | [] => Ok []
  | r :: rest =>
      r' ← (if decide (tag r = Some asset_tag_) then store_all sets r
            else Ok r);
      rest' ← update_rows asset_tag_ sets rest;
      Ok (r' :: rest')
  end.

(** The primary key after the update: a row that was updated may not end
    with a tag another row holds. *)
Definition collides (asset_tag_ : string) (rows rows' : list row) : bool :=
  existsb
    (fun rr : row * row =>
       bool_decide (tag (fst rr) = Some asset_tag_) &&
       match tag (snd rr) with
       | Some x =>
           negb (String.eqb x asset_tag_) && bool_decide (Some x ∈ tags rows)
       | None => false
       end)
    (zip rows rows').

(** [update_asset], lines 217-232.  Each key, mapped by [_py_to_sql_col],
    is spliced into the SQL text as it is; the statement is embedded for
    the keys that are plain identifiers. *)
Definition update_asset (d : db) (asset_tag_ : string) (updates : dict)
  : result db :=
  if negb (forallb (fun kv => is_identifier (_py_to_sql_col (fst kv))) updates)
  then Raise Unmodelled
  else
    match assets d with
    | None => Raise OperationalError
    | Some rows =>
        match updates with
        | [] => Raise OperationalError
        | _ :: _ =>
            sets ← set_list updates;
            bound ← bind_params sets;
            rows' ← update_rows asset_tag_ bound rows;
            if collides asset_tag_ rows rows' then Raise IntegrityError
            else Ok (with_assets d rows')
        end
    end.

(** The dictionary [form_norm] of the submit handler, lines 467-483. *)
Definition form_norm (frm : form) : result dict :=
  purchase ← to_iso (PyDate (Purchase_Date frm));
  warranty ← to_iso (PyDate (Warranty_End_Date frm));
  disposal ← match Disposal_Date frm with
             | Some d => to_iso (PyDate d)
             | None => Ok PyNone
             end;
  Ok [("Asset Name", PyStr (Asset_Name frm));
      ("Category", PyStr (Category frm));
      ("Description", PyStr (Description frm));
      ("Serial Number", PyStr (Serial_Number frm));
      ("Assigned To", PyStr (Assigned_To frm));
      ("Department", PyStr (Department frm));
      ("Purchase Date", purchase);
      ("Purchase Price (GHS)", PyFloat (Purchase_Price frm));
      ("Condition", PyStr (Condition frm));
      ("Location", PyStr (Location frm));
      ("Status", PyStr (Status frm));
      ("Warranty End Date", warranty);
      ("Maintenance Schedule", PyStr (Maintenance_Schedule frm));
      ("Disposal Date", disposal);
      ("Notes", PyStr (Notes frm))].

(** What the page shows after a submit ([st.success], [st.error]). *)
Inductive notice :=
| asset_added (name new_tag : string)
| tag_already_exists (new_tag : string)
| select_a_tag
| asset_updated (selected_tag : string).

(** [existing.get(name, dflt)], where [existing] is [get_asset(..) or {}]. *)
Definition existing_get (existing : option row) (c : column) (dflt : value)
  : value :=
  match existing with
  | Some r => cell c r
  | None => dflt
  end.

(** The new record of the "Add New Asset" branch, lines 492-497. *)
Definition new_record (fn : dict) (new_tag now : string) : dict :=
  let record := fn in
  let record := dict_set record "Asset Tag" (PyStr new_tag) in
  let record := dict_set record "Date Added" (PyStr now) in
  let record := dict_set record "Last Updated" (PyStr now) in
  let record := dict_set record "Update Count" (PyInt 0) in
  dict_set record "Update History" (PyStr "").

(** The dictionary [updates] of the "Update Existing Asset" branch, lines
    505-512. *)
Definition new_updates (fn : dict) (existing : option row) (now : string)
  : result dict :=
  let updates := fn in
  let updates := dict_set updates "Last Updated" (PyStr now) in
  let existing_uc := py_or (existing_get existing update_count (PyInt 0))
                           (PyInt 0) in
  let existing_hist :=
    py_or (existing_get existing (TEXT update_history) PyNone) (PyStr "") in
  uc ← py_int existing_uc;
  let updates := dict_set updates "Update Count" (PyInt (uc + 1)) in
  hist ← (if truthy existing_hist
          then match existing_hist with
               | PyStr h => Ok (h +:+ " | " +:+ now)
               | _ => Raise TypeError
               end
          else Ok now);
  Ok (dict_set updates "Update History" (PyStr hist)).

(** The "Add/Update Asset" page when "Save Asset" is pressed, lines
    390-516: [act] is the radio button, [pick] the position chosen in the
    tag select box, [frm] the submitted form and [clock] the time of the
    run.  An exception leaves the database as it was. *)
Definition add_update_asset (d : db) (act : action) (pick : nat) (frm : form)
  (clock : datetime) : result (db * notice) :=
  df ← get_all_assets_df d;
  let selected_tag : option string :=
    match act, df with
    | Update_Existing_Asset, _ :: _ => mjoin (selectbox (tags df) pick)
    | _, _ => None
    end in
  existing ← match selected_tag with
             | Some t => get_asset d t
             | None => Ok None
             end;
  let now := now_iso clock in
  fn ← form_norm frm;
  match act with
  | Add_New_Asset =>
      new_tag ← generate_asset_tag fn;
      found ← get_asset d new_tag;
      match found with
      | Some _ => Ok (d, tag_already_exists new_tag)
      | None =>
          d' ← insert_asset d (new_record fn new_tag now);
          Ok (d', asset_added (Asset_Name frm) new_tag)
      end
  | Update_Existing_Asset =>
      match selected_tag with
      | None => Ok (d, select_a_tag)
      | Some t =>
          if String.eqb t "" then Ok (d, select_a_tag)
          else
            updates ← new_updates fn existing now;
            d' ← update_asset d t updates;
            Ok (d', asset_updated t)
      end
  end.

End Sqlite.

(** ** The workbook variant, tester_copyUpdatesFixFinal.py *)

Module Sheet.

(** A row of the data frame: its cells by column label.  A cell that is
    not there reads as NaN. *)
Definition frame := list (gmap string value).

Definition NaN : value := PyFloat PrimFloat.nan.

Definition at_ (r : gmap string value) (col : string) : value :=
  match r !! col with Some v => v | None => NaN end.

(** The text that [pd.read_excel] reads as a missing value. *)
Definition na_values : list string :=
  [""; "#N/A"; "#N/A N/A"; "#NA"; "-1.#IND"; "-1.#QNAN"; "-NaN"; "-nan";
   "1.#IND"; "1.#QNAN"; "<NA>"; "N/A"; "NA"; "NULL"; "NaN"; "None"; "n/a";
   "nan"; "null"].

(** What a cell written by [to_excel] is when [read_excel] reads it back:
    an empty cell and missing-value text are NaN.  ([read_excel] also turns
    a column whose text cells all read as numbers into numbers; no column
    this development looks at is such a column, and that is left out.) *)
Definition read_back (v : value) : value :=
  match v with
  | PyNone => NaN
  | PyStr s => if existsb (String.eqb s) na_values then NaN else v
  | _ => v
  end.

(** The workbook holds the frame last written by [save_data]; a workbook
    made by [initialize_excel] holds the header row only. *)
Definition workbook := frame.

Definition initialize_excel : workbook := [].

(** [load_data], lines 56-57. *)
Definition load_data (w : workbook) : frame := map (fmap read_back) w.

(** [save_data], lines 60-61. *)
Definition save_data (df : frame) : workbook := df.

(** The exact value of an integral float against an integer. *)
Definition float_eqb_Z (f : float) (z : Z) : bool :=
  match FloatOps.Prim2SF f with
  | SpecFloat.S754_zero _ => Z.eqb z 0
  | SpecFloat.S754_finite s m e =>
      let sm := if s then Z.neg m else Z.pos m in
      if (0 <=? e)%Z then Z.eqb z (sm * 2 ^ e) else Z.eqb (z * 2 ^ (- e)) sm
  | _ => false
  end.

(** [a == b] on two cells. *)
Definition py_eq (a b : value) : bool :=
  match a, b with
  | PyNone, PyNone => true
  | PyStr x, PyStr y => String.eqb x y
  | PyInt x, PyInt y => Z.eqb x y
  | PyFloat x, PyFloat y => PrimFloat.eqb x y
  | PyInt x, PyFloat y | PyFloat y, PyInt x => float_eqb_Z y x
  | PyDate x, PyDate y =>
      Nat.eqb (year x) (year y) && Nat.eqb (month x) (month y)
      && Nat.eqb (day x) (day y)
  | _, _ => false
  end.

(** [df[df["Asset Tag"] == asset_tag].index[0]] *)
Fixpoint first_index (asset_tag : value) (df : frame) : result nat :=
  match df with
  | [] => Raise IndexError
  | r :: rest =>
      if py_eq (at_ r "Asset Tag") asset_tag then Ok O
      else i ← first_index asset_tag rest; Ok (S i)
  end.

(** The dictionary [form_data] the form loop fills, lines 142-196, in the
    order of COLUMNS. *)
Definition form_data (frm : form) : dict :=
  [("Asset Name", PyStr (Asset_Name frm));
   ("Category", PyStr (Category frm));
   ("Description", PyStr (Description frm));
   ("Serial Number", PyStr (Serial_Number frm));
   ("Assigned To", PyStr (Assigned_To frm));
   ("Department", PyStr (Department frm));
   ("Purchase Date", PyDate (Purchase_Date frm));
   ("Purchase Price (GHS)", PyFloat (Purchase_Price frm));
   ("Condition", PyStr (Condition frm));
   ("Location", PyStr (Location frm));
   ("Status", PyStr (Status frm));
   ("Warranty End Date", PyDate (Warranty_End_Date frm));
   ("Maintenance Schedule", PyStr (Maintenance_Schedule frm));
   ("Disposal Date",
    match Disposal_Date frm with Some d => PyDate d | None => PyNone end);
   ("Notes", PyStr (Notes frm))].

(** The tag of a new asset, lines 205-209. *)
Definition new_asset_tag (form_data : dict) : result string :=
  sn ← getitem form_data "Serial Number";
  serial ← (if truthy sn then s ← py_str sn; Ok (zfill 4 s) else Ok "0000");
  dp ← getitem form_data "Department";
  dept ← (if truthy dp then slice3_upper dp else Ok "GEN");
  lc ← getitem form_data "Location";
  loc ← (if truthy lc then slice3_upper lc else Ok "LOC");
  an ← getitem form_data "Asset Name";
  asset ← (if truthy an then slice3_upper an else Ok "AST");
  Ok (asset +:+ "-" +:+ loc +:+ "-" +:+ dept +:+ "-" +:+ serial).

(** [x + 1] *)
Definition plus_one (x : value) : result value :=
  match x with
  | PyInt z => Ok (PyInt (z + 1))
  | PyFloat f => Ok (PyFloat (PrimFloat.add f 1%float))
  | _ => Raise TypeError
  end.

(** The update of row [idx], lines 223-230. *)
Definition update_row (fd : dict) (now : string) (r : gmap string value)
  : result (gmap string value) :=
  let r := foldl (fun r kv => <[fst kv := snd kv]> r) r fd in
  let r := <["Last Updated" := PyStr now]> r in
  n ← plus_one (if negb (isna (at_ r "Update Count"))
                then at_ r "Update Count" else PyInt 0);
  let r := <["Update Count" := n]> r in
  prev_history ← py_str (at_ r "Update History");
  let hist :=
    if negb (existsb (String.eqb prev_history) [""; "nan"; "None"])
    then prev_history +:+ " | " +:+ now
    else now in
  Ok (<["Update History" := PyStr hist]> r).

Inductive notice :=
| asset_added (name new_tag : string)
| asset_updated (asset_tag : value).

(** The "Add/Update Asset" page when "Save Asset" is pressed, lines
    127-234.  An exception ends the run before [save_data]. *)
Definition add_update_asset (w : workbook) (act : action) (pick : nat)
  (frm : form) (clock : datetime) : result (workbook * notice) :=
  let df := load_data w in
  asset_tag ← match act, df with
              | Update_Existing_Asset, _ :: _ =>
                  match selectbox (map (fun r => at_ r "Asset Tag") df) pick with
                  | Some t => _ ← first_index t df; Ok t
                  | None => Ok PyNone
                  end
              | _, _ => Ok PyNone
              end;
  let fd := form_data frm in
  let now := strftime_datetime clock in
  match act with
  | Add_New_Asset =>
      new_tag ← new_asset_tag fd;
      let fd := dict_set fd "Asset Tag" (PyStr new_tag) in
      let fd := dict_set fd "Date Added" (PyStr now) in
      let fd := dict_set fd "Last Updated" (PyStr now) in
      let fd := dict_set fd "Update Count" (PyInt 0) in
      let fd := dict_set fd "Update History" (PyStr "") in
      let df := (df ++ [list_to_map fd])%list in
      Ok (save_data df, asset_added (Asset_Name frm) new_tag)
  | Update_Existing_Asset =>
      idx ← first_index asset_tag df;
      match df !! idx with
      | None => Raise IndexError
      | Some r =>
          r' ← update_row fd now r;
          let df := <[idx := r']> df in
          Ok (save_data df, asset_updated asset_tag)
      end
  end.

End Sheet.

(** ** The library functions behind the credential store

    [hashlib.pbkdf2_hmac("sha256", ...)], [base64.b64encode] and
    [base64.b64decode] are Python's; they are written out here after
    FIPS 180-4, RFC 2104, RFC 8018 and CPython's [binascii], so that
    [add_user] and [verify_user] are closed functions.  A [bytes] object is
    a [string]: one [ascii] per byte. *)

Module Hashlib.

Definition byte_val (c : ascii) : Z := Z.of_N (N_of_ascii c).

Definition byte_chr (z : Z) : ascii := ascii_of_N (Z.to_N (z mod 256)).

Definition mask32 (x : Z) : Z := Z.land x 0xFFFFFFFF.

Definition add32 (x y : Z) : Z := mask32 (x + y).

Definition rotr (n x : Z) : Z :=
  Z.lor (Z.shiftr x n) (mask32 (Z.shiftl x (32 - n))).

Definition Ch (x y z : Z) : Z :=
  Z.lxor (Z.land x y) (Z.land (Z.lxor x 0xFFFFFFFF) z).

Definition Maj (x y z : Z) : Z :=
  Z.lxor (Z.lxor (Z.land x y) (Z.land x z)) (Z.land y z).

Definition Sigma0 (x : Z) : Z :=
  Z.lxor (Z.lxor (rotr 2 x) (rotr 13 x)) (rotr 22 x).

Definition Sigma1 (x : Z) : Z :=
  Z.lxor (Z.lxor (rotr 6 x) (rotr 11 x)) (rotr 25 x).

Definition sigma0 (x : Z) : Z :=
  Z.lxor (Z.lxor (rotr 7 x) (rotr 18 x)) (Z.shiftr x 3).

Definition sigma1 (x : Z) : Z :=
  Z.lxor (Z.lxor (rotr 17 x) (rotr 19 x)) (Z.shiftr x 10).

Definition K256 : list Z :=
  [1116352408; 1899447441; 3049323471; 3921009573; 961987163; 1508970993;
   2453635748; 2870763221; 3624381080; 310598401; 607225278; 1426881987;
   1925078388; 2162078206; 2614888103; 3248222580; 3835390401; 4022224774;
   264347078; 604807628; 770255983; 1249150122; 1555081692; 1996064986;
   2554220882; 2821834349; 2952996808; 3210313671; 3336571891; 3584528711;
   113926993; 338241895; 666307205; 773529912; 1294757372; 1396182291;
   1695183700; 1986661051; 2177026350; 2456956037; 2730485921; 2820302411;
   3259730800; 3345764771; 3516065817; 3600352804; 4094571909; 275423344;
   430227734; 506948616; 659060556; 883997877; 958139571; 1322822218;
   1537002063; 1747873779; 1955562222; 2024104815; 2227730452; 2361852424;
   2428436474; 2756734187; 3204031479; 3329325298]%Z.

Definition H256 : list Z :=
  [1779033703; 3144134277; 1013904242; 2773480762; 1359893119; 2600822924;
   528734635; 1541459225]%Z.

(** The message schedule, newest word first. *)
Fixpoint schedule (n : nat) (w : list Z) : list Z :=
  match n with
  | O => w
  | S n' =>
      schedule n'
        (add32 (add32 (sigma1 (nth 1 w 0%Z)) (nth 6 w 0%Z))
               (add32 (sigma0 (nth 14 w 0%Z)) (nth 15 w 0%Z)) :: w)
  end.

Definition round (st : list Z) (kw : Z * Z) : list Z :=
  match st with
  | [a; b; c; d; e; f; g; h] =>
      let t1 := add32 (add32 (add32 h (Sigma1 e)) (add32 (Ch e f g) (fst kw)))
                      (snd kw) in
      let t2 := add32 (Sigma0 a) (Maj a b c) in
      [add32 t1 t2; a; b; c; add32 d t1; e; f; g]
  | _ => st
  end.

Fixpoint be_words (bs : list Z) : list Z :=
  match bs with
  | a :: b :: c :: d :: rest =>
      (a * 16777216 + b * 65536 + c * 256 + d)%Z :: be_words rest
  | _ => []
  end.

Definition compress (h : list Z) (block : list Z) : list Z :=
  let w := rev (schedule 48 (rev (be_words block))) in
  zip_with add32 h (fold_left round (zip K256 w) h).

Fixpoint compress_all (fuel : nat) (h : list Z) (bs : list Z) : list Z :=
  match fuel, bs with
  | S fuel', _ :: _ => compress_all fuel' (compress h (firstn 64 bs)) (skipn 64 bs)
  | _, _ => h
  end.

Fixpoint be_bytes (n : nat) (x : Z) : list Z :=
  match n with
  | O => []
  | S n' => (be_bytes n' (x / 256) ++ [x mod 256])%list%Z
  end.

Definition pad (bs : list Z) : list Z :=
  let len := Z.of_nat (length bs) in
  (bs ++ [0x80%Z] ++ repeat 0%Z (Z.to_nat ((55 - len) mod 64))
      ++ be_bytes 8 (8 * len))%list.

Definition bytes_in (s : string) : list Z :=
  map byte_val (list_ascii_of_string s).

Definition bytes_out (bs : list Z) : string :=
  string_of_list_ascii (map byte_chr bs).

(** [hashlib.sha256(data).digest()] *)
Definition sha256 (data : string) : string :=
  let bs := pad (bytes_in data) in
  bytes_out (flat_map (be_bytes 4) (compress_all (length bs) H256 bs)).

Definition xor_with (x : Z) (s : string) : string :=
  bytes_out (map (fun b => Z.lxor b x) (bytes_in s)).

Definition xor_bytes (a b : string) : string :=
  bytes_out (zip_with Z.lxor (bytes_in a) (bytes_in b)).

Fixpoint nul_bytes (n : nat) : string :=
  match n with
  | O => EmptyString
  | S m => String zero (nul_bytes m)
  end.

(** The key of an HMAC as it enters the hash: hashed when longer than a
    block, then filled with zero bytes up to the block of 64. *)
Definition hmac_key (key : string) : string :=
  let k := if (64 <? String.length key)%nat then sha256 key else key in
  k +:+ nul_bytes (64 - String.length k).

Definition hmac_block (k msg : string) : string :=
  sha256 (xor_with 0x5c k +:+ sha256 (xor_with 0x36 k +:+ msg)).

(** [hmac.digest(key, msg, "sha256")] *)
Definition hmac_sha256 (key msg : string) : string :=
  hmac_block (hmac_key key) msg.

(** PBKDF2 with one block of output, [U1 xor U2 xor ... xor Uc], under the
    key [k] as it enters the hash. *)
Definition pbkdf2_block (k salt : string) (iterations : positive) : string :=
  let u1 := hmac_block k (salt +:+ String zero (String zero (String zero
                            (String (ascii_of_nat 1) EmptyString)))) in
  snd (N.iter (Pos.pred_N iterations)
         (fun ut : string * string =>
            let u := hmac_block k (fst ut) in (u, xor_bytes (snd ut) u))
         (u1, u1)).

(** [hashlib.pbkdf2_hmac("sha256", password, salt, iterations)] *)
Definition pbkdf2_hmac_sha256_def (password salt : string)
  (iterations : positive) : string :=
  pbkdf2_block (hmac_key password) salt iterations.

(** The function is used under a seal, with its equation beside it: no
    proof step then runs the 200000 rounds of [_pbkdf2_hash] by unfolding. *)
Definition pbkdf2_hmac_sha256_aux : seal pbkdf2_hmac_sha256_def.
Proof. by eexists. Qed.

Definition pbkdf2_hmac_sha256 : string -> string -> positive -> string :=
  unseal pbkdf2_hmac_sha256_aux.


End Hashlib.

Module Base64.

Definition alphabet : string :=
  "ABCDEFGHIJKLMNOPQRSTUVWXYZabcdefghijklmnopqrstuvwxyz0123456789+/".

Definition b64_char (n : nat) : ascii :=
  match String.get n alphabet with
  | Some c => c
  | None => "="%char
  end.

Fixpoint index_from (i : nat) (c : ascii) (s : string) : option nat :=
  match s with
  | EmptyString => None
  | String x r => if Ascii.eqb x c then Some i else index_from (S i) c r
  end.

(** The six bits a character of the alphabet stands for. *)
Definition b64_val (c : ascii) : option nat := index_from 0 c alphabet.

(** [base64.b64encode(bs)]: three bytes make four characters, and a last
    group of one or two bytes is filled up with "=". *)
Fixpoint b64encode (bs : string) : string :=
  match bs with
  | EmptyString => EmptyString
  | String a EmptyString =>
      let x := code a in
      String (b64_char (x / 4)) (String (b64_char (x mod 4 * 16)) "==")
  | String a (String b EmptyString) =>
      let x := code a in
      let y := code b in
      String (b64_char (x / 4))
        (String (b64_char (x mod 4 * 16 + y / 16))
           (String (b64_char (y mod 16 * 4)) "="))
  | String a (String b (String c rest)) =>
      let x := code a in
      let y := code b in
      let z := code c in
      String (b64_char (x / 4))
        (String (b64_char (x mod 4 * 16 + y / 16))
           (String (b64_char (y mod 16 * 4 + z / 64))
              (String (b64_char (z mod 64)) (b64encode rest))))
  end.

(** [binascii.a2b_base64] as [b64decode] calls it (not strict): the loop
    over the characters, with the position in the group of four, the bits
    left over from the character before and the count of "=" seen.  A
    character outside the alphabet is skipped; padding that completes a
    group ends the input; a group cut short is an error. *)
Fixpoint a2b_base64 (s : string) (quad_pos leftchar pads : nat)
  : result string :=
  match s with
  | EmptyString =>
      if (quad_pos =? 0)%nat then Ok EmptyString else Raise BinasciiError
  | String c r =>
      if Ascii.eqb c "=" then
        if (2 <=? quad_pos)%nat && (4 <=? quad_pos + S pads)%nat
        then Ok EmptyString
        else a2b_base64 r quad_pos leftchar
               (if (2 <=? quad_pos)%nat then S pads else pads)
      else
        match b64_val c with
        | None => a2b_base64 r quad_pos leftchar pads
        | Some v =>
            match quad_pos with
            | 0 => a2b_base64 r 1 v 0
            | 1 =>
                rest ← a2b_base64 r 2 (v mod 16) 0;
                Ok (String (ascii_of_nat (leftchar * 4 + v / 16)) rest)
            | 2 =>
                rest ← a2b_base64 r 3 (v mod 4) 0;
                Ok (String (ascii_of_nat (leftchar * 16 + v / 4)) rest)
            | _ =>
                rest ← a2b_base64 r 0 0 0;
                Ok (String (ascii_of_nat (leftchar * 64 + v)) rest)
            end
        end
  end.

(** [base64.b64decode(s)] of a [str]: it must be ASCII. *)
Definition b64decode (s : string) : result string :=
  if all_chars is_ascii_char s then a2b_base64 s 0 0 0 else Raise ValueError.

End Base64.

(** ** The credential store, asset_manager.py lines 122-157 *)

Module Auth.

Import Sqlite.

(** [_pbkdf2_hash]: the password is ASCII, its UTF-8 encoding itself. *)
Definition _pbkdf2_hash (password salt : string) : string :=
  let dk := Hashlib.pbkdf2_hmac_sha256 password salt 200000 in
  Base64.b64encode dk.

(** [secrets.compare_digest(a, b)] of two [str]: both must be ASCII. *)
Definition compare_digest (a b : string) : result bool :=
  if all_chars is_ascii_char a && all_chars is_ascii_char b
  then Ok (String.eqb a b)
  else Raise TypeError.

(** [add_user]: [token_bytes] is what [secrets.token_bytes(16)] returns on
    this call.  INSERT OR REPLACE puts the row in the place of one with the
    same user name. *)
Definition add_user (d : db) (username password role token_bytes : string)
  : result db :=
  if negb (bool_decide (role ∈ ["admin"; "user"])) then Raise ValueError
  else
    let salt := token_bytes in
    let pwd_hash := _pbkdf2_hash password salt in
    let salt_b64 := Base64.b64encode salt in
    match users d with
    | None => Raise OperationalError
    | Some us =>
        Ok (with_users d
              (<[username := {| password_hash := pwd_hash;
                                salt := salt_b64;
                                role := role |}]> us))
    end.

(** [verify_user] *)
Definition verify_user (d : db) (username password : string)
  : result (bool * option string) :=
  match users d with
  | None => Raise OperationalError
  | Some us =>
      match us !! username with
      | None => Ok (false, None)
      | Some row =>
          salt ← Base64.b64decode (salt row);
          let derived := _pbkdf2_hash password salt in
          same ← compare_digest derived (password_hash row);
          match same with
          | true => Ok (true, Some (role row))
          | false => Ok (false, None)
          end
      end
  end.

End Auth.

(** ** The dashboard, asset_manager.py lines 532-630 *)

Module Dashboard.

Import Sqlite.

(** [fdf[col].isin(selected)] at one row *)
Definition isin (selected : list string) (v : option string) : bool :=
  match v with
  | Some s => bool_decide (s ∈ selected)
  | None => false
  end.

(** [if selected: fdf = fdf[fdf[col].isin(selected)]] *)
Definition keep_isin (c : text_column) (selected : list string)
  (fdf : list row) : list row :=
  match selected with
  | [] => fdf
  | _ :: _ => filter (fun r => isin selected (text r c) = true) fdf
  end.

(** [Series.astype(str)] at one cell of a text column *)
Definition astype_str (v : option string) : string :=
  match v with
  | Some s => s
  | None => "None"
  end.

Fixpoint bump (s : string) (counts : list (string * nat))
  : list (string * nat) :=
  match counts with
  | [] => [(s, 1%nat)]
  | (k, n) :: rest =>
      if String.eqb k s then (k, S n) :: rest else (k, n) :: bump s rest
  end.

Fixpoint insert_count (kn : string * nat) (sorted : list (string * nat))
  : list (string * nat) :=
  match sorted with
  | [] => [kn]
  | x :: rest =>
      if (snd x <=? snd kn)%nat then kn :: sorted
      else x :: insert_count kn rest
  end.

(** [Series.value_counts()]: the values that are not null with how often
    each occurs, the most frequent first. *)
Definition value_counts (col : list (option string)) : list (string * nat) :=
  foldr insert_count []
    (foldl (fun acc v => match v with Some s => bump s acc | None => acc end)
       [] col).

Section Filters.

(** [Series.str.contains(pat, case=False, na=False)] at one cell: Python's
    regular-expression search of [pat] in the text. *)
Variable contains : string -> string -> bool.

(** [pd.to_datetime(_, errors="coerce")] of a purchase date as a point in
    time, [None] for NaT, and [pd.to_datetime] of a [date]. *)
Variable to_datetime : option string -> option Z.
Variable date_to_datetime : date -> Z.

(** The filter block, lines 566-585.  After the renaming [friendly] the
    frame has no column "Description", and the search reads a column of
    empty text in its place. *)
Definition filtered (search_text : string)
  (f_category f_dept f_cond f_status : list string) (date_range : list date)
  (friendly : list row) : list row :=
  let fdf := friendly in
  let fdf :=
    if negb (String.eqb search_text "")
    then filter
           (fun r =>
              contains search_text (astype_str (text r asset_name))
              || contains search_text (astype_str (text r asset_tag))
              || contains search_text "" = true)
           fdf
    else fdf in
  let fdf := keep_isin category f_category fdf in
  let fdf := keep_isin department f_dept fdf in
  let fdf := keep_isin condition f_cond fdf in
  let fdf := keep_isin status f_status fdf in
  match date_range with
  | [start; end_] =>
      filter
        (fun r =>
           match to_datetime (text r purchase_date) with
           | Some t =>
               (date_to_datetime start <=? t)%Z && (t <=? date_to_datetime end_)%Z
           | None => false
           end = true)
        fdf
  | _ => fdf
  end.

(** The counts shown for the filtered frame, lines 588-606 (the sum of the
    prices, a float sum, is not part of this record). *)
Record report := {
  total_assets : nat;
  disposed_assets : nat;
  in_use_assets : nat;
  cat_counts : list (string * nat);
  dept_counts : list (string * nat);
  fdf_shown : list row
}.

Definition count_status (s : string) (fdf : list row) : nat :=
  length (filter (fun r => text r status = Some s) fdf).

(** The "Dashboard" page: [None] stands for the warning "No data
    available." *)
Definition dashboard (d : db) (search_text : string)
  (f_category f_dept f_cond f_status : list string) (date_range : list date)
  : result (option report) :=
  df ← get_all_assets_df d;
  match df with
  | [] => Ok None
  | _ :: _ =>
      let fdf := filtered search_text f_category f_dept f_cond f_status
                   date_range df in
      Ok (Some {| total_assets := length fdf;
                  disposed_assets := count_status "Disposed" fdf;
                  in_use_assets := count_status "In Use" fdf;
                  cat_counts := value_counts (map (fun r => text r category) fdf);
                  dept_counts :=
                    value_counts (map (fun r => text r department) fdf);
                  fdf_shown := fdf |})
  end.

End Filters.

End Dashboard.

(** ** Runs of the application *)

(** What a user of the SQLite variant can do to the database: press "Save
    Asset" on the asset page, or "Add / Update User" on the user page (the
    page refuses an empty name or password before it calls [add_user]). *)
Inductive event :=
| Save_Asset (act : action) (pick : nat) (frm : form) (clock : datetime)
| Add_Update_User (new_user new_pw new_role token_bytes : string).

(** A run that ends in an exception has written nothing. *)
Definition sqlite_step (d : Sqlite.db) (e : event) : Sqlite.db :=
  match e with
  | Save_Asset act pick frm clock =>
      match Sqlite.add_update_asset d act pick frm clock with
      | Ok (d', _) => d'
      | Raise _ => d
      end
  | Add_Update_User new_user new_pw new_role token_bytes =>
      if String.eqb new_user "" || String.eqb new_pw "" then d
      else match Auth.add_user d new_user new_pw new_role token_bytes with
           | Ok d' => d'
           | Raise _ => d
           end
  end.

Definition sqlite_run (events : list event) (d : Sqlite.db) : Sqlite.db :=
  foldl sqlite_step d events.

(** A run in which only the asset page is used. *)
Definition save_event (e : action * nat * form * datetime) : event :=
  match e with
  | (act, pick, frm, clock) => Save_Asset act pick frm clock
  end.

(** The workbook variant has the asset page only. *)
Definition sheet_step (w : Sheet.workbook)
  (e : action * nat * form * datetime) : Sheet.workbook :=
  match e with
  | (act, pick, frm, clock) =>
      match Sheet.add_update_asset w act pick frm clock with
      | Ok (w', _) => w'
      | Raise _ => w
      end
  end.

Definition sheet_run (events : list (action * nat * form * datetime))
  (w : Sheet.workbook) : Sheet.workbook :=
  foldl sheet_step w events.

(** ** The update history as text *)

(** [h.split(" | ")] *)
Definition push_char (c : ascii) (parts : list string) : list string :=
  match parts with
  | x :: xs => String c x :: xs
  | [] => [String c EmptyString]
  end.

Fixpoint split_bar (h : string) : list string :=
  match h with
  | EmptyString => [EmptyString]
  | String c rest =>
      match rest with
      | String c1 (String c2 rest') =>
          if Ascii.eqb c " " && Ascii.eqb c1 "|" && Ascii.eqb c2 " "
          then EmptyString :: split_bar rest'
          else push_char c (split_bar rest)
      | _ => push_char c (split_bar rest)
      end
  end.

(** [" | ".join(stamps)] *)
Fixpoint join_bar (stamps : list string) : string :=
  match stamps with
  | [] => EmptyString
  | [t] => t
  | t :: rest => t +:+ " | " +:+ join_bar rest
  end.

(** The characters of a time stamp "YYYY-MM-DD HH:MM:SS". *)
Definition stamp_char (c : ascii) : bool :=
  is_digit c || Ascii.eqb c "-" || Ascii.eqb c " " || Ascii.eqb c ":".

Definition is_stamp (t : string) : bool :=
  all_chars stamp_char t && (19 <=? String.length t)%nat.

(** The update-history tracker as the specification words it:
    "newCount = oldCount + 1", "newHistory = oldHistory is empty ?
    currentTimestamp : oldHistory + ' | ' + currentTimestamp". *)
Definition new_count (old_count : Z) : Z := old_count + 1.

Definition new_history (old_history now : string) : string :=
  if String.eqb old_history "" then now else old_history +:+ " | " +:+ now.

(** The counter and the history of a stored row, NULL read as 0 and as
    the empty history. *)
Definition old_count (r : Sqlite.row) : Z :=
  match Sqlite.count r with Some n => n | None => 0 end.

Definition old_history (r : Sqlite.row) : string :=
  match Sqlite.text r Sqlite.update_history with Some h => h | None => "" end.

(** The same two of a row of the workbook as [load_data] reads it: an
    empty cell is NaN. *)
Definition sheet_old_count (r : gmap string value) : Z :=
  match Sheet.at_ r "Update Count" with PyInt n => n | _ => 0 end.

Definition sheet_old_history (r : gmap string value) : string :=
  match Sheet.at_ r "Update History" with PyStr h => h | _ => "" end.

(** The number of entries of a history: none in an empty one. *)
Definition history_entries (h : string) : nat :=
  if String.eqb h "" then 0%nat else length (split_bar h).

(** The counter of a row of [assets] against its history. *)
Definition history_consistent (r : Sqlite.row) : bool :=
  match Sqlite.count r, Sqlite.text r Sqlite.update_history with
  | Some n, Some h => Z.eqb n (Z.of_nat (history_entries h))
  | _, _ => false
  end.

(** The same for a row of the workbook as [load_data] reads it: an empty
    history reads as NaN. *)
Definition sheet_history_consistent (r : gmap string value) : bool :=
  match Sheet.at_ r "Update Count", Sheet.at_ r "Update History" with
  | PyInt n, PyStr h => Z.eqb n (Z.of_nat (history_entries h))
  | PyInt n, PyFloat f => is_nan f && Z.eqb n 0
  | _, _ => false
  end.

(** ** The tag as the specification words it *)

(** "if a source field is empty/absent, substitute the three-letter literal
    default ... before truncation" *)
Definition or_default (dflt : string) (field : option string) : string :=
  match field with
  | Some s => if String.eqb s "" then dflt else s
  | None => dflt
  end.

(** "zero-left-padded to 4 characters" *)
Definition zero_left_pad (width : nat) (s : string) : string :=
  zeros (width - String.length s) +:+ s.

(** "if absent, the literal 0000 is used verbatim" *)
Definition spec_serial (serial : option string) : string :=
  match serial with
  | Some s => if String.eqb s "" then "0000" else zero_left_pad 4 s
  | None => "0000"
  end.

Definition spec_tag (name loc dept serial : option string) : string :=
  upper (take_str 3 (or_default "AST" name)) +:+ "-"
  +:+ upper (take_str 3 (or_default "LOC" loc)) +:+ "-"
  +:+ upper (take_str 3 (or_default "GEN" dept)) +:+ "-"
  +:+ spec_serial serial.

(** The serial part as the code builds it: [zfill] in the place of the
    plain padding. *)
Definition zfill_serial (serial : option string) : string :=
  match serial with
  | Some s => if String.eqb s "" then "0000" else zfill 4 s
  | None => "0000"
  end.

Definition tag_of (name loc dept serial : option string) : string :=
  upper (take_str 3 (or_default "AST" name)) +:+ "-"
  +:+ upper (take_str 3 (or_default "LOC" loc)) +:+ "-"
  +:+ upper (take_str 3 (or_default "GEN" dept)) +:+ "-"
  +:+ zfill_serial serial.

(** The tag of a submitted form, whose four fields are all text. *)
Definition form_tag (frm : form) : string :=
  tag_of (Some (Asset_Name frm)) (Some (Location frm)) (Some (Department frm))
    (Some (Serial_Number frm)).

(** A field as the tag generator may find it: not there, [None], or text. *)
Definition as_text (v : value) : option (option string) :=
  match v with
  | PyNone => Some None
  | PyStr s => Some (Some s)
  | _ => None
  end.

(** [tag.split("-")] *)
Fixpoint split_dash (s : string) : list string :=
  match s with
  | EmptyString => [EmptyString]
  | String c rest =>
      if Ascii.eqb c "-" then EmptyString :: split_dash rest
      else match split_dash rest with
           | x :: xs => String c x :: xs
           | [] => [String c EmptyString]
           end
  end.

(** The shape XXX-XXX-XXX-NNNN: four parts between dashes, three of three
    characters and a last one of four digits. *)
Definition matches_shape (tag : string) : bool :=
  match split_dash tag with
  | [a; b; c; n] =>
      (String.length a =? 3)%nat && (String.length b =? 3)%nat
      && (String.length c =? 3)%nat && (String.length n =? 4)%nat
      && all_chars is_digit n
  | _ => false
  end.

Definition no_dash (s : string) : bool :=
  all_chars (fun c => negb (Ascii.eqb c "-")) s.

(** A sign in front, which [zfill] keeps in front. *)
Definition signed (s : string) : bool :=
  match s with
  | String c _ => is_sign c
  | EmptyString => false
  end.

Definition signed_serial (serial : option string) : bool :=
  match serial with Some s => signed s | None => false end.

(** A field that fills its part of the tag: three characters or more once
    the default is in, and no dash among the first three. *)
Definition fills_segment (dflt : string) (field : option string) : bool :=
  (3 <=? String.length (or_default dflt field))%nat
  && no_dash (take_str 3 (or_default dflt field)).

(** A serial number that makes four digits: none, or at most four digits. *)
Definition four_digits (serial : option string) : bool :=
  match serial with
  | Some s => (String.length s <=? 4)%nat && all_chars is_digit s
  | None => true
  end.

(** ** Sample data *)

Definition today : date := {| year := 2024; month := 3; day := 7 |}.

Definition nine : datetime :=
  {| dt_date := today; hour := 9; minute := 5; second := 0 |}.

Definition ten : datetime :=
  {| dt_date := today; hour := 10; minute := 30; second := 0 |}.

(** The asset of the specification's example, in the IT department. *)
Definition dell_form : form :=
  {| Category := "Laptop"; Department := "IT"; Condition := "New";
     Status := "In Use"; Asset_Name := "Dell"; Description := "";
     Serial_Number := "1"; Assigned_To := ""; Location := "Accra";
     Notes := ""; Purchase_Date := today; Warranty_End_Date := today;
     Maintenance_Schedule := ""; Disposal_Date := None;
     Purchase_Price := 10%float |}.

Definition printer_form : form :=
  {| Category := "Printer"; Department := "Finance"; Condition := "Good";
     Status := "In Storage"; Asset_Name := "Canon"; Description := "";
     Serial_Number := "27"; Assigned_To := ""; Location := "Kumasi";
     Notes := ""; Purchase_Date := today; Warranty_End_Date := today;
     Maintenance_Schedule := ""; Disposal_Date := None;
     Purchase_Price := 25%float |}.

(** The fields of the specification's example as a dictionary. *)
Definition dell : dict :=
  [("Asset Name", PyStr "Dell"); ("Location", PyStr "Accra");
   ("Department", PyStr "IT "); ("Serial Number", PyStr "1")].

Definition canon : dict :=
  [("Asset Name", PyStr "Canon"); ("Location", PyStr "Kumasi");
   ("Department", PyStr "Finance"); ("Serial Number", PyStr "27")].

(** The database after [init_db] on a new file. *)
Definition empty_db : Sqlite.db := Sqlite.init_db None Sqlite.fresh.

(** The Dell laptop is added at five past nine ... *)
Definition first_save : event := Save_Asset Add_New_Asset 0 dell_form nine.

Definition one_asset : Sqlite.db := sqlite_run [first_save] empty_db.

(** ... and saved again, unchanged, at half past ten. *)
Definition one_asset_updated : Sqlite.db :=
  sqlite_run [first_save; Save_Asset Update_Existing_Asset 0 dell_form ten]
    empty_db.


(** The same two saves in the workbook variant. *)
Definition one_row : Sheet.workbook :=
  sheet_run [(Add_New_Asset, 0%nat, dell_form, nine)] Sheet.initialize_excel.

Definition one_row_updated : Sheet.workbook :=
  sheet_run [(Add_New_Asset, 0%nat, dell_form, nine);
             (Update_Existing_Asset, 0%nat, dell_form, ten)]
    Sheet.initialize_excel.

(** The Dell laptop added twice to the workbook. *)
Definition dell_twice : Sheet.workbook :=
  sheet_run [(Add_New_Asset, 0%nat, dell_form, nine);
             (Add_New_Asset, 0%nat, dell_form, ten)]
    Sheet.initialize_excel.

(** The Dell laptop, then the Canon printer. *)
Definition dell_then_canon : Sheet.workbook :=
  sheet_run [(Add_New_Asset, 0%nat, dell_form, nine);
             (Add_New_Asset, 0%nat, printer_form, ten)]
    Sheet.initialize_excel.

(** The same two in the database. *)
Definition two_assets : Sqlite.db :=
  sqlite_run [first_save; Save_Asset Add_New_Asset 0 printer_form ten] empty_db.

(** [form_norm] of the Dell form. *)
Definition dell_norm : dict :=
  match Sqlite.form_norm dell_form with
  | Ok fn => fn
  | Raise _ => []
  end.


(** ** Invariants and the data of the examples *)

(** The counter and the history that the "Update Existing Asset" branch
    reads from [existing]. *)
Definition existing_count (existing : option Sqlite.row) : Z :=
  match existing with Some r => old_count r | None => 0 end.

Definition existing_history (existing : option Sqlite.row) : string :=
  match existing with Some r => old_history r | None => "" end.

(** Text without the bar that separates the entries of a history. *)
Definition no_bar (s : string) : bool :=
  all_chars (fun c => negb (Ascii.eqb c "|")) s.

(** A row whose history is the list [ts] of time stamps joined by " | "
    and whose counter is their number. *)
Definition row_inv (r : Sqlite.row) : Prop :=
  exists ts, Forall (fun t => is_stamp t = true) ts
             /\ Sqlite.count r = Some (Z.of_nat (length ts))
             /\ Sqlite.text r Sqlite.update_history = Some (join_bar ts).

Definition db_inv (d : Sqlite.db) : Prop :=
  exists rows, Sqlite.assets d = Some rows /\ Forall row_inv rows
               /\ NoDup (Sqlite.tags rows).

(** A row of the workbook whose history is the time stamps [ts]: the cell
    holds them joined, or NaN once an empty history has been read back. *)
Definition sheet_inv (r : gmap string value) : Prop :=
  exists ts, Forall (fun t => is_stamp t = true) ts
    /\ r !! "Update Count" = Some (PyInt (Z.of_nat (length ts)))
    /\ (r !! "Update History" = Some (PyStr (join_bar ts))
        \/ ts = [] /\ r !! "Update History" = Some Sheet.NaN).

(** The same row as [load_data] returns it. *)
Definition loaded_inv (r : gmap string value) : Prop :=
  exists ts, Forall (fun t => is_stamp t = true) ts
    /\ r !! "Update Count" = Some (PyInt (Z.of_nat (length ts)))
    /\ r !! "Update History"
       = Some (match ts with [] => Sheet.NaN | _ => PyStr (join_bar ts) end).

(** [a] is listed before [b]: it was added no earlier. *)
Definition newer_first (a b : Sqlite.row) : Prop :=
  Sqlite.text_leb (Sqlite.text b Sqlite.date_added)
    (Sqlite.text a Sqlite.date_added) = true.


Definition token0 : string := "0123456789abcdef".

(** ** Fields, keys and values of the embedded fragment *)

(** The first three characters of a field, or of the default in its
    place, are ASCII. *)
Definition ascii_segment (dflt : string) (field : option string) : bool :=
  all_chars is_ascii_char (take_str 3 (or_default dflt field)).




(** ** The categorical filters as the specification words them *)




(** Decide the equalities between named columns that a goal contains. *)
Ltac decide_columns :=
  repeat match goal with
    | |- context [@decide (@eq Sqlite.text_column ?a ?b) ?i] =>
        let x := eval vm_compute in (@decide (@eq Sqlite.text_column a b) i) in
        change (@decide (@eq Sqlite.text_column a b) i) with x; cbv beta iota
    end.

(** ** The fields of a form in a stored row *)

(** What a submitted form puts in each text column of its row; [None] for
    the four columns the form has no field for (the tag, the two time
    stamps and the history), which the page fills itself. *)
Definition form_text (frm : form) (c : Sqlite.text_column)
  : option (option string) :=
  match c with
  | Sqlite.asset_name => Some (Some (Asset_Name frm))
  | Sqlite.category => Some (Some (Category frm))
  | Sqlite.description => Some (Some (Description frm))
  | Sqlite.serial_number => Some (Some (Serial_Number frm))
  | Sqlite.assigned_to => Some (Some (Assigned_To frm))
  | Sqlite.department => Some (Some (Department frm))
  | Sqlite.purchase_date => Some (Some (strftime_date (Purchase_Date frm)))
  | Sqlite.condition => Some (Some (Condition frm))
  | Sqlite.location => Some (Some (Location frm))
  | Sqlite.status => Some (Some (Status frm))
  | Sqlite.warranty_end_date =>
      Some (Some (strftime_date (Warranty_End_Date frm)))
  | Sqlite.maintenance_schedule => Some (Some (Maintenance_Schedule frm))
  | Sqlite.disposal_date =>
      Some (match Disposal_Date frm with
            | Some d => Some (strftime_date d)
            | None => None
            end)
  | Sqlite.notes => Some (Some (Notes frm))
  | Sqlite.asset_tag | Sqlite.date_added | Sqlite.last_updated
  | Sqlite.update_history => None
  end.

(** The row [r] holds the text fields of the form. *)
Definition holds_form (frm : form) (r : Sqlite.row) : Prop :=
  forall c v, form_text frm c = Some v -> Sqlite.text r c = v.

(** The price column after an insert, [float(price or 0)], and after an
    update, the price as it is; a [nan] is stored as NULL, a zero of
    either sign as [0.0]. *)
Definition inserted_price (p : float) : option float :=
  let f := if PrimFloat.eqb p 0 then 0%float else p in
  if is_nan f then None else Some f.

Definition updated_price (p : float) : option float :=
  if is_nan p then None else Some (if PrimFloat.eqb p 0 then 0%float else p).

(** The entries of a history, oldest first. *)
Definition history_list (h : string) : list string :=
  if String.eqb h "" then [] else split_bar h.

(** The workbook with the Dell laptop twice, after the second of the two
    rows is picked on the update page and the form of the printer is
    saved. *)
Definition dell_twice_updated : Sheet.workbook :=
  sheet_step dell_twice (Update_Existing_Asset, 1%nat, printer_form, ten).

(** ** The label sheet, [generate_qr_pdf]

    The function is the same in both variants (asset_manager.py lines
    285-316, tester_copyUpdatesFixFinal.py lines 64-93).  The QR image and
    the bytes of the PDF are reportlab's and qrcode's; what is embedded is
    where the loop puts each label. *)

Module Labels.

(** reportlab's units, [inch = 72.0], [cm = inch / 2.54] and
    [mm = cm * 0.1], and its [A4 = (210 * mm, 297 * mm)], a pair of
    floats.  The two literals are the binary64 values nearest to 2.54 and
    to 0.1. *)
Definition inch : float := 72.
Definition cm : float := inch / 0x1.451eb851eb852p+1.
Definition mm : float := cm * 0x1.999999999999ap-4.
Definition A4 : float * float := (210 * mm, 297 * mm)%float.

(** One pass of the loop: [drawImage(.., x, y, width=100, height=100)] and
    [drawString(x, y - 15, tag)] on the page that is open. *)
Record label := {
  page : nat;
  at_x : Z;
  at_y : float;
  caption : string
}.

(** [x] is an [int] and is compared with a float; the ints that occur,
    from 50 to 500, are floats themselves. *)
Definition int_gt (x : Z) (f : float) : bool :=
  PrimFloat.ltb f (PrimFloat.of_uint63 (Uint63.of_Z x)).

(** The cursor: [x], [y] and the number of [showPage] calls so far. *)
Definition cursor : Type := Z * float * nat.

Definition start (height : float) : cursor :=
  (50%Z, (height - 150)%float, 0%nat).

(** The end of the loop body, lines 306-312. *)
Definition advance (width height : float) (c : cursor) : cursor :=
  match c with
  | (x, y, shown) =>
      let x := (x + 150)%Z in
      if int_gt x (width - 120)
      then
        let x := 50%Z in
        let y := (y - 150)%float in
        if PrimFloat.ltb y 100 then (x, (height - 150)%float, S shown)
        else (x, y, shown)
      else (x, y, shown)
  end.

Fixpoint draw (width height : float) (asset_tags : list string) (c : cursor)
  : list label :=
  match asset_tags with
  | [] => []
  | tag :: rest =>
      match c with
      | (x, y, shown) =>
          {| page := shown; at_x := x; at_y := y; caption := tag |}
          :: draw width height rest (advance width height c)
      end
  end.

(** [generate_qr_pdf]: the labels in the order they are drawn. *)
Definition generate_qr_pdf (asset_tags : list string) : list label :=
  match A4 with
  | (width, height) => draw width height asset_tags (start height)
  end.

(** The four rows of a page, from the top, and the place of the label
    number [k] (from 0): three to a row, twelve to a page. *)
Definition row_y (i : nat) : float :=
  Nat.iter i (fun y => (y - 150)%float) (snd A4 - 150)%float.

Definition place (k : nat) (tag : string) : label :=
  {| page := k / 12;
     at_x := 50 + 150 * Z.of_nat (k mod 3);
     at_y := row_y ((k mod 12) / 3);
     caption := tag |}.

(** The cursor in front of the label number [r] of the page that follows
    [shown] full ones. *)
Definition cursor_at (shown r : nat) : cursor :=
  ((50 + 150 * Z.of_nat (r mod 3))%Z, row_y (r / 3), shown).

(** The image of [a] and its caption lie clear of the image of [b]: on
    another page, 100 or more to the side, or wholly above or below. *)
Definition clear_of (a b : label) : Prop :=
  page a <> page b
  \/ (at_x a + 100 <= at_x b)%Z \/ (at_x b + 100 <= at_x a)%Z
  \/ PrimFloat.leb (at_y a + 100) (at_y b - 15) = true
  \/ PrimFloat.leb (at_y b + 100) (at_y a - 15) = true.

(** The image and the base line of the caption are on the page. *)
Definition on_page (a : label) : Prop :=
  (0 <= at_x a)%Z
  /\ PrimFloat.leb (PrimFloat.of_uint63 (Uint63.of_Z (at_x a + 100))) (fst A4)
     = true
  /\ PrimFloat.leb 0 (at_y a - 15) = true
  /\ PrimFloat.leb (at_y a + 100) (snd A4) = true.

End Labels.

(** ** Time stamps as numbers *)

(** The number a string of digits writes, read from the left on top of
    [acc]. *)
Definition digit_value (c : ascii) : nat := code c - 48.

Fixpoint horner (s : string) (acc : nat) : nat :=
  match s with
  | EmptyString => acc
  | String c r => horner r (10 * acc + digit_value c)
  end.

(** The fields of a clock in one number, YYYYMMDDHHMMSS, and the clocks
    whose fields have the width the format gives them: a year of four
    digits, 1000 to 9999 ([datetime] has years up to 9999, and a year
    below 1000 is not written with four digits by every C library), and
    two digits for each of the others. *)
Definition stamp_number (t : datetime) : nat :=
  ((((year (dt_date t) * 100 + month (dt_date t)) * 100 + day (dt_date t)) * 100
    + hour t) * 100 + minute t) * 100 + second t.

Definition four_two_digit_fields (t : datetime) : Prop :=
  10 * 100 <= year (dt_date t) < 100 * 100
  /\ month (dt_date t) < 100 /\ day (dt_date t) < 100
  /\ hour t < 100 /\ minute t < 100 /\ second t < 100.

(** ** Counting the values of a column *)

(** How often [k] occurs in a column. *)
Definition occurrences (k : string) (col : list (option string)) : nat :=
  length (filter (fun v => v = Some k) col).

(** The count a tally holds for [k], 0 when it has none. *)
Definition held (k : string) (counts : list (string * nat)) : nat :=
  match find (fun kn => String.eqb (fst kn) k) counts with
  | Some kn => snd kn
  | None => 0%nat
  end.

(** The tally over a column, before it is sorted. *)
Definition tally (acc : list (string * nat)) (col : list (option string))
  : list (string * nat) :=
  foldl (fun acc v =>
           match v with
           | Some s => Dashboard.bump s acc
           | None => acc
           end)
    acc col.

(** [a] is listed before [b]: it occurs at least as often. *)
Definition more_often (a b : string * nat) : Prop := (snd b <= snd a)%nat.

(** The dashboard of the database with the laptop and the printer, with
    "Laptop" selected and nothing else; the search and the date filter are
    not used. *)
Definition laptops_report : Dashboard.report :=
  match Dashboard.dashboard (fun _ _ => false) (fun _ => None) (fun _ => 0%Z)
          two_assets "" ["Laptop"] [] [] [] [] with
  | Ok (Some rep) => rep
  | _ => {| Dashboard.total_assets := 0; Dashboard.disposed_assets := 0;
            Dashboard.in_use_assets := 0; Dashboard.cat_counts := [];
            Dashboard.dept_counts := []; Dashboard.fdf_shown := [] |}
  end.

(** * Verification *)

Local Open Scope list_scope.
#[local] Arguments String.append !s1 s2 : simpl nomatch.

Section TagGenerator.

(** * Facts *)

(** ** Text *)

Lemma length_zeros n : String.length (zeros n) = n.
Proof. induction n; simpl; congruence. Qed.

Lemma str_length_app (a b : string) :
  String.length (a +:+ b) = (String.length a + String.length b)%nat.
Proof. induction a; simpl; congruence. Qed.

Lemma all_chars_app p (a b : string) :
  all_chars p (a +:+ b) = all_chars p a && all_chars p b.
Proof. induction a; simpl; [done|]. rewrite IHa. by rewrite andb_assoc. Qed.

Lemma all_chars_zeros p n : p "0"%char = true -> all_chars p (zeros n) = true.
Proof. intros H. induction n; simpl; [done|]. by rewrite H, IHn. Qed.

Lemma all_chars_impl (p q : ascii -> bool) s :
  (forall c, p c = true -> q c = true) ->
  all_chars p s = true -> all_chars q s = true.
Proof.
  intros Hpq. induction s; simpl; [done|].
  intros [Ha Hs]%andb_true_iff. rewrite (Hpq _ Ha). auto.
Qed.

Lemma length_take_str n s : String.length (take_str n s) = Nat.min n (String.length s).
Proof. revert s. induction n; intros [|c r]; simpl; auto. Qed.

(** On an ASCII character [upper] works character by character. *)
Lemma upper_ascii_cons c r :
  is_ascii_char c = true -> upper (String c r) = String (upper_char c) (upper r).
Proof.
  intros Hc.
  destruct c as [[] [] [] [] [] [] [] []];
    first [ by vm_compute in Hc | reflexivity ].
Qed.

Lemma length_upper s :
  all_chars is_ascii_char s = true ->
  String.length (upper s) = String.length s.
Proof.
  induction s as [|c s IH]; [done|]. cbn [all_chars].
  intros [Hc Hs]%andb_true_iff. rewrite upper_ascii_cons by done.
  cbn [String.length]. by rewrite IH.
Qed.

Lemma all_chars_take_str p n s :
  all_chars p s = true -> all_chars p (take_str n s) = true.
Proof.
  revert s. induction n; intros [|c r]; simpl; auto.
  intros [Hc Hr]%andb_true_iff. rewrite Hc. simpl. auto.
Qed.

Lemma string_eqb_empty s : String.eqb s "" = true <-> s = "".
Proof. apply String.eqb_eq. Qed.

Lemma zfill_unsigned w s : signed s = false -> zfill w s = zero_left_pad w s.
Proof.
  unfold zfill, zero_left_pad. intros Hs.
  destruct (Nat.leb_spec w (String.length s)) as [Hle|Hlt].
  - replace (w - String.length s)%nat with 0%nat by lia. done.
  - destruct s as [|c r]; simpl in *.
    + rewrite Nat.sub_0_r. induction w; simpl; [done|]. f_equal.
      clear. induction w; simpl; congruence.
    + by rewrite Hs.
Qed.

Lemma length_zfill w s : String.length (zfill w s) = Nat.max w (String.length s).
Proof.
  unfold zfill. destruct (Nat.leb_spec w (String.length s)) as [Hle|Hlt]; [lia|].
  destruct s as [|c r]; simpl in *.
  - rewrite length_zeros. lia.
  - destruct (is_sign c); simpl; rewrite str_length_app, length_zeros; simpl; lia.
Qed.

Lemma all_chars_zfill p w s :
  p "0"%char = true -> all_chars p s = true -> all_chars p (zfill w s) = true.
Proof.
  intros H0 Hs. unfold zfill. destruct (w <=? String.length s)%nat; [done|].
  destruct s as [|c r]; simpl in *.
  - by apply all_chars_zeros.
  - apply andb_true_iff in Hs as [Hc Hr].
    destruct (is_sign c); simpl; rewrite ?Hc, all_chars_app, all_chars_zeros; simpl;
      rewrite ?Hc, ?Hr; done.
Qed.

(** ** Dictionaries *)

Lemma get_or_truthy d k dflt : truthy (get d k) = true -> get_or d k dflt = get d k.
Proof. unfold get, get_or. by destruct (dict_get d k). Qed.

Lemma dict_get_set_eq d k v : dict_get (dict_set d k v) k = Some v.
Proof.
  induction d as [|[k' v'] r IH]; simpl.
  - by rewrite String.eqb_refl.
  - destruct (String.eqb k' k) eqn:E; simpl; rewrite E; [done|apply IH].
Qed.

Lemma dict_get_set_ne d k k' v : k <> k' -> dict_get (dict_set d k v) k' = dict_get d k'.
Proof.
  intros Hne. induction d as [|[k0 v0] r IH]; simpl.
  - destruct (String.eqb_spec k k'); congruence.
  - destruct (String.eqb_spec k0 k) as [->|Hk]; simpl.
    + destruct (String.eqb_spec k k'); congruence.
    + by rewrite IH.
Qed.

(** ** The tag *)

Lemma slice3_upper_or dflt v field :
  as_text v = Some field ->
  slice3_upper (py_or v (PyStr dflt)) = Ok (upper (take_str 3 (or_default dflt field))).
Proof.
  destruct v; simpl; try discriminate; intros [= <-]; [done|].
  unfold py_or. simpl. by destruct (String.eqb s "").
Qed.

Lemma generate_asset_tag_text fd name loc dept serial :
  as_text (get fd "Asset Name") = Some name ->
  as_text (get fd "Location") = Some loc ->
  as_text (get fd "Department") = Some dept ->
  as_text (get fd "Serial Number") = Some serial ->
  generate_asset_tag fd = Ok (tag_of name loc dept serial).
Proof.
  intros Hn Hl Hd Hs. unfold generate_asset_tag, tag_of.
  rewrite (slice3_upper_or _ _ _ Hn), (slice3_upper_or _ _ _ Hl), (slice3_upper_or _ _ _ Hd).
  destruct (truthy (get fd "Serial Number")) eqn:Ht.
  - rewrite (get_or_truthy _ _ _ Ht).
    destruct (get fd "Serial Number"); simpl in *; try discriminate.
    injection Hs as <-. simpl. apply negb_true_iff in Ht. by rewrite Ht.
  - destruct (get fd "Serial Number"); simpl in *; try discriminate;
      injection Hs as <-; simpl; [done|].
    apply negb_false_iff in Ht. by rewrite Ht.
Qed.

Lemma new_asset_tag_text fd name loc dept serial vn vl vd vs :
  dict_get fd "Asset Name" = Some vn -> as_text vn = Some name ->
  dict_get fd "Location" = Some vl -> as_text vl = Some loc ->
  dict_get fd "Department" = Some vd -> as_text vd = Some dept ->
  dict_get fd "Serial Number" = Some vs -> as_text vs = Some serial ->
  Sheet.new_asset_tag fd = Ok (tag_of name loc dept serial).
Proof.
  intros Gn Hn Gl Hl Gd Hd Gs Hs. unfold Sheet.new_asset_tag, getitem, tag_of.
  rewrite Gn, Gl, Gd, Gs. simpl.
  destruct vs; simpl in Hs; try discriminate; injection Hs as <-;
  destruct vd; simpl in Hd; try discriminate; injection Hd as <-;
  destruct vl; simpl in Hl; try discriminate; injection Hl as <-;
  destruct vn; simpl in Hn; try discriminate; injection Hn as <-; simpl;
  repeat match goal with |- context [String.eqb ?s ""] => destruct (String.eqb s "") end;
  simpl; reflexivity.
Qed.

Lemma tag_of_unsigned name loc dept serial :
  signed_serial serial = false ->
  tag_of name loc dept serial = spec_tag name loc dept serial.
Proof.
  intros Hs. unfold tag_of, spec_tag. do 6 f_equal.
  destruct serial as [s|]; simpl in *; [|done].
  destruct (String.eqb s ""); [done|]. by apply zfill_unsigned.
Qed.

Lemma split_dash_cons a r :
  no_dash a = true -> split_dash (a +:+ "-" +:+ r) = a :: split_dash r.
Proof.
  change ("-" +:+ r) with (String "-" r).
  unfold no_dash. induction a as [|c a IH]; simpl; [done|].
  intros [Hc Ha]%andb_true_iff. apply negb_true_iff in Hc. rewrite Hc.
  by rewrite (IH Ha).
Qed.

Lemma split_dash_last n : no_dash n = true -> split_dash n = [n].
Proof.
  unfold no_dash. induction n as [|c n IH]; simpl; [done|].
  intros [Hc Hn]%andb_true_iff. apply negb_true_iff in Hc. rewrite Hc.
  by rewrite (IH Hn).
Qed.

Lemma upper_char_dash c : Ascii.eqb (upper_char c) "-" = Ascii.eqb c "-".
Proof.
  destruct c as [[] [] [] [] [] [] [] []]; reflexivity.
Qed.

Lemma no_dash_upper s :
  all_chars is_ascii_char s = true -> no_dash (upper s) = no_dash s.
Proof.
  unfold no_dash. induction s as [|c s IH]; [done|]. cbn [all_chars].
  intros [Hc Hs]%andb_true_iff. rewrite upper_ascii_cons by done.
  cbn [all_chars]. by rewrite upper_char_dash, IH.
Qed.

Lemma digit_no_dash c : is_digit c = true -> negb (Ascii.eqb c "-") = true.
Proof.
  destruct (Ascii.eqb_spec c "-") as [->|]; [discriminate|done].
Qed.

Lemma or_default_nonempty dflt field :
  dflt <> "" -> (1 <= String.length (or_default dflt field))%nat.
Proof.
  intros Hd. unfold or_default.
  assert (forall s : string, s <> "" -> (1 <= String.length s)%nat) as Hlen.
  { intros [|c r] Hs; [done|simpl; lia]. }
  destruct field as [s|]; [|by apply Hlen].
  destruct (String.eqb_spec s ""); by apply Hlen.
Qed.

Lemma zfill_serial_length serial : (4 <= String.length (zfill_serial serial))%nat.
Proof.
  destruct serial as [s|]; simpl; [|lia].
  destruct (String.eqb s ""); simpl; [lia|]. rewrite length_zfill. lia.
Qed.

Lemma zfill_serial_digits serial :
  four_digits serial = true ->
  String.length (zfill_serial serial) = 4%nat
  /\ all_chars is_digit (zfill_serial serial) = true.
Proof.
  destruct serial as [s|]; simpl; [|done].
  intros [Hl Hd]%andb_true_iff. apply Nat.leb_le in Hl.
  destruct (String.eqb s ""); [done|].
  rewrite length_zfill. split; [lia|]. by apply all_chars_zfill.
Qed.

Lemma segment_length dflt field :
  dflt <> "" -> ascii_segment dflt field = true ->
  (1 <= String.length (upper (take_str 3 (or_default dflt field))) <= 3)%nat.
Proof.
  intros Hd Ha. rewrite length_upper, length_take_str by exact Ha.
  pose proof (or_default_nonempty dflt field Hd). lia.
Qed.

Lemma segment_fills dflt field :
  ascii_segment dflt field = true ->
  fills_segment dflt field = true ->
  String.length (upper (take_str 3 (or_default dflt field))) = 3%nat
  /\ no_dash (upper (take_str 3 (or_default dflt field))) = true.
Proof.
  intros Ha [Hl Hd]%andb_true_iff. apply Nat.leb_le in Hl.
  rewrite length_upper, length_take_str, no_dash_upper by exact Ha.
  split; [lia|done].
Qed.

Lemma tag_of_matches_shape name loc dept serial :
  ascii_segment "AST" name = true -> ascii_segment "LOC" loc = true ->
  ascii_segment "GEN" dept = true ->
  fills_segment "AST" name = true -> fills_segment "LOC" loc = true ->
  fills_segment "GEN" dept = true -> four_digits serial = true ->
  matches_shape (tag_of name loc dept serial) = true.
Proof.
  intros Aa Ab Ac Fa Fb Fc [Ln Dn]%zfill_serial_digits.
  destruct (segment_fills _ _ Aa Fa) as [La Da].
  destruct (segment_fills _ _ Ab Fb) as [Lb Db].
  destruct (segment_fills _ _ Ac Fc) as [Lc Dc].
  unfold matches_shape, tag_of.
  rewrite (split_dash_cons _ _ Da), (split_dash_cons _ _ Db), (split_dash_cons _ _ Dc).
  rewrite split_dash_last.
  - rewrite La, Lb, Lc, Ln, Dn. reflexivity.
  - unfold no_dash. eapply all_chars_impl; [apply digit_no_dash|done].
Qed.

(** C1, as the code has it.  On a record whose name, location,
    department and serial number are each text or absent, the tag
    generator returns the uppercased first three characters of the name,
    of the location and of the department, where "AST", "LOC" and "GEN"
    stand in for an empty or absent field before the cut and a field of
    fewer than three characters is used as it is, joined by "-" and
    followed by "0000" for an empty or absent serial number and by
    [zfill 4] of the serial number otherwise.  The workbook variant
    computes the same tag from a submitted form.  [zfill] puts its zeros
    after a leading sign: for a serial number that starts with neither "+"
    nor "-" the tag is the one with the serial number zero-left-padded to
    width four, [spec_tag]. *)
Theorem generate_asset_tag_zfill (fd : dict) (frm : form)
  (name loc dept serial : option string) :
  as_text (get fd "Asset Name") = Some name ->
  as_text (get fd "Location") = Some loc ->
  as_text (get fd "Department") = Some dept ->
  as_text (get fd "Serial Number") = Some serial ->
  generate_asset_tag fd = Ok (tag_of name loc dept serial)
  /\ Sheet.new_asset_tag (Sheet.form_data frm)
     = Ok (tag_of (Some (Asset_Name frm)) (Some (Location frm))
             (Some (Department frm)) (Some (Serial_Number frm)))
  /\ (signed_serial serial = false ->
      tag_of name loc dept serial = spec_tag name loc dept serial).
Proof.
  intros Hn Hl Hd Hs. split; [|split].
  - by apply generate_asset_tag_text.
  - by eapply new_asset_tag_text.
  - apply tag_of_unsigned.
Qed.

Lemma generate_asset_tag_zfill_witness :
  generate_asset_tag dell = Ok "DEL-ACC-IT -0001"
  /\ Sheet.new_asset_tag (Sheet.form_data dell_form) = Ok "DEL-ACC-IT-0001"
  /\ tag_of (Some "Dell") (Some "Accra") (Some "IT ") (Some "1")
     = spec_tag (Some "Dell") (Some "Accra") (Some "IT ") (Some "1").
Proof.
  destruct (generate_asset_tag_zfill dell dell_form
              (Some "Dell") (Some "Accra") (Some "IT ") (Some "1")
              eq_refl eq_refl eq_refl eq_refl) as (H1 & H2 & H3).
  split; [exact H1|split; [exact H2|apply H3; reflexivity]].
Defined.

Lemma zero_left_pad_counterexample :
  generate_asset_tag
    [("Asset Name", PyStr "Dell"); ("Location", PyStr "Accra");
     ("Department", PyStr "IT "); ("Serial Number", PyStr "-1")]
  = Ok "DEL-ACC-IT --001"
  /\ spec_tag (Some "Dell") (Some "Accra") (Some "IT ") (Some "-1")
     = "DEL-ACC-IT -00-1".
Proof. split; reflexivity. Qed.

(** C4, as the code has it.  For a record whose name, location and
    department, or the defaults that replace them, have ASCII characters
    as their first three, the generated tag is made of four parts joined
    by "-": the uppercased first three characters of each of the three,
    which are one to three characters, then the padded serial number,
    which is at least four characters.  It has the shape XXX-XXX-XXX-NNNN
    when, besides, name, location and department (or the defaults) have
    at least three characters and no "-" among the first three, and the
    serial number is absent, empty, or one to four digits. *)
Theorem tag_shape (fd : dict) (name loc dept serial : option string) :
  as_text (get fd "Asset Name") = Some name ->
  as_text (get fd "Location") = Some loc ->
  as_text (get fd "Department") = Some dept ->
  as_text (get fd "Serial Number") = Some serial ->
  ascii_segment "AST" name = true -> ascii_segment "LOC" loc = true ->
  ascii_segment "GEN" dept = true ->
  exists a b c n : string,
    generate_asset_tag fd = Ok (a +:+ "-" +:+ b +:+ "-" +:+ c +:+ "-" +:+ n)
    /\ a = upper (take_str 3 (or_default "AST" name))
    /\ b = upper (take_str 3 (or_default "LOC" loc))
    /\ c = upper (take_str 3 (or_default "GEN" dept))
    /\ n = zfill_serial serial
    /\ (1 <= String.length a <= 3)%nat /\ (1 <= String.length b <= 3)%nat
    /\ (1 <= String.length c <= 3)%nat /\ (4 <= String.length n)%nat
    /\ (fills_segment "AST" name = true -> fills_segment "LOC" loc = true ->
        fills_segment "GEN" dept = true -> four_digits serial = true ->
        matches_shape (a +:+ "-" +:+ b +:+ "-" +:+ c +:+ "-" +:+ n) = true).
Proof.
  intros Hn Hl Hd Hs Aa Ab Ac.
  exists (upper (take_str 3 (or_default "AST" name))),
    (upper (take_str 3 (or_default "LOC" loc))),
    (upper (take_str 3 (or_default "GEN" dept))), (zfill_serial serial).
  split; [by apply generate_asset_tag_text|].
  do 4 (split; [reflexivity|]).
  repeat split; try (by apply segment_length); try apply zfill_serial_length.
  by apply tag_of_matches_shape.
Qed.

Lemma tag_shape_counterexample :
  exists t, Sqlite.form_norm dell_form ≫= generate_asset_tag = Ok t
            /\ matches_shape t = false.
Proof. exists "DEL-ACC-IT-0001". split; reflexivity. Qed.

Lemma tag_shape_witness :
  exists a b c n : string,
    generate_asset_tag canon = Ok (a +:+ "-" +:+ b +:+ "-" +:+ c +:+ "-" +:+ n)
    /\ a = "CAN" /\ b = "KUM" /\ c = "FIN" /\ n = "0027"
    /\ (1 <= String.length a <= 3)%nat /\ (1 <= String.length b <= 3)%nat
    /\ (1 <= String.length c <= 3)%nat /\ (4 <= String.length n)%nat
    /\ matches_shape (a +:+ "-" +:+ b +:+ "-" +:+ c +:+ "-" +:+ n) = true.
Proof.
  destruct (tag_shape canon (Some "Canon") (Some "Kumasi") (Some "Finance")
              (Some "27") eq_refl eq_refl eq_refl eq_refl
              eq_refl eq_refl eq_refl)
    as (a & b & c & n & Ht & Ea & Eb & Ec & En & Ha & Hb & Hc & Hn & Hshape).
  exists a, b, c, n.
  split; [exact Ht|]. split; [exact Ea|]. split; [exact Eb|].
  split; [exact Ec|]. split; [exact En|]. split; [exact Ha|].
  split; [exact Hb|]. split; [exact Hc|]. split; [exact Hn|].
  apply Hshape; reflexivity.
Defined.

End TagGenerator.

Section Credentials.

(** ** Results *)

Lemma bind_Ok {A B} (m : result A) (k : A -> result B) b :
  m ≫= k = Ok b -> exists a, m = Ok a /\ k a = Ok b.
Proof. destruct m as [a|e]; simpl; [eauto|discriminate]. Qed.

(** ** Base64 *)

Import Base64.

Lemma b64_char_table :
  forallb
    (fun n => match b64_val (b64_char n) with
              | Some v => (v =? n)%nat
              | None => false
              end
              && negb (Ascii.eqb (b64_char n) "=")
              && is_ascii_char (b64_char n))
    (seq 0 64) = true.
Proof. vm_compute. reflexivity. Qed.

Lemma b64_char_spec n :
  (n < 64)%nat ->
  b64_val (b64_char n) = Some n
  /\ Ascii.eqb (b64_char n) "=" = false
  /\ is_ascii_char (b64_char n) = true.
Proof.
  intros Hn. pose proof b64_char_table as H.
  rewrite forallb_forall in H. specialize (H n).
  assert (In n (seq 0 64)) as Hin by (apply in_seq; lia).
  apply H in Hin. apply andb_true_iff in Hin as [H12 H3].
  apply andb_true_iff in H12 as [H1 H2].
  destruct (b64_val (b64_char n)) as [v|]; [|discriminate].
  apply Nat.eqb_eq in H1 as ->. apply negb_true_iff in H2. done.
Qed.

Lemma a2b_data n r q l p :
  (n < 64)%nat ->
  a2b_base64 (String (b64_char n) r) q l p =
  match q with
  | 0 => a2b_base64 r 1 n 0
  | 1 => rest ← a2b_base64 r 2 (n mod 16) 0;
         Ok (String (ascii_of_nat (l * 4 + n / 16)) rest)
  | 2 => rest ← a2b_base64 r 3 (n mod 4) 0;
         Ok (String (ascii_of_nat (l * 16 + n / 4)) rest)
  | _ => rest ← a2b_base64 r 0 0 0;
         Ok (String (ascii_of_nat (l * 64 + n)) rest)
  end%nat.
Proof.
  intros Hn. destruct (b64_char_spec n Hn) as (Hv & He & _).
  cbn [a2b_base64]. rewrite He, Hv. reflexivity.
Qed.

Lemma code_lt c : (code c < 256)%nat.
Proof. apply nat_ascii_bounded. Qed.

Lemma ascii_of_code c : ascii_of_nat (code c) = c.
Proof. apply ascii_nat_embedding. Qed.

Lemma split_div (a b : nat) :
  b <> 0%nat -> a = (b * (a / b) + a mod b)%nat /\ (a mod b < b)%nat.
Proof. intros. split; [apply Nat.div_mod_eq|by apply Nat.mod_upper_bound]. Qed.

(** Three bytes cut into four groups of six bits, and put together again. *)
Lemma sextets (x y z : nat) :
  (x < 256 -> y < 256 -> z < 256 ->
   (x / 4 < 64 /\ x mod 4 * 16 + y / 16 < 64
    /\ y mod 16 * 4 + z / 64 < 64 /\ z mod 64 < 64)
   /\ x / 4 * 4 + (x mod 4 * 16 + y / 16) / 16 = x
   /\ (x mod 4 * 16 + y / 16) mod 16 = y / 16
   /\ y / 16 * 16 + (y mod 16 * 4 + z / 64) / 4 = y
   /\ (y mod 16 * 4 + z / 64) mod 4 = z / 64
   /\ z / 64 * 64 + z mod 64 = z)%nat.
Proof.
  intros.
  destruct (split_div x 4); [lia|]. destruct (split_div y 16); [lia|].
  destruct (split_div z 64); [lia|].
  destruct (split_div (x mod 4 * 16 + y / 16) 16); [lia|].
  destruct (split_div (y mod 16 * 4 + z / 64) 4); [lia|].
  repeat split; lia.
Qed.

Lemma a2b_pad2 l : a2b_base64 "==" 2 l 0 = Ok "".
Proof. reflexivity. Qed.

Lemma a2b_pad1 l : a2b_base64 "=" 3 l 0 = Ok "".
Proof. reflexivity. Qed.

Lemma b64_roundtrip_len n : forall bs,
  (String.length bs <= n)%nat -> a2b_base64 (b64encode bs) 0 0 0 = Ok bs.
Proof.
  induction n as [n IH] using lt_wf_ind. intros bs Hlen.
  destruct bs as [|a [|b [|c rest]]].
  - reflexivity.
  - destruct (sextets (code a) 0 0 (code_lt a)) as ((L1 & L2 & _) & E1 & _); [lia..|].
    cbn [b64encode]. rewrite Nat.add_0_r in L2, E1.
    rewrite !a2b_data by done. rewrite a2b_pad2. cbn [mbind result_bind].
    by rewrite E1, ascii_of_code.
  - destruct (sextets (code a) (code b) 0 (code_lt a) (code_lt b))
      as ((L1 & L2 & L3 & _) & E1 & E2 & E3 & _); [lia|].
    cbn [b64encode]. rewrite Nat.add_0_r in L3, E3.
    rewrite !a2b_data by done. rewrite a2b_pad1. cbn [mbind result_bind].
    rewrite E2. by rewrite E1, E3, !ascii_of_code.
  - destruct (sextets (code a) (code b) (code c) (code_lt a) (code_lt b) (code_lt c))
      as ((L1 & L2 & L3 & L4) & E1 & E2 & E3 & E4 & E5).
    cbn [b64encode]. rewrite !a2b_data by done.
    rewrite (IH (String.length rest)) by (simpl in *; lia).
    cbn [mbind result_bind]. rewrite E2, E4.
    by rewrite E1, E3, E5, !ascii_of_code.
Qed.

Lemma b64encode_ascii_len n : forall bs,
  (String.length bs <= n)%nat -> all_chars is_ascii_char (b64encode bs) = true.
Proof.
  induction n as [n IH] using lt_wf_ind. intros bs Hlen.
  destruct bs as [|a [|b [|c rest]]]; [done|..].
  - destruct (sextets (code a) 0 0 (code_lt a)) as ((L1 & L2 & _) & _); [lia..|].
    rewrite Nat.add_0_r in L2. cbn [b64encode all_chars].
    destruct (b64_char_spec _ L1) as (_ & _ & ->).
    destruct (b64_char_spec _ L2) as (_ & _ & ->). reflexivity.
  - destruct (sextets (code a) (code b) 0 (code_lt a) (code_lt b))
      as ((L1 & L2 & L3 & _) & _); [lia|].
    rewrite Nat.add_0_r in L3. cbn [b64encode all_chars].
    destruct (b64_char_spec _ L1) as (_ & _ & ->).
    destruct (b64_char_spec _ L2) as (_ & _ & ->).
    destruct (b64_char_spec _ L3) as (_ & _ & ->). reflexivity.
  - destruct (sextets (code a) (code b) (code c) (code_lt a) (code_lt b) (code_lt c))
      as ((L1 & L2 & L3 & L4) & _).
    cbn [b64encode all_chars].
    destruct (b64_char_spec _ L1) as (_ & _ & ->).
    destruct (b64_char_spec _ L2) as (_ & _ & ->).
    destruct (b64_char_spec _ L3) as (_ & _ & ->).
    destruct (b64_char_spec _ L4) as (_ & _ & ->).
    rewrite (IH (String.length rest)); [done|simpl in *; lia|done].
Qed.

Lemma b64encode_ascii bs : all_chars is_ascii_char (b64encode bs) = true.
Proof. by eapply b64encode_ascii_len. Qed.

Lemma b64decode_b64encode bs : b64decode (b64encode bs) = Ok bs.
Proof.
  unfold b64decode. rewrite b64encode_ascii. by eapply b64_roundtrip_len.
Qed.

(** ** The credential store *)

Import Sqlite Auth.

Lemma compare_digest_hashes p q s s' :
  compare_digest (_pbkdf2_hash p s) (_pbkdf2_hash q s')
  = Ok (String.eqb (_pbkdf2_hash p s) (_pbkdf2_hash q s')).
Proof.
  unfold compare_digest. unfold _pbkdf2_hash at 1 2.
  by rewrite !b64encode_ascii.
Qed.

Lemma add_user_ok d us u p r token :
  users d = Some us -> r = "admin" \/ r = "user" ->
  add_user d u p r token
  = Ok (with_users d
          (<[u := {| password_hash := _pbkdf2_hash p token;
                     salt := Base64.b64encode token;
                     role := r |}]> us)).
Proof.
  intros Hus Hr. unfold add_user. rewrite Hus.
  rewrite bool_decide_eq_true_2; [done|].
  destruct Hr as [-> | ->]; set_solver.
Qed.

Lemma verify_user_absent d us u p :
  users d = Some us -> us !! u = None -> verify_user d u p = Ok (false, None).
Proof. intros Hus Hu. unfold verify_user. by rewrite Hus, Hu. Qed.

Lemma verify_user_stored d us u p p0 r token :
  users d = Some us ->
  us !! u = Some {| password_hash := _pbkdf2_hash p0 token;
                    salt := Base64.b64encode token;
                    role := r |} ->
  verify_user d u p
  = Ok (if String.eqb (_pbkdf2_hash p token) (_pbkdf2_hash p0 token)
        then (true, Some r) else (false, None)).
Proof.
  intros Hus Hu. unfold verify_user. rewrite Hus, Hu.
  cbn [salt password_hash role]. rewrite b64decode_b64encode.
  cbn [mbind result_bind]. rewrite compare_digest_hashes.
  cbn [mbind result_bind].
  by destruct (String.eqb (_pbkdf2_hash p token) (_pbkdf2_hash p0 token)).
Qed.






End Credentials.

Section Rows.

Import Sqlite.

Lemma form_norm_Ok frm : exists fn, form_norm frm = Ok fn /\
  fn = [("Asset Name", PyStr (Asset_Name frm));
      ("Category", PyStr (Category frm));
      ("Description", PyStr (Description frm));
      ("Serial Number", PyStr (Serial_Number frm));
      ("Assigned To", PyStr (Assigned_To frm));
      ("Department", PyStr (Department frm));
      ("Purchase Date", PyStr (strftime_date (Purchase_Date frm)));
      ("Purchase Price (GHS)", PyFloat (Purchase_Price frm));
      ("Condition", PyStr (Condition frm));
      ("Location", PyStr (Location frm));
      ("Status", PyStr (Status frm));
      ("Warranty End Date", PyStr (strftime_date (Warranty_End_Date frm)));
      ("Maintenance Schedule", PyStr (Maintenance_Schedule frm));
      ("Disposal Date", match Disposal_Date frm with Some d => PyStr (strftime_date d) | None => PyNone end);
      ("Notes", PyStr (Notes frm))].
Proof.
  eexists. split; [|reflexivity]. unfold form_norm.
  destruct (Disposal_Date frm); reflexivity.
Qed.

Lemma py_float_or_0 f :
  py_float (py_or (PyFloat f) (PyInt 0))
  = Ok (if PrimFloat.eqb f 0 then 0%float else f).
Proof. unfold py_or. simpl. by destruct (PrimFloat.eqb f 0). Qed.

Lemma insert_new_record d rows frm fn new_tag now :
  form_norm frm = Ok fn -> assets d = Some rows -> Some new_tag ∉ tags rows ->
  exists r, insert_asset d (new_record fn new_tag now) = Ok (with_assets d (rows ++ [r]))
    /\ tag r = Some new_tag /\ count r = Some 0%Z
    /\ text r update_history = Some "" /\ text r date_added = Some now.
Proof.
  intros Hfn Hrows Hnew.
  destruct (form_norm_Ok frm) as (fn' & Hfn' & ->). rewrite Hfn in Hfn'. injection Hfn' as ->.
  unfold insert_asset. rewrite Hrows.
  cbn -[strftime_date py_float py_or in_int64]. rewrite py_float_or_0.
  destruct (Disposal_Date frm); cbn -[strftime_date in_int64];
    change (in_int64 0) with true; cbn -[strftime_date in_int64];
    decide_columns;
    match goal with
    | |- context [match ?x with left _ => Raise IntegrityError | right _ => _ end] =>
        destruct x; [done|]
    end;
    (eexists; split; [reflexivity|]); repeat split.
Qed.

(** ** Rows and assignments *)







Lemma update_rows_map t sets upd rows :
  (forall r, tag r = Some t -> store_all sets r = Ok (upd r)) ->
  update_rows t sets rows
  = Ok (map (fun r => if decide (tag r = Some t) then upd r else r) rows).
Proof.
  intros Hupd. induction rows as [|r rows IH]; simpl; [done|].
  rewrite IH. destruct (decide (tag r = Some t)) as [Ht|Ht]; [|done].
  by rewrite (Hupd r Ht).
Qed.



Lemma update_asset_Ok d t updates d' :
  update_asset d t updates = Ok d' ->
  exists rows sets bound rows',
    assets d = Some rows /\ set_list updates = Ok sets
    /\ bind_params sets = Ok bound /\ update_rows t bound rows = Ok rows'
    /\ d' = with_assets d rows'.
Proof.
  unfold update_asset. intros H.
  destruct (negb _); [discriminate|].
  destruct (assets d) as [rows|]; [|discriminate].
  destruct updates as [|kv updates]; [discriminate|].
  apply bind_Ok in H as (sets & Hs & H). apply bind_Ok in H as (bound & Hb & H).
  apply bind_Ok in H as (rows' & Hr & H).
  destruct (collides t rows rows'); [discriminate|]. injection H as <-.
  by exists rows, sets, bound, rows'.
Qed.



End Rows.

Section AssetPage.

Import Sqlite.

Lemma existing_count_Ok existing :
  py_int (py_or (existing_get existing update_count (PyInt 0)) (PyInt 0))
  = Ok (existing_count existing).
Proof.
  destruct existing as [r|]; [|reflexivity]. unfold existing_count, old_count.
  cbn [existing_get cell]. destruct (count r) as [z|]; [|reflexivity].
  unfold py_or. cbn [truthy]. by destruct (Z.eqb_spec z 0) as [->|].
Qed.

Lemma existing_history_Ok existing now :
  (let existing_hist :=
     py_or (existing_get existing (TEXT update_history) PyNone) (PyStr "") in
   if truthy existing_hist
   then match existing_hist with
        | PyStr h => Ok (h +:+ " | " +:+ now)
        | _ => Raise TypeError
        end
   else Ok now)
  = Ok (new_history (existing_history existing) now).
Proof.
  destruct existing as [r|]; [|reflexivity].
  unfold existing_history, old_history, new_history.
  cbn [existing_get cell]. destruct (text r update_history) as [h|]; [|reflexivity].
  unfold py_or. cbn [truthy].
  destruct (String.eqb h "") eqn:E; cbn [negb truthy]; [reflexivity|].
  by rewrite E.
Qed.

Lemma new_updates_Ok frm fn existing now :
  form_norm frm = Ok fn ->
  new_updates fn existing now
  = Ok (fn ++ [("Last Updated", PyStr now);
               ("Update Count", PyInt (new_count (existing_count existing)));
               ("Update History",
                PyStr (new_history (existing_history existing) now))])%list.
Proof.
  intros Hfn. destruct (form_norm_Ok frm) as (fn' & Hfn' & ->).
  rewrite Hfn in Hfn'. injection Hfn' as ->.
  unfold new_updates. rewrite existing_count_Ok. cbn [mbind result_bind].
  pose proof (existing_history_Ok existing now) as Hh. cbv zeta in Hh.
  rewrite Hh. reflexivity.
Qed.

(** The assignments the form makes to a row: everything but the tag and
    the date the asset was added. *)
Lemma form_update_row frm fn now uc hist :
  form_norm frm = Ok fn -> in_int64 uc = true ->
  let updates := (fn ++ [("Last Updated", PyStr now); ("Update Count", PyInt uc);
                         ("Update History", PyStr hist)])%list in
  forallb (fun kv => is_identifier (_py_to_sql_col (fst kv))) updates = true
  /\ exists sets bound upd,
      set_list updates = Ok sets /\ bind_params sets = Ok bound
      /\ forall r, store_all bound r = Ok (upd r)
           /\ tag (upd r) = tag r
           /\ text (upd r) date_added = text r date_added
           /\ count (upd r) = Some uc
           /\ text (upd r) update_history = Some hist.
Proof.
  intros Hfn Huc. destruct (form_norm_Ok frm) as (fn' & Hfn' & ->).
  rewrite Hfn in Hfn'. injection Hfn' as ->.
  cbv zeta. split; [reflexivity|].
  destruct (Disposal_Date frm);
    (eexists; eexists; eexists; split; [reflexivity|]);
    cbn -[strftime_date in_int64]; rewrite Huc;
    (split; [reflexivity|]); intros r; cbn -[strftime_date in_int64];
    instantiate (1 := fun r => _); cbv beta;
    (split; [reflexivity|]); decide_columns; repeat split.
Qed.

Lemma bind_params_int vs : forall bound c z,
  bind_params vs = Ok bound -> (c, PyInt z) ∈ vs -> in_int64 z = true.
Proof.
  induction vs as [|[c0 v0] vs IH]; simpl; intros bound c z Hb Hin; [set_solver|].
  apply bind_Ok in Hb as (v' & Hv & Hb). apply bind_Ok in Hb as (rest & Hr & _).
  apply elem_of_cons in Hin as [[= <- <-]|Hin]; [|by eapply IH].
  simpl in Hv. by destruct (in_int64 z).
Qed.

Lemma form_set_list frm fn now uc hist :
  form_norm frm = Ok fn ->
  exists sets,
    set_list (fn ++ [("Last Updated", PyStr now); ("Update Count", PyInt uc);
                     ("Update History", PyStr hist)])%list = Ok sets
    /\ (update_count, PyInt uc) ∈ sets.
Proof.
  intros Hfn. destruct (form_norm_Ok frm) as (fn' & Hfn' & ->).
  rewrite Hfn in Hfn'. injection Hfn' as ->.
  eexists. split; [reflexivity|]. set_solver.
Qed.

(** ** Reading the table *)

Lemma insert_desc_Permutation r sorted : insert_desc r sorted ≡ₚ r :: sorted.
Proof.
  induction sorted as [|x rest IH]; simpl; [done|].
  destruct (text_leb _ _); [done|]. rewrite IH. apply Permutation_swap.
Qed.

Lemma order_by_Permutation rows : order_by_date_added_desc rows ≡ₚ rows.
Proof.
  induction rows as [|r rows IH]; simpl; [done|].
  rewrite insert_desc_Permutation. by constructor.
Qed.

Lemma selectbox_elem {A} (options : list A) pick o :
  selectbox options pick = Some o -> o ∈ options.
Proof.
  unfold selectbox. destruct (options !! pick) eqn:E.
  - intros [= <-]. by eapply list_elem_of_lookup_2.
  - destruct options; simpl; [done|]. intros [= <-]. left.
Qed.

Lemma head_filter_tag t rows :
  match head (filter (fun r => tag r = Some t) rows) with
  | Some r0 => r0 ∈ rows /\ tag r0 = Some t
  | None => Some t ∉ tags rows
  end.
Proof.
  induction rows as [|r rows IH]; simpl; [set_solver|].
  rewrite filter_cons. destruct (decide (tag r = Some t)) as [Ht|Ht]; simpl.
  - split; [left|done].
  - destruct (head (filter _ rows)) as [r0|].
    + destruct IH. split; [by right|done].
    + unfold tags in *. set_solver.
Qed.

(** What a press of "Save Asset" does to the database. *)
Lemma add_update_asset_cases d act pick frm clock d' n :
  add_update_asset d act pick frm clock = Ok (d', n) ->
  exists rows, assets d = Some rows /\ users d' = users d /\
    ((d' = d /\ (n = select_a_tag \/ exists t, n = tag_already_exists t))
     \/ (exists r new_tag,
          act = Add_New_Asset /\ n = asset_added (Asset_Name frm) new_tag
          /\ (form_norm frm ≫= generate_asset_tag) = Ok new_tag
          /\ Some new_tag ∉ tags rows
          /\ assets d' = Some (rows ++ [r])%list
          /\ tag r = Some new_tag /\ count r = Some 0%Z
          /\ text r update_history = Some ""
          /\ text r date_added = Some (now_iso clock))
     \/ (exists t r0 upd,
          act = Update_Existing_Asset /\ n = asset_updated t
          /\ r0 ∈ rows /\ tag r0 = Some t
          /\ head (filter (fun r => tag r = Some t) rows) = Some r0
          /\ assets d'
             = Some (map (fun r => if decide (tag r = Some t) then upd r else r)
                       rows)
          /\ forall r,
              tag (upd r) = tag r
              /\ text (upd r) date_added = text r date_added
              /\ count (upd r) = Some (new_count (old_count r0))
              /\ text (upd r) update_history
                 = Some (new_history (old_history r0) (now_iso clock)))).
Proof.
  unfold add_update_asset, get_all_assets_df. intros H.
  destruct (assets d) as [rows|] eqn:Hrows; [|discriminate].
  exists rows. split; [done|]. cbn [mbind result_bind] in H.
  set (df := order_by_date_added_desc rows) in *.
  set (selected := match act, df with
                   | Update_Existing_Asset, _ :: _ => mjoin (selectbox (tags df) pick)
                   | _, _ => None
                   end) in *.
  apply bind_Ok in H as (existing & Hex & H).
  apply bind_Ok in H as (fn & Hfn & H).
  destruct act.
  - (* Add New Asset *)
    apply bind_Ok in H as (new_tag & Htag & H).
    unfold get_asset in H. rewrite Hrows in H. cbn [mbind result_bind] in H.
    pose proof (head_filter_tag new_tag rows) as Hhead.
    destruct (head (filter _ rows)) as [r0|].
    + injection H as <- <-. split; [done|]. left. split; [done|]. right. by eexists.
    + apply bind_Ok in H as (d1 & Hins & H). injection H as <- <-.
      destruct (insert_new_record d rows frm fn new_tag (now_iso clock) Hfn Hrows Hhead)
        as (r & Hr & Ht & Hc & Hh & Hd).
      rewrite Hr in Hins. injection Hins as <-.
      split; [done|]. right. left. exists r, new_tag.
      rewrite Hfn. cbn [mbind result_bind]. done.
  - (* Update Existing Asset *)
    destruct selected as [t|] eqn:Hsel;
      [|injection H as <- <-; split; [done|left; split; [done|by left]]].
    destruct (String.eqb t "");
      [injection H as <- <-; split; [done|left; split; [done|by left]]|].
    apply bind_Ok in H as (updates & Hupd & H).
    apply bind_Ok in H as (d1 & Hd1 & H). injection H as <- <-.
    rewrite (new_updates_Ok frm fn existing (now_iso clock) Hfn) in Hupd.
    injection Hupd as <-.
    assert (Some t ∈ tags rows) as Hin.
    { subst selected df. destruct (order_by_date_added_desc rows) eqn:Hdf; [done|].
      destruct (selectbox _ pick) as [o|] eqn:Hs; [|done]. simpl in Hsel. subst o.
      apply selectbox_elem in Hs. rewrite <- Hdf in Hs.
      unfold tags in *. by rewrite order_by_Permutation in Hs. }
    unfold get_asset in Hex. rewrite Hrows in Hex. injection Hex as <-.
    pose proof (head_filter_tag t rows) as Hhead.
    destruct (head (filter _ rows)) as [r0|] eqn:Hr0; [|done].
    destruct Hhead as [Hr0in Hr0t].
    cbn [existing_count existing_history] in Hd1.
    pose proof Hd1 as Hd1'.
    apply update_asset_Ok in Hd1' as (rows0 & sets & bound & rows' & H0 & Hs & Hb & Hu & ->).
    destruct (form_set_list frm fn (now_iso clock) (new_count (old_count r0))
                (new_history (old_history r0) (now_iso clock)) Hfn)
      as (sets' & Hs' & Hin').
    rewrite Hs in Hs'. injection Hs' as <-.
    pose proof (bind_params_int _ _ _ _ Hb Hin') as Huc.
    destruct (form_update_row frm fn (now_iso clock) _
                (new_history (old_history r0) (now_iso clock)) Hfn Huc)
      as (_ & sets' & bound' & upd & Hs' & Hb' & Hupd).
    rewrite Hs in Hs'. injection Hs' as <-. rewrite Hb in Hb'. injection Hb' as <-.
    rewrite Hrows in H0. injection H0 as <-.
    rewrite (update_rows_map t bound upd) in Hu by (intros; apply Hupd).
    injection Hu as <-.
    split; [done|]. right. right. exists t, r0, upd.
    repeat split; try done; apply Hupd.
Qed.

End AssetPage.

Section TimeStamps.

(** ** Time stamps and histories *)

Lemma digits_of_uint d : all_chars is_digit (NilEmpty.string_of_uint d) = true.
Proof. induction d; simpl; auto. Qed.

Lemma str_of_nat_digits n : all_chars is_digit (str_of_nat n) = true.
Proof.
  unfold str_of_nat, NilZero.string_of_uint.
  destruct (Nat.to_uint n); try apply digits_of_uint. reflexivity.
Qed.

Lemma digit_stamp_char c : is_digit c = true -> stamp_char c = true.
Proof. unfold stamp_char. by intros ->. Qed.

Lemma zfill_nat_stamp w n :
  all_chars stamp_char (zfill w (str_of_nat n)) = true
  /\ (w <= String.length (zfill w (str_of_nat n)))%nat.
Proof.
  split; [|rewrite length_zfill; lia].
  apply all_chars_zfill; [reflexivity|].
  eapply all_chars_impl; [apply digit_stamp_char|apply str_of_nat_digits].
Qed.

Lemma strftime_datetime_stamp clock : is_stamp (strftime_datetime clock) = true.
Proof.
  unfold is_stamp, strftime_datetime, strftime_date.
  destruct (zfill_nat_stamp 4 (year (dt_date clock))) as [C1 L1].
  destruct (zfill_nat_stamp 2 (month (dt_date clock))) as [C2 L2].
  destruct (zfill_nat_stamp 2 (day (dt_date clock))) as [C3 L3].
  destruct (zfill_nat_stamp 2 (hour clock)) as [C4 L4].
  destruct (zfill_nat_stamp 2 (minute clock)) as [C5 L5].
  destruct (zfill_nat_stamp 2 (second clock)) as [C6 L6].
  apply andb_true_iff. split.
  - rewrite !all_chars_app, C1, C2, C3, C4, C5, C6. reflexivity.
  - apply Nat.leb_le. rewrite !str_length_app. simpl. lia.
Qed.

Lemma stamp_no_bar t : is_stamp t = true -> no_bar t = true.
Proof.
  intros [H _]%andb_true_iff. unfold no_bar. eapply all_chars_impl; [|exact H].
  intros c. unfold stamp_char, is_digit.
  destruct (Ascii.eqb_spec c "|") as [->|]; [by vm_compute|done].
Qed.

Lemma stamp_nonempty t : is_stamp t = true -> String.eqb t "" = false.
Proof.
  intros [_ H]%andb_true_iff. apply Nat.leb_le in H.
  destruct t; [simpl in H; lia|done].
Qed.

Lemma split_bar_step c rest :
  match rest with
  | String c1 _ => Ascii.eqb c1 "|" = false
  | EmptyString => True
  end ->
  split_bar (String c rest) = push_char c (split_bar rest).
Proof.
  intros H. cbn [split_bar]. destruct rest as [|c1 [|c2 rest']]; try done.
  by rewrite H, andb_false_r.
Qed.

Lemma split_bar_cons t r :
  no_bar t = true -> split_bar (t +:+ " | " +:+ r) = t :: split_bar r.
Proof.
  unfold no_bar. induction t as [|c t IH]; intros Ht.
  - reflexivity.
  - apply andb_true_iff in Ht as [_ Ht].
    change (String c t +:+ " | " +:+ r) with (String c (t +:+ " | " +:+ r)).
    rewrite split_bar_step, (IH Ht); [done|].
    destruct t as [|c1 t]; [reflexivity|]. simpl in Ht.
    apply andb_true_iff in Ht as [Hc _]. by apply negb_true_iff in Hc.
Qed.

Lemma split_bar_last t : no_bar t = true -> split_bar t = [t].
Proof.
  unfold no_bar. induction t as [|c t IH]; intros Ht; [done|].
  apply andb_true_iff in Ht as [_ Ht]. rewrite split_bar_step, (IH Ht); [done|].
  destruct t as [|c1 t]; [done|]. simpl in Ht.
  apply andb_true_iff in Ht as [Hc _]. by apply negb_true_iff in Hc.
Qed.

Lemma split_join_bar ts :
  Forall (fun t => is_stamp t = true) ts -> ts <> [] ->
  split_bar (join_bar ts) = ts.
Proof.
  induction 1 as [|t ts Ht Hts IH]; [done|]. intros _.
  destruct ts as [|t' ts].
  - simpl. by apply split_bar_last, stamp_no_bar.
  - change (join_bar (t :: t' :: ts)) with (t +:+ " | " +:+ join_bar (t' :: ts)).
    rewrite split_bar_cons by by apply stamp_no_bar. by rewrite IH.
Qed.

Lemma join_bar_nonempty ts :
  Forall (fun t => is_stamp t = true) ts -> ts <> [] ->
  String.eqb (join_bar ts) "" = false.
Proof.
  intros Hts Hne. destruct Hts as [|t ts Ht Hts]; [done|].
  apply stamp_nonempty in Ht. destruct t; [done|]. by destruct ts.
Qed.

Lemma history_entries_join ts :
  Forall (fun t => is_stamp t = true) ts ->
  history_entries (join_bar ts) = length ts.
Proof.
  intros Hts. unfold history_entries. destruct ts as [|t ts]; [done|].
  rewrite join_bar_nonempty, split_join_bar by done. done.
Qed.

Lemma str_app_assoc (a b c : string) : (a +:+ b) +:+ c = a +:+ b +:+ c.
Proof. induction a; simpl; congruence. Qed.

Lemma join_bar_snoc ts t :
  Forall (fun t => is_stamp t = true) ts ->
  join_bar (ts ++ [t]) = new_history (join_bar ts) t.
Proof.
  unfold new_history. intros Hts. destruct ts as [|t0 ts]; [done|].
  rewrite join_bar_nonempty by done.
  clear Hts. revert t0. induction ts as [|t1 ts IH]; intros t0; [done|].
  change (join_bar ((t0 :: t1 :: ts) ++ [t]))
    with (t0 +:+ " | " +:+ join_bar ((t1 :: ts) ++ [t])).
  rewrite IH.
  change (join_bar (t0 :: t1 :: ts)) with (t0 +:+ " | " +:+ join_bar (t1 :: ts)).
  by rewrite !str_app_assoc.
Qed.

End TimeStamps.

Section TableInvariant.

Import Sqlite.

Lemma row_inv_consistent r : row_inv r -> history_consistent r = true.
Proof.
  intros (ts & Hts & Hc & Hh). unfold history_consistent. rewrite Hc, Hh.
  rewrite history_entries_join by done. apply Z.eqb_refl.
Qed.

Lemma row_inv_updated r0 r' now :
  row_inv r0 -> is_stamp now = true ->
  count r' = Some (new_count (old_count r0)) ->
  text r' update_history = Some (new_history (old_history r0) now) ->
  row_inv r'.
Proof.
  intros (ts & Hts & Hc & Hh) Hnow Hc' Hh'. exists (ts ++ [now]). split; [|split].
  - apply Forall_app. split; [done|]. by constructor.
  - rewrite Hc'. unfold new_count, old_count. rewrite Hc, length_app. simpl.
    f_equal. lia.
  - rewrite Hh'. unfold old_history. rewrite Hh. f_equal.
    symmetry. by apply join_bar_snoc.
Qed.

Lemma db_inv_init secret : db_inv (init_db secret fresh).
Proof. exists []. repeat split; constructor. Qed.

Lemma tags_map_same t (upd : row -> row) rows :
  (forall r, tag (upd r) = tag r) ->
  tags (map (fun r => if decide (tag r = Some t) then upd r else r) rows)
  = tags rows.
Proof.
  intros Hupd. unfold tags. rewrite map_map. apply map_ext. intros r.
  by destruct (decide (tag r = Some t)).
Qed.

Lemma db_inv_save d act pick frm clock d' n :
  db_inv d -> add_update_asset d act pick frm clock = Ok (d', n) -> db_inv d'.
Proof.
  intros (rows & Hrows & Hinv & Hnd) H.
  apply add_update_asset_cases in H as (rows0 & H0 & _ & Hcases).
  rewrite Hrows in H0. injection H0 as <-.
  destruct Hcases as [(-> & _)|[(r & new_tag & _ & _ & _ & Hnew & Hd' & Ht & Hc & Hh & _)
                               |(t & r0 & upd & _ & _ & Hr0 & _ & _ & Hd' & Hupd)]].
  - by exists rows.
  - exists (rows ++ [r])%list. split; [done|]. split.
    + apply Forall_app. split; [done|]. constructor; [|constructor].
      exists []. by repeat split.
    + unfold tags. rewrite map_app. apply NoDup_app. split; [done|].
      split; [|apply NoDup_singleton]. simpl. intros x Hx Hx'.
      apply list_elem_of_singleton in Hx' as ->. by rewrite Ht in Hx.
  - eexists. split; [done|]. split.
    + rewrite Forall_forall in Hinv. apply Forall_forall. intros r' Hr'.
      apply list_elem_of_fmap in Hr' as (r & -> & Hr).
      destruct (decide (tag r = Some t)); [|by apply Hinv].
      destruct (Hupd r) as (_ & _ & Hc & Hh).
      apply (row_inv_updated r0 (upd r) (now_iso clock));
        [by apply Hinv|apply strftime_datetime_stamp|exact Hc|exact Hh].
    + rewrite tags_map_same; [done|]. intros r. apply Hupd.
Qed.

Lemma db_inv_step d e : db_inv d -> db_inv (sqlite_step d e).
Proof.
  intros Hinv. destruct e as [act pick frm clock|u p r token]; simpl.
  - destruct (add_update_asset d act pick frm clock) as [[d' n]|] eqn:E; [|done].
    by eapply db_inv_save.
  - destruct (_ || _); [done|].
    unfold Auth.add_user. destruct (negb _); [done|].
    destruct (users d); [|done]. by destruct d.
Qed.

Lemma db_inv_run events : forall d, db_inv d -> db_inv (sqlite_run events d).
Proof.
  induction events as [|e events IH]; intros d Hinv; [done|].
  simpl. apply IH. by apply db_inv_step.
Qed.

End TableInvariant.

Section WorkbookInvariant.

Lemma Ok_inj {A} (a b : A) : Ok a = Ok b -> a = b.
Proof. by intros [= ->]. Qed.

Lemma Ok_pair_inj {A B} (a a' : A) (b b' : B) :
  Ok (a, b) = Ok (a', b') -> a = a' /\ b = b'.
Proof. by intros [= -> ->]. Qed.

(** ** The invariant of the workbook *)

Lemma join_bar_long ts :
  Forall (fun t => is_stamp t = true) ts -> ts <> [] ->
  (19 <= String.length (join_bar ts))%nat.
Proof.
  intros Hts Hne. destruct Hts as [|t ts Ht Hts]; [done|].
  apply andb_true_iff in Ht as [_ Ht]. apply Nat.leb_le in Ht.
  destruct ts; simpl; [done|]. rewrite str_length_app. lia.
Qed.

Lemma long_not_among h l :
  Forall (fun s => String.length s < 19)%nat l -> (19 <= String.length h)%nat ->
  existsb (String.eqb h) l = false.
Proof.
  induction 1 as [|s l Hs Hl IH]; intros Hh; simpl; [done|].
  rewrite IH by done. destruct (String.eqb_spec h s) as [->|]; [lia|done].
Qed.

Lemma read_back_long h :
  (19 <= String.length h)%nat -> Sheet.read_back (PyStr h) = PyStr h.
Proof.
  intros Hh. unfold Sheet.read_back. rewrite long_not_among; [done| |done].
  unfold Sheet.na_values. repeat constructor; simpl; lia.
Qed.

Lemma loaded_inv_read_back r : sheet_inv r -> loaded_inv (Sheet.read_back <$> r).
Proof.
  intros (ts & Hts & Hc & Hh). exists ts. split; [done|]. rewrite !lookup_fmap, Hc.
  split; [done|]. destruct Hh as [-> | [-> ->]]; [|done].
  destruct ts as [|t ts]; [done|].
  change (Sheet.read_back <$> Some (PyStr (join_bar (t :: ts))))
    with (Some (Sheet.read_back (PyStr (join_bar (t :: ts))))).
  by rewrite read_back_long by by apply join_bar_long.
Qed.

Lemma loaded_inv_consistent r : loaded_inv r -> sheet_history_consistent r = true.
Proof.
  intros (ts & Hts & Hc & Hh). unfold sheet_history_consistent, Sheet.at_.
  rewrite Hc, Hh. destruct ts as [|t ts]; [done|].
  rewrite history_entries_join by done. apply Z.eqb_refl.
Qed.

Lemma Forall_load_data w : Forall sheet_inv w -> Forall loaded_inv (Sheet.load_data w).
Proof.
  unfold Sheet.load_data. intros H. apply Forall_fmap.
  eapply Forall_impl; [done|]. intros r. apply loaded_inv_read_back.
Qed.

Lemma loaded_inv_sheet_inv r : loaded_inv r -> sheet_inv r.
Proof.
  intros (ts & Hts & Hc & Hh). exists ts. split; [done|]. split; [done|].
  destruct ts; [by right|by left].
Qed.

(** The update of a row adds one time stamp to its history. *)
Lemma update_row_tracker frm clock r r' :
  loaded_inv r ->
  Sheet.update_row (Sheet.form_data frm) (strftime_datetime clock) r = Ok r' ->
  r' !! "Update Count" = Some (PyInt (new_count (sheet_old_count r)))
  /\ r' !! "Update History"
     = Some (PyStr (new_history (sheet_old_history r) (strftime_datetime clock)))
  /\ r' !! "Asset Tag" = r !! "Asset Tag"
  /\ r' !! "Date Added" = r !! "Date Added".
Proof.
  intros (ts & Hts & Hc & Hh) Hu.
  unfold sheet_old_count, sheet_old_history, new_count, new_history, Sheet.at_.
  rewrite Hc, Hh.
  set (now := strftime_datetime clock) in *. clearbody now.
  unfold Sheet.update_row, Sheet.form_data in Hu. cbn [foldl fst snd] in Hu.
  unfold Sheet.at_ in Hu.
  rewrite !lookup_insert_ne, Hc in Hu by done.
  cbn [isna negb Sheet.plus_one mbind result_bind] in Hu.
  rewrite lookup_insert_ne in Hu by done.
  rewrite !lookup_insert_ne, Hh in Hu by done.
  destruct ts as [|t ts].
  - change (py_str Sheet.NaN) with (Ok (A:=string) "nan") in Hu.
    cbn in Hu. apply Ok_inj in Hu as <-.
    rewrite lookup_insert_eq, lookup_insert_ne, lookup_insert_eq by done.
    rewrite !lookup_insert_ne by done. done.
  - cbn [py_str mbind result_bind] in Hu.
    rewrite long_not_among in Hu;
      [|repeat constructor; simpl; lia|by apply join_bar_long].
    cbn in Hu. apply Ok_inj in Hu as <-.
    rewrite lookup_insert_eq, lookup_insert_ne, lookup_insert_eq by done.
    rewrite !lookup_insert_ne by done.
    by rewrite join_bar_nonempty.
Qed.

Lemma update_row_inv frm clock r r' :
  loaded_inv r ->
  Sheet.update_row (Sheet.form_data frm) (strftime_datetime clock) r = Ok r' ->
  sheet_inv r'.
Proof.
  intros Hinv Hu.
  destruct (update_row_tracker frm clock r r' Hinv Hu) as (Hc' & Hh' & _).
  destruct Hinv as (ts & Hts & Hc & Hh).
  pose proof (strftime_datetime_stamp clock) as Hnow.
  exists (ts ++ [strftime_datetime clock]).
  split; [apply Forall_app; split; [done|by constructor]|].
  unfold sheet_old_count, sheet_old_history, Sheet.at_ in Hc', Hh'.
  rewrite Hc in Hc'. rewrite Hh in Hh'. split.
  - rewrite Hc', length_app. unfold new_count. simpl. do 2 f_equal. lia.
  - left. rewrite Hh', join_bar_snoc by done. by destruct ts.
Qed.

Lemma sheet_inv_save w act pick frm clock w' n :
  Forall sheet_inv w ->
  Sheet.add_update_asset w act pick frm clock = Ok (w', n) ->
  Forall sheet_inv w'.
Proof.
  intros Hw H. pose proof (Forall_load_data w Hw) as Hdf.
  unfold Sheet.add_update_asset in H.
  set (df := Sheet.load_data w) in *.
  apply bind_Ok in H as (asset_tag & _ & H).
  destruct act.
  - apply bind_Ok in H as (new_tag & _ & H).
    apply Ok_pair_inj in H as [<- _]. unfold Sheet.save_data. apply Forall_app. split.
    + eapply Forall_impl; [done|]. apply loaded_inv_sheet_inv.
    + constructor; [|constructor]. exists []. split; [constructor|].
      generalize (strftime_datetime clock) as now. intros now.
      split; [|left]; reflexivity.
  - apply bind_Ok in H as (idx & _ & H).
    destruct (df !! idx) as [r|] eqn:Hr; [|discriminate].
    apply bind_Ok in H as (r' & Hr' & H).
    apply Ok_pair_inj in H as [<- _]. unfold Sheet.save_data. apply Forall_insert.
    + eapply Forall_impl; [done|]. apply loaded_inv_sheet_inv.
    + eapply update_row_inv; [|done].
      rewrite Forall_lookup in Hdf. by eapply Hdf.
Qed.

Lemma sheet_inv_run events : forall w,
  Forall sheet_inv w -> Forall sheet_inv (sheet_run events w).
Proof.
  induction events as [|[[[act pick] frm] clock] events IH]; intros w Hw; [done|].
  simpl. apply IH.
  destruct (Sheet.add_update_asset w act pick frm clock) as [[w' n]|] eqn:E; [|done].
  by eapply sheet_inv_save.
Qed.

End WorkbookInvariant.

Section Tracker.

(** What a press of "Save Asset" does to the workbook. *)
Lemma sheet_add_update_cases w act pick frm clock w' n :
  Forall sheet_inv w ->
  Sheet.add_update_asset w act pick frm clock = Ok (w', n) ->
  match n with
  | Sheet.asset_added _ new_tag =>
      exists r, w' = Sheet.load_data w ++ [r]
        /\ r !! "Asset Tag" = Some (PyStr new_tag)
        /\ r !! "Update Count" = Some (PyInt 0)
        /\ r !! "Update History" = Some (PyStr "")
  | Sheet.asset_updated _ =>
      exists i r r', Sheet.load_data w !! i = Some r
        /\ w' = <[i := r']> (Sheet.load_data w)
        /\ r' !! "Update Count" = Some (PyInt (new_count (sheet_old_count r)))
        /\ r' !! "Update History"
           = Some (PyStr (new_history (sheet_old_history r)
                            (strftime_datetime clock)))
        /\ r' !! "Asset Tag" = r !! "Asset Tag"
        /\ r' !! "Date Added" = r !! "Date Added"
  end.
Proof.
  intros Hw H. pose proof (Forall_load_data w Hw) as Hdf.
  unfold Sheet.add_update_asset in H.
  set (df := Sheet.load_data w) in *.
  apply bind_Ok in H as (asset_tag & _ & H).
  destruct act.
  - apply bind_Ok in H as (new_tag & _ & H).
    apply Ok_pair_inj in H as [<- <-]. unfold Sheet.save_data.
    eexists. split; [reflexivity|].
    generalize (strftime_datetime clock) as now. intros now.
    repeat split; reflexivity.
  - apply bind_Ok in H as (idx & _ & H).
    destruct (df !! idx) as [r|] eqn:Hr; [|discriminate].
    apply bind_Ok in H as (r' & Hr' & H).
    apply Ok_pair_inj in H as [<- <-]. unfold Sheet.save_data.
    exists idx, r, r'. split; [done|]. split; [done|].
    eapply update_row_tracker; [|done].
    rewrite Forall_lookup in Hdf. by eapply Hdf.
Qed.

Import Sqlite.

(** C2.  In every database reached from [init_db] on a fresh file by a
    run of the pages, and in every workbook reached from
    [initialize_excel] by a run of its asset page, the counter of every
    record equals the number of " | "-separated entries of its history,
    before a press of "Save Asset" and after it.  A press that adds a
    record stores it with counter 0 and the empty history; a press that
    updates one sets its counter to the old counter plus one and its
    history to the time stamp if the old history was empty, and else to
    the old history followed by " | " and the time stamp. *)
Theorem counter_and_history (events : list event) (secret : option string)
  (act : action) (pick : nat) (frm : form) (clock : datetime)
  (d' : db) (n : notice)
  (sheet_events : list (action * nat * form * datetime))
  (act' : action) (pick' : nat) (frm' : form) (clock' : datetime)
  (w' : Sheet.workbook) (n' : Sheet.notice) :
  let d := sqlite_run events (init_db secret fresh) in
  let w := sheet_run sheet_events Sheet.initialize_excel in
  add_update_asset d act pick frm clock = Ok (d', n) ->
  Sheet.add_update_asset w act' pick' frm' clock' = Ok (w', n') ->
  (exists rows rows',
      assets d = Some rows /\ assets d' = Some rows'
      /\ Forall (fun r => history_consistent r = true) rows
      /\ Forall (fun r => history_consistent r = true) rows'
      /\ match n with
         | asset_added _ new_tag =>
             exists r, rows' = rows ++ [r] /\ tag r = Some new_tag
                       /\ count r = Some 0%Z
                       /\ text r update_history = Some ""
         | asset_updated t =>
             exists i r r',
               rows !! i = Some r /\ tag r = Some t
               /\ rows' !! i = Some r' /\ tag r' = Some t
               /\ count r' = Some (new_count (old_count r))
               /\ text r' update_history
                  = Some (new_history (old_history r) (now_iso clock))
         | _ => rows' = rows
         end)
  /\ Forall (fun r => sheet_history_consistent r = true) (Sheet.load_data w)
  /\ Forall (fun r => sheet_history_consistent r = true) (Sheet.load_data w')
  /\ match n' with
     | Sheet.asset_added _ _ =>
         exists r, w' = Sheet.load_data w ++ [r]
           /\ r !! "Update Count" = Some (PyInt 0)
           /\ r !! "Update History" = Some (PyStr "")
     | Sheet.asset_updated _ =>
         exists i r r', Sheet.load_data w !! i = Some r
           /\ w' = <[i := r']> (Sheet.load_data w)
           /\ r' !! "Update Count" = Some (PyInt (new_count (sheet_old_count r)))
           /\ r' !! "Update History"
              = Some (PyStr (new_history (sheet_old_history r)
                               (strftime_datetime clock')))
     end.
Proof.
  intros d w Hd Hw.
  assert (db_inv d) as Hinv by apply db_inv_run, db_inv_init.
  assert (Forall sheet_inv w) as Hwinv by (apply sheet_inv_run; constructor).
  pose proof (db_inv_save _ _ _ _ _ _ _ Hinv Hd) as Hinv'.
  pose proof (sheet_inv_save _ _ _ _ _ _ _ Hwinv Hw) as Hwinv'.
  split; [|split; [|split]].
  - destruct Hinv as (rows & Hrows & Hall & Hnd).
    destruct Hinv' as (rows' & Hrows' & Hall' & _).
    exists rows, rows'. split; [done|]. split; [done|].
    split; [eapply Forall_impl; [done|apply row_inv_consistent]|].
    split; [eapply Forall_impl; [done|apply row_inv_consistent]|].
    apply add_update_asset_cases in Hd as (rows0 & H0 & _ & Hcases).
    rewrite Hrows in H0. apply Some_inj in H0 as <-.
    destruct Hcases as [(-> & Hn)
                       |[(r & new_tag & _ & -> & _ & _ & Hd' & Ht & Hc & Hh & _)
                        |(t & r0 & upd & _ & -> & Hr0 & Ht0 & _ & Hd' & Hupd)]].
    + rewrite Hrows in Hrows'. apply Some_inj in Hrows' as <-.
      by destruct Hn as [->|[t ->]].
    + rewrite Hrows' in Hd'. apply Some_inj in Hd' as ->. by exists r.
    + rewrite Hrows' in Hd'. apply Some_inj in Hd' as ->.
      apply list_elem_of_lookup in Hr0 as [i Hi].
      exists i, r0, (upd r0). split; [done|]. split; [done|].
      rewrite list_lookup_fmap, Hi. cbn [fmap option_fmap option_map].
      rewrite decide_True by done. split; [done|].
      destruct (Hupd r0) as (Ht & _ & Hc & Hh). rewrite Ht. done.
  - eapply Forall_impl; [by apply Forall_load_data|]. apply loaded_inv_consistent.
  - eapply Forall_impl; [by apply Forall_load_data|]. apply loaded_inv_consistent.
  - pose proof (sheet_add_update_cases _ _ _ _ _ _ _ Hwinv Hw) as Hcases.
    destruct n'.
    + destruct Hcases as (r & ? & _ & ? & ?). by exists r.
    + destruct Hcases as (i & r & r' & ? & ? & ? & ? & _). by exists i, r, r'.
Qed.

Lemma counter_and_history_witness :
  (exists rows rows',
      assets one_asset = Some rows /\ assets one_asset_updated = Some rows'
      /\ Forall (fun r => history_consistent r = true) rows
      /\ Forall (fun r => history_consistent r = true) rows'
      /\ exists i r r',
           rows !! i = Some r /\ tag r = Some "DEL-ACC-IT-0001"
           /\ rows' !! i = Some r' /\ tag r' = Some "DEL-ACC-IT-0001"
           /\ count r' = Some (new_count (old_count r))
           /\ text r' update_history
              = Some (new_history (old_history r) (now_iso ten)))
  /\ Forall (fun r => sheet_history_consistent r = true) (Sheet.load_data one_row)
  /\ Forall (fun r => sheet_history_consistent r = true)
       (Sheet.load_data one_row_updated)
  /\ exists i r r', Sheet.load_data one_row !! i = Some r
       /\ one_row_updated = <[i := r']> (Sheet.load_data one_row)
       /\ r' !! "Update Count" = Some (PyInt (new_count (sheet_old_count r)))
       /\ r' !! "Update History"
          = Some (PyStr (new_history (sheet_old_history r)
                           (strftime_datetime ten))).
Proof.
  apply (counter_and_history [first_save] None Update_Existing_Asset 0 dell_form
           ten one_asset_updated (asset_updated "DEL-ACC-IT-0001")
           [(Add_New_Asset, 0%nat, dell_form, nine)]
           Update_Existing_Asset 0 dell_form ten one_row_updated
           (Sheet.asset_updated (PyStr "DEL-ACC-IT-0001"))).
  - vm_compute. reflexivity.
  - vm_compute. reflexivity.
Defined.

End Tracker.

Section UsersAndAbsentTags.

Import Sqlite.

(** ** The users table *)

Lemma save_keeps_users events : forall d,
  users (sqlite_run (map save_event events) d) = users d.
Proof.
  induction events as [|[[[act pick] frm] clock] events IH]; intros d; [done|].
  simpl. rewrite IH.
  destruct (add_update_asset d act pick frm clock) as [[d' n]|] eqn:E; [|done].
  by apply add_update_asset_cases in E as (rows & _ & Hu & _).
Qed.

(** C10.  [init_db] on a fresh database leaves the users table with no
    row, whatever the administrator secret is: [verify_user] returns
    (False, None) for every user name and password, right after [init_db]
    and after any run of the asset page, which never calls [add_user]. *)
Theorem init_db_inserts_no_user (secret : option string)
  (saves : list (action * nat * form * datetime)) (username password : string) :
  users (init_db secret fresh) = Some ∅
  /\ Auth.verify_user (init_db secret fresh) username password = Ok (false, None)
  /\ Auth.verify_user (sqlite_run (map save_event saves) (init_db secret fresh))
       username password = Ok (false, None).
Proof.
  split; [done|]. split.
  - by apply (verify_user_absent _ ∅).
  - apply (verify_user_absent _ ∅); [|done]. by rewrite save_keeps_users.
Qed.

(** ** An update of a tag that is not there *)





End UsersAndAbsentTags.

Section Frame.

Import Sqlite.

(** ** What an update leaves alone *)













End Frame.

Section Duplicates.

Import Sqlite.

(** ** Two forms with one tag *)

Lemma form_tag_sqlite frm :
  (form_norm frm ≫= generate_asset_tag) = Ok (form_tag frm).
Proof.
  destruct (form_norm_Ok frm) as (fn & -> & ->). cbn [mbind result_bind].
  by apply generate_asset_tag_text.
Qed.

Lemma form_tag_sheet frm :
  Sheet.new_asset_tag (Sheet.form_data frm) = Ok (form_tag frm).
Proof. by eapply new_asset_tag_text. Qed.

Lemma insert_existing_record d rows frm fn new_tag now :
  form_norm frm = Ok fn -> assets d = Some rows -> Some new_tag ∈ tags rows ->
  insert_asset d (new_record fn new_tag now) = Raise IntegrityError.
Proof.
  intros Hfn Hrows Hnew.
  destruct (form_norm_Ok frm) as (fn' & Hfn' & ->). rewrite Hfn in Hfn'. injection Hfn' as ->.
  unfold insert_asset. rewrite Hrows.
  cbn -[strftime_date py_float py_or in_int64]. rewrite py_float_or_0.
  destruct (Disposal_Date frm); cbn -[strftime_date in_int64];
    change (in_int64 0) with true; cbn -[strftime_date in_int64];
    decide_columns;
    match goal with
    | |- context [match ?x with left _ => Raise IntegrityError | right _ => _ end] =>
        destruct x; done
    end.
Qed.

Lemma add_existing_tag d rows pick frm clock :
  assets d = Some rows -> Some (form_tag frm) ∈ tags rows ->
  add_update_asset d Add_New_Asset pick frm clock
  = Ok (d, tag_already_exists (form_tag frm)).
Proof.
  intros Hrows Hin. unfold add_update_asset, get_all_assets_df. rewrite Hrows.
  cbn [mbind result_bind]. pose proof (form_tag_sqlite frm) as Ht.
  destruct (form_norm frm) as [fn|e]; [|discriminate]. cbn [mbind result_bind] in *.
  rewrite Ht. cbn [mbind result_bind]. unfold get_asset. rewrite Hrows.
  cbn [mbind result_bind].
  pose proof (head_filter_tag (form_tag frm) rows) as Hh.
  by destruct (head (filter _ rows)).
Qed.

Lemma filter_tag_absent t rows :
  Some t ∉ tags rows -> filter (fun r => tag r = Some t) rows = [].
Proof.
  induction rows as [|r rows IH]; simpl; [done|]. intros Hn.
  rewrite filter_cons, decide_False by set_solver. apply IH. set_solver.
Qed.

Lemma sheet_add_appends w pick frm clock :
  exists r,
    Sheet.add_update_asset w Add_New_Asset pick frm clock
    = Ok (Sheet.load_data w ++ [r], Sheet.asset_added (Asset_Name frm) (form_tag frm))
    /\ r !! "Asset Tag" = Some (PyStr (form_tag frm))
    /\ r !! "Date Added" = Some (PyStr (strftime_datetime clock)).
Proof.
  unfold Sheet.add_update_asset. cbn [mbind result_bind].
  rewrite form_tag_sheet. cbn [mbind result_bind]. unfold Sheet.save_data.
  eexists. split; [reflexivity|].
  generalize (strftime_datetime clock) as now, (form_tag frm) as t. intros now t.
  split; reflexivity.
Qed.

(** C3.  In the SQLite variant, when a form was added under a tag, a
    second form that resolves to the same tag is refused by the page
    ("already exists") and by [insert_asset] (the primary key), and the
    table holds exactly one row with the tag.  In the workbook variant both
    presses of "Save Asset" succeed and each appends a row with the
    tag. *)
Theorem duplicate_tag (d d1 : db) (w : Sheet.workbook) (frm1 frm2 : form)
  (pick1 pick2 : nat) (clock1 clock2 : datetime) (name new_tag : string)
  (fn2 : dict) :
  form_tag frm2 = form_tag frm1 ->
  form_norm frm2 = Ok fn2 ->
  add_update_asset d Add_New_Asset pick1 frm1 clock1
  = Ok (d1, asset_added name new_tag) ->
  (new_tag = form_tag frm1
   /\ add_update_asset d1 Add_New_Asset pick2 frm2 clock2
      = Ok (d1, tag_already_exists new_tag)
   /\ insert_asset d1 (new_record fn2 new_tag (now_iso clock2))
      = Raise IntegrityError
   /\ exists rows1,
        assets d1 = Some rows1
        /\ length (filter (fun r => tag r = Some new_tag) rows1) = 1%nat)
  /\ exists r1 r2,
       Sheet.add_update_asset w Add_New_Asset pick1 frm1 clock1
       = Ok (Sheet.load_data w ++ [r1],
             Sheet.asset_added (Asset_Name frm1) (form_tag frm1))
       /\ Sheet.add_update_asset (Sheet.load_data w ++ [r1]) Add_New_Asset pick2
            frm2 clock2
          = Ok (Sheet.load_data (Sheet.load_data w ++ [r1]) ++ [r2],
                Sheet.asset_added (Asset_Name frm2) (form_tag frm1))
       /\ r1 !! "Asset Tag" = Some (PyStr (form_tag frm1))
       /\ r2 !! "Asset Tag" = Some (PyStr (form_tag frm1)).
Proof.
  intros Hsame Hfn2 Hadd. split.
  - apply add_update_asset_cases in Hadd
      as (rows & Hrows & Husers & [[_ [Hn|[t Hn]]]|[Hnew|Hupd]]); try discriminate.
    + destruct Hnew as (r & t & _ & Hn & Ht & Hnotin & Hrows1 & Hr & _).
      injection Hn as _ ->. rewrite form_tag_sqlite in Ht. injection Ht as <-.
      assert (Some (form_tag frm2) ∈ tags (rows ++ [r])) as Hin.
      { rewrite Hsame. unfold tags. rewrite map_app, elem_of_app. right.
        simpl. rewrite Hr. left. }
      split; [done|]. split; [|split].
      * rewrite <- Hsame. by eapply add_existing_tag.
      * rewrite <- Hsame. by eapply insert_existing_record.
      * eexists. split; [done|].
        rewrite filter_app, filter_tag_absent by done. simpl.
        rewrite filter_cons, decide_True by done. done.
    + destruct Hupd as (t & r0 & upd & Hact & _). discriminate.
  - destruct (sheet_add_appends w pick1 frm1 clock1) as (r1 & H1 & Ht1 & _).
    destruct (sheet_add_appends (Sheet.load_data w ++ [r1]) pick2 frm2 clock2)
      as (r2 & H2 & Ht2 & _).
    rewrite Hsame in H2, Ht2. by exists r1, r2.
Qed.

Lemma duplicate_tag_witness :
  ("DEL-ACC-IT-0001" = form_tag dell_form
   /\ add_update_asset one_asset Add_New_Asset 0 dell_form ten
      = Ok (one_asset, tag_already_exists "DEL-ACC-IT-0001")
   /\ insert_asset one_asset (new_record dell_norm "DEL-ACC-IT-0001" (now_iso ten))
      = Raise IntegrityError
   /\ exists rows1,
        assets one_asset = Some rows1
        /\ length (filter (fun r => tag r = Some "DEL-ACC-IT-0001") rows1) = 1%nat)
  /\ exists r1 r2,
       Sheet.add_update_asset Sheet.initialize_excel Add_New_Asset 0 dell_form nine
       = Ok (Sheet.load_data Sheet.initialize_excel ++ [r1],
             Sheet.asset_added (Asset_Name dell_form) (form_tag dell_form))
       /\ Sheet.add_update_asset (Sheet.load_data Sheet.initialize_excel ++ [r1])
            Add_New_Asset 0 dell_form ten
          = Ok (Sheet.load_data (Sheet.load_data Sheet.initialize_excel ++ [r1])
                ++ [r2],
                Sheet.asset_added (Asset_Name dell_form) (form_tag dell_form))
       /\ r1 !! "Asset Tag" = Some (PyStr (form_tag dell_form))
       /\ r2 !! "Asset Tag" = Some (PyStr (form_tag dell_form)).
Proof.
  apply (duplicate_tag empty_db one_asset Sheet.initialize_excel dell_form
           dell_form 0 0 nine ten "Dell" "DEL-ACC-IT-0001" dell_norm).
  - reflexivity.
  - vm_compute. reflexivity.
  - vm_compute. reflexivity.
Defined.

(** The workbook after the Dell form was saved twice. *)
Lemma sheet_duplicate_tag_counterexample :
  map (fun r => Sheet.at_ r "Asset Tag") (Sheet.load_data dell_twice)
  = [PyStr "DEL-ACC-IT-0001"; PyStr "DEL-ACC-IT-0001"].
Proof. vm_compute. reflexivity. Qed.

End Duplicates.

Section Listing.

Import Sqlite.

(** ** The order of the listing *)

Lemma ascii_compare_trans x y z :
  Ascii.compare x y <> Gt -> Ascii.compare y z <> Gt ->
  match Ascii.compare x y, Ascii.compare y z with
  | Eq, c | c, Eq => Ascii.compare x z = c
  | _, _ => Ascii.compare x z = Lt
  end.
Proof.
  unfold Ascii.compare. intros Hxy Hyz.
  destruct (N.compare_spec (N_of_ascii x) (N_of_ascii y)) as [E|L|G];
    destruct (N.compare_spec (N_of_ascii y) (N_of_ascii z)) as [E'|L'|G'];
    try done.
  - rewrite E, E'. apply N.compare_refl.
  - rewrite E. by apply N.compare_lt_iff.
  - rewrite <- E'. by apply N.compare_lt_iff.
  - apply N.compare_lt_iff. lia.
Qed.

Lemma string_compare_trans : forall a b c,
  String.compare a b <> Gt -> String.compare b c <> Gt ->
  String.compare a c <> Gt.
Proof.
  induction a as [|x a IH]; intros [|y b] [|z c]; simpl; try done.
  intros Hab Hbc.
  assert (Ascii.compare x y <> Gt) as Hxy by (by destruct (Ascii.compare x y)).
  assert (Ascii.compare y z <> Gt) as Hyz by (by destruct (Ascii.compare y z)).
  pose proof (ascii_compare_trans x y z Hxy Hyz) as Hxz.
  destruct (Ascii.compare x y), (Ascii.compare y z); try done; rewrite Hxz; try done.
  by eapply IH.
Qed.

Lemma string_leb_trans a b c :
  String.leb a b = true -> String.leb b c = true -> String.leb a c = true.
Proof.
  unfold String.leb. intros Hab Hbc.
  pose proof (string_compare_trans a b c) as H.
  destruct (String.compare a b), (String.compare b c), (String.compare a c);
    try done; exfalso; by apply H.
Qed.

Lemma text_leb_trans a b c :
  text_leb a b = true -> text_leb b c = true -> text_leb a c = true.
Proof.
  destruct a as [a|], b as [b|], c as [c|]; simpl; try done.
  apply string_leb_trans.
Qed.

Lemma text_leb_total a b : text_leb a b = true \/ text_leb b a = true.
Proof.
  destruct a as [a|], b as [b|]; simpl; auto. apply String.leb_total.
Qed.

Lemma insert_desc_sorted r sorted :
  StronglySorted newer_first sorted ->
  StronglySorted newer_first (insert_desc r sorted).
Proof.
  induction 1 as [|x rest Hs IH Hx]; simpl.
  - repeat constructor.
  - destruct (text_leb (text x date_added) (text r date_added)) eqn:E.
    + constructor; [by constructor|]. constructor; [done|].
      eapply Forall_impl; [exact Hx|]. intros y Hy. unfold newer_first in *.
      by eapply text_leb_trans.
    + constructor; [done|].
      assert (newer_first x r) as Hxr.
      { unfold newer_first. destruct (text_leb_total (text x date_added) (text r date_added)); congruence. }
      rewrite insert_desc_Permutation. by constructor.
Qed.

Lemma order_by_sorted rows :
  StronglySorted newer_first (order_by_date_added_desc rows).
Proof.
  induction rows as [|r rows IH]; simpl; [constructor|].
  by apply insert_desc_sorted.
Qed.

(** C8, as the code has it.  [get_all_assets_df] returns the rows of
    [assets], each once, ordered so that no row comes before one added
    later ([date_added] descending).  [load_data] of the workbook variant
    returns the rows in the order the workbook stores them, and "Add New
    Asset" appends the new row with the time of the press as its "Date
    Added": the newest row is the last one. *)
Theorem list_all_order (d : db) (rows : list row) (w : Sheet.workbook)
  (pick : nat) (frm : form) (clock : datetime) :
  assets d = Some rows ->
  (exists df, get_all_assets_df d = Ok df /\ df ≡ₚ rows
              /\ StronglySorted newer_first df)
  /\ length (Sheet.load_data w) = length w
  /\ (forall i, Sheet.load_data w !! i = fmap Sheet.read_back <$> w !! i)
  /\ exists r,
       Sheet.add_update_asset w Add_New_Asset pick frm clock
       = Ok (Sheet.load_data w ++ [r],
             Sheet.asset_added (Asset_Name frm) (form_tag frm))
       /\ r !! "Date Added" = Some (PyStr (strftime_datetime clock)).
Proof.
  intros Hrows. split; [|split; [|split]].
  - unfold get_all_assets_df. rewrite Hrows. eexists. split; [done|].
    split; [apply order_by_Permutation|apply order_by_sorted].
  - unfold Sheet.load_data. apply length_map.
  - intros i. unfold Sheet.load_data. apply list_lookup_fmap.
  - destruct (sheet_add_appends w pick frm clock) as (r & H & _ & Hd).
    by exists r.
Qed.

Lemma list_all_order_witness :
  (exists df, get_all_assets_df two_assets = Ok df
              /\ df ≡ₚ default [] (assets two_assets)
              /\ StronglySorted newer_first df)
  /\ length (Sheet.load_data one_row) = length one_row
  /\ (forall i, Sheet.load_data one_row !! i
                = fmap Sheet.read_back <$> one_row !! i)
  /\ exists r,
       Sheet.add_update_asset one_row Add_New_Asset 0 printer_form ten
       = Ok (Sheet.load_data one_row ++ [r],
             Sheet.asset_added (Asset_Name printer_form) (form_tag printer_form))
       /\ r !! "Date Added" = Some (PyStr (strftime_datetime ten)).
Proof.
  apply (list_all_order two_assets (default [] (assets two_assets)) one_row 0
           printer_form ten).
  vm_compute. reflexivity.
Defined.

(** The workbook lists the older record first. *)
Lemma sheet_order_counterexample :
  map (fun r => Sheet.at_ r "Date Added") (Sheet.load_data dell_then_canon)
  = [PyStr "2024-03-07 09:05:00"; PyStr "2024-03-07 10:30:00"].
Proof. vm_compute. reflexivity. Qed.

End Listing.

Section Reporting.

Import Sqlite.

(** ** The filters of the dashboard *)













End Reporting.

Section StoredFields.

Import Sqlite.

(** ** What the asset page stores *)

Lemma stored_zero (p : float) :
  (if PrimFloat.eqb (if PrimFloat.eqb p 0 then 0 else p) 0 then 0
   else if PrimFloat.eqb p 0 then 0 else p)%float
  = (if PrimFloat.eqb p 0 then 0 else p)%float.
Proof. destruct (PrimFloat.eqb p 0) eqn:E; [reflexivity|by rewrite E]. Qed.

Lemma insert_form_record d rows frm fn new_tag now :
  form_norm frm = Ok fn -> assets d = Some rows -> Some new_tag ∉ tags rows ->
  exists r, insert_asset d (new_record fn new_tag now) = Ok (with_assets d (rows ++ [r]))
    /\ tag r = Some new_tag /\ count r = Some 0%Z
    /\ text r update_history = Some ""
    /\ text r date_added = Some now /\ text r last_updated = Some now
    /\ price r = inserted_price (Purchase_Price frm)
    /\ holds_form frm r.
Proof.
  intros Hfn Hrows Hnew.
  destruct (form_norm_Ok frm) as (fn' & Hfn' & ->). rewrite Hfn in Hfn'. injection Hfn' as ->.
  unfold insert_asset. rewrite Hrows.
  cbn -[strftime_date py_float py_or in_int64]. rewrite py_float_or_0.
  destruct (Disposal_Date frm) eqn:Hdisp; cbn -[strftime_date in_int64];
    change (in_int64 0) with true; cbn -[strftime_date in_int64];
    decide_columns; rewrite stored_zero;
    match goal with
    | |- context [match ?x with left _ => Raise IntegrityError | right _ => _ end] =>
        destruct x; [done|]
    end;
    (eexists; split; [reflexivity|]);
    (repeat (split; [reflexivity|]));
    intros c v Hv; destruct c; simpl in Hv; rewrite ?Hdisp in Hv;
    try discriminate; injection Hv as <-; cbn -[strftime_date]; decide_columns;
    reflexivity.
Qed.

Lemma add_new_tag d rows pick frm clock :
  assets d = Some rows -> Some (form_tag frm) ∉ tags rows ->
  exists r,
    add_update_asset d Add_New_Asset pick frm clock
    = Ok (with_assets d (rows ++ [r]),
          asset_added (Asset_Name frm) (form_tag frm))
    /\ tag r = Some (form_tag frm) /\ count r = Some 0%Z
    /\ text r update_history = Some ""
    /\ text r date_added = Some (now_iso clock)
    /\ text r last_updated = Some (now_iso clock)
    /\ price r = inserted_price (Purchase_Price frm)
    /\ holds_form frm r.
Proof.
  intros Hrows Hnew. unfold add_update_asset, get_all_assets_df. rewrite Hrows.
  cbn [mbind result_bind]. pose proof (form_tag_sqlite frm) as Ht.
  destruct (form_norm frm) as [fn|e] eqn:Hfn; [|discriminate].
  cbn [mbind result_bind] in *. rewrite Ht. cbn [mbind result_bind].
  unfold get_asset. rewrite Hrows. cbn [mbind result_bind].
  rewrite filter_tag_absent by done. cbn [head].
  destruct (insert_form_record d rows frm fn (form_tag frm) (now_iso clock)
              Hfn Hrows Hnew) as (r & -> & Hr).
  by exists r.
Qed.

Lemma get_asset_last d rows r t :
  Some t ∉ tags rows -> tag r = Some t ->
  get_asset (with_assets d (rows ++ [r])) t = Ok (Some r).
Proof.
  intros Hn Ht. unfold get_asset. cbn [assets with_assets].
  rewrite filter_app, filter_tag_absent by done.
  cbn [app]. rewrite filter_cons, decide_True by done. done.
Qed.

(** X1.  When "Add New Asset" reports that the asset was added,
    [get_asset] of the new tag finds a row that holds the form field for
    field: the text fields as submitted, the dates as ISO text, the
    disposal date NULL when none was given, the price as
    [float(price or 0)] (NULL for a nan), both time stamps the time of the
    press, the counter 0 and the history empty. *)
Theorem added_asset_round_trip (d d' : db) (pick : nat) (frm : form)
  (clock : datetime) (name new_tag : string) :
  add_update_asset d Add_New_Asset pick frm clock
  = Ok (d', asset_added name new_tag) ->
  name = Asset_Name frm /\ new_tag = form_tag frm
  /\ exists r,
       get_asset d' new_tag = Ok (Some r)
       /\ tag r = Some new_tag
       /\ holds_form frm r
       /\ price r = inserted_price (Purchase_Price frm)
       /\ text r date_added = Some (now_iso clock)
       /\ text r last_updated = Some (now_iso clock)
       /\ count r = Some 0%Z
       /\ text r update_history = Some "".
Proof.
  intros H.
  destruct (assets d) as [rows|] eqn:Hrows;
    [|unfold add_update_asset, get_all_assets_df in H; by rewrite Hrows in H].
  destruct (decide (Some (form_tag frm) ∈ tags rows)) as [Hin|Hnew].
  - rewrite (add_existing_tag d rows pick frm clock Hrows Hin) in H. discriminate.
  - destruct (add_new_tag d rows pick frm clock Hrows Hnew)
      as (r & Hadd & Ht & Hc & Hh & Hda & Hlu & Hp & Hf).
    rewrite Hadd in H. apply Ok_pair_inj in H as [<- [= <- <-]].
    split; [done|]. split; [done|]. exists r.
    split; [by apply get_asset_last|]. done.
Qed.

Lemma added_asset_round_trip_witness :
  "Dell" = Asset_Name dell_form /\ "DEL-ACC-IT-0001" = form_tag dell_form
  /\ exists r,
       get_asset one_asset "DEL-ACC-IT-0001" = Ok (Some r)
       /\ tag r = Some "DEL-ACC-IT-0001"
       /\ holds_form dell_form r
       /\ price r = inserted_price (Purchase_Price dell_form)
       /\ text r date_added = Some (now_iso nine)
       /\ text r last_updated = Some (now_iso nine)
       /\ count r = Some 0%Z
       /\ text r update_history = Some "".
Proof.
  apply (added_asset_round_trip empty_db one_asset 0 dell_form nine "Dell"
           "DEL-ACC-IT-0001").
  vm_compute. reflexivity.
Defined.

(** X2.  On a database that has the [assets] table, "Add New Asset" never
    raises: if a row holds the tag of the form it answers "already
    exists" and leaves the database as it is, and otherwise it appends one
    row with that tag and reports it added. *)
Theorem add_new_asset_decides (d : db) (rows : list row) (pick : nat)
  (frm : form) (clock : datetime) :
  assets d = Some rows ->
  (Some (form_tag frm) ∈ tags rows ->
   add_update_asset d Add_New_Asset pick frm clock
   = Ok (d, tag_already_exists (form_tag frm)))
  /\ (Some (form_tag frm) ∉ tags rows ->
      exists r,
        add_update_asset d Add_New_Asset pick frm clock
        = Ok (with_assets d (rows ++ [r]),
              asset_added (Asset_Name frm) (form_tag frm))
        /\ tag r = Some (form_tag frm)).
Proof.
  intros Hrows. split.
  - by apply add_existing_tag.
  - intros Hnew.
    destruct (add_new_tag d rows pick frm clock Hrows Hnew) as (r & Hadd & Ht & _).
    by exists r.
Qed.

Lemma add_new_asset_decides_witness :
  (Some (form_tag printer_form) ∈ tags (default [] (assets one_asset)) ->
   add_update_asset one_asset Add_New_Asset 0 printer_form ten
   = Ok (one_asset, tag_already_exists (form_tag printer_form)))
  /\ (Some (form_tag printer_form) ∉ tags (default [] (assets one_asset)) ->
      exists r,
        add_update_asset one_asset Add_New_Asset 0 printer_form ten
        = Ok (with_assets one_asset (default [] (assets one_asset) ++ [r]),
              asset_added (Asset_Name printer_form) (form_tag printer_form))
        /\ tag r = Some (form_tag printer_form)).
Proof.
  apply (add_new_asset_decides one_asset (default [] (assets one_asset)) 0
           printer_form ten).
  vm_compute. reflexivity.
Defined.

(** ** What an update stores *)

Lemma form_update_fields frm fn now uc hist :
  form_norm frm = Ok fn -> in_int64 uc = true ->
  let updates := (fn ++ [("Last Updated", PyStr now); ("Update Count", PyInt uc);
                         ("Update History", PyStr hist)])%list in
  exists sets bound upd,
      set_list updates = Ok sets /\ bind_params sets = Ok bound
      /\ forall r, store_all bound r = Ok (upd r)
           /\ tag (upd r) = tag r
           /\ text (upd r) date_added = text r date_added
           /\ text (upd r) last_updated = Some now
           /\ count (upd r) = Some uc
           /\ text (upd r) update_history = Some hist
           /\ price (upd r) = updated_price (Purchase_Price frm)
           /\ holds_form frm (upd r).
Proof.
  intros Hfn Huc. destruct (form_norm_Ok frm) as (fn' & Hfn' & ->).
  rewrite Hfn in Hfn'. injection Hfn' as ->.
  cbv zeta.
  destruct (Disposal_Date frm) eqn:Hdisp;
    (eexists; eexists; eexists; split; [reflexivity|]);
    cbn -[strftime_date in_int64]; rewrite Huc;
    (split; [reflexivity|]); intros r; cbn -[strftime_date in_int64];
    instantiate (1 := fun r => _); cbv beta;
    (split; [reflexivity|]); decide_columns;
    (repeat (split; [reflexivity|]));
    intros c v Hv; destruct c; simpl in Hv; rewrite ?Hdisp in Hv;
    try discriminate; injection Hv as <-; cbn -[strftime_date]; decide_columns;
    reflexivity.
Qed.

Lemma head_filter_map_tag t (upd : row -> row) rows :
  (forall r, tag (upd r) = tag r) ->
  head (filter (fun r => tag r = Some t)
          (map (fun r => if decide (tag r = Some t) then upd r else r) rows))
  = upd <$> head (filter (fun r => tag r = Some t) rows).
Proof.
  intros Hupd. induction rows as [|r rows IH]; [done|].
  cbn [map]. rewrite !filter_cons.
  destruct (decide (tag r = Some t)) as [Ht|Ht].
  - rewrite decide_True by (by rewrite Hupd). done.
  - rewrite decide_False by done. exact IH.
Qed.

(** X3.  When "Update Existing Asset" reports the update of a tag,
    [get_asset] of the tag found a row before and finds one after; the
    row after holds the fields of the form (the price as submitted, NULL
    for a nan and 0.0 for a zero of either sign), keeps its tag and the
    time it was added, has the time of the press as its last update, the
    old counter plus one and the old history with the time of the press
    appended. *)
Theorem updated_asset_round_trip (d d' : db) (pick : nat) (frm : form)
  (clock : datetime) (t : string) :
  add_update_asset d Update_Existing_Asset pick frm clock
  = Ok (d', asset_updated t) ->
  exists r0 r',
    get_asset d t = Ok (Some r0)
    /\ get_asset d' t = Ok (Some r')
    /\ tag r' = Some t
    /\ holds_form frm r'
    /\ price r' = updated_price (Purchase_Price frm)
    /\ text r' date_added = text r0 date_added
    /\ text r' last_updated = Some (now_iso clock)
    /\ count r' = Some (new_count (old_count r0))
    /\ text r' update_history
       = Some (new_history (old_history r0) (now_iso clock)).
Proof.
  unfold add_update_asset, get_all_assets_df. intros H.
  destruct (assets d) as [rows|] eqn:Hrows; [|discriminate].
  cbn [mbind result_bind] in H.
  set (df := order_by_date_added_desc rows) in *.
  set (selected := match df with
                   | _ :: _ => mjoin (selectbox (tags df) pick)
                   | _ => None
                   end) in *.
  apply bind_Ok in H as (existing & Hex & H).
  apply bind_Ok in H as (fn & Hfn & H).
  destruct selected as [t0|] eqn:Hsel; [|discriminate].
  destruct (String.eqb t0 ""); [discriminate|].
  apply bind_Ok in H as (updates & Hupd & H).
  apply bind_Ok in H as (d1 & Hd1 & H). apply Ok_pair_inj in H as [<- [= <-]].
  rewrite (new_updates_Ok frm fn existing (now_iso clock) Hfn) in Hupd.
  apply Ok_inj in Hupd as <-.
  assert (Some t0 ∈ tags rows) as Hin.
  { subst selected df. destruct (order_by_date_added_desc rows) eqn:Hdf; [done|].
    destruct (selectbox _ pick) as [o|] eqn:Hs; [|done]. simpl in Hsel. subst o.
    apply selectbox_elem in Hs. rewrite <- Hdf in Hs.
    unfold tags in *. by rewrite order_by_Permutation in Hs. }
  unfold get_asset in Hex. rewrite Hrows in Hex. apply Ok_inj in Hex as <-.
  pose proof (head_filter_tag t0 rows) as Hhead.
  destruct (head (filter _ rows)) as [r0|] eqn:Hr0; [|done].
  destruct Hhead as [Hr0in Hr0t].
  cbn [existing_count existing_history] in Hd1.
  pose proof Hd1 as Hd1'.
  apply update_asset_Ok in Hd1' as (rows0 & sets & bound & rows' & H0 & Hs & Hb & Hu & ->).
  destruct (form_set_list frm fn (now_iso clock) (new_count (old_count r0))
              (new_history (old_history r0) (now_iso clock)) Hfn)
    as (sets' & Hs' & Hin').
  rewrite Hs in Hs'. apply Ok_inj in Hs' as <-.
  pose proof (bind_params_int _ _ _ _ Hb Hin') as Huc.
  destruct (form_update_fields frm fn (now_iso clock) _
              (new_history (old_history r0) (now_iso clock)) Hfn Huc)
    as (sets' & bound' & upd & Hs' & Hb' & Hupd).
  rewrite Hs in Hs'. apply Ok_inj in Hs' as <-.
  rewrite Hb in Hb'. apply Ok_inj in Hb' as <-.
  rewrite Hrows in H0. apply Some_inj in H0 as <-.
  rewrite (update_rows_map t0 bound upd) in Hu by (intros; apply Hupd).
  apply Ok_inj in Hu as <-.
  exists r0, (upd r0). unfold get_asset. rewrite Hrows. cbn [assets with_assets].
  rewrite Hr0. split; [done|].
  assert (forall r, tag (upd r) = tag r) as Htag.
  { intros r. by destruct (Hupd r) as (_ & ? & _). }
  rewrite (head_filter_map_tag t0 upd rows Htag), Hr0.
  split; [done|].
  destruct (Hupd r0) as (_ & Ht & Hda & Hlu & Hc & Hh & Hp & Hf).
  rewrite Ht. done.
Qed.

Lemma updated_asset_round_trip_witness :
  exists r0 r',
    get_asset one_asset "DEL-ACC-IT-0001" = Ok (Some r0)
    /\ get_asset one_asset_updated "DEL-ACC-IT-0001" = Ok (Some r')
    /\ tag r' = Some "DEL-ACC-IT-0001"
    /\ holds_form dell_form r'
    /\ price r' = updated_price (Purchase_Price dell_form)
    /\ text r' date_added = text r0 date_added
    /\ text r' last_updated = Some (now_iso ten)
    /\ count r' = Some (new_count (old_count r0))
    /\ text r' update_history
       = Some (new_history (old_history r0) (now_iso ten)).
Proof.
  apply (updated_asset_round_trip one_asset one_asset_updated 0 dell_form ten
           "DEL-ACC-IT-0001").
  vm_compute. reflexivity.
Defined.

End StoredFields.

Section Lookup.

Import Sqlite.

(** ** Looking a tag up *)

Lemma get_asset_absent d rows t :
  assets d = Some rows -> Some t ∉ tags rows -> get_asset d t = Ok None.
Proof.
  intros Hrows Hn. unfold get_asset. rewrite Hrows.
  by rewrite filter_tag_absent.
Qed.

Lemma get_asset_present d rows t :
  assets d = Some rows -> Some t ∈ tags rows ->
  exists r, get_asset d t = Ok (Some r) /\ r ∈ rows /\ tag r = Some t.
Proof.
  intros Hrows Hin. unfold get_asset. rewrite Hrows.
  pose proof (head_filter_tag t rows) as Hh.
  destruct (head (filter _ rows)) as [r|]; [|done].
  exists r. by destruct Hh.
Qed.

Lemma get_asset_unique d rows t r :
  assets d = Some rows -> NoDup (tags rows) -> r ∈ rows -> tag r = Some t ->
  get_asset d t = Ok (Some r).
Proof.
  intros Hrows Hnd Hr Ht. unfold get_asset. rewrite Hrows. f_equal.
  clear Hrows. induction rows as [|r1 rows IH]; [by apply elem_of_nil in Hr|].
  cbn [tags map] in Hnd. apply NoDup_cons in Hnd as [Hn1 Hnd].
  rewrite filter_cons. destruct (decide (tag r1 = Some t)) as [H1|H1].
  - apply elem_of_cons in Hr as [->|Hr]; [done|].
    exfalso. apply Hn1. rewrite H1, <- Ht. by apply list_elem_of_fmap_2.
  - apply elem_of_cons in Hr as [->|Hr]; [done|]. by apply IH.
Qed.

(** X4.  [get_asset] never raises on a database that has the [assets]
    table: it returns [None] when no row holds the tag, and otherwise a row
    of the table with that tag; when the tags of the table are all
    different it returns the very row that holds the tag. *)
Theorem get_asset_lookup (d : db) (rows : list row) (t : string) :
  assets d = Some rows ->
  (Some t ∉ tags rows -> get_asset d t = Ok None)
  /\ (Some t ∈ tags rows ->
      exists r, get_asset d t = Ok (Some r) /\ r ∈ rows /\ tag r = Some t)
  /\ (NoDup (tags rows) ->
      forall r, r ∈ rows -> tag r = Some t -> get_asset d t = Ok (Some r)).
Proof.
  intros Hrows. split; [by apply get_asset_absent|].
  split; [by apply get_asset_present|].
  intros Hnd r Hr Ht. by eapply get_asset_unique.
Qed.

Lemma get_asset_lookup_witness :
  (Some "CAN-KUM-FIN-0027" ∉ tags (default [] (assets one_asset)) ->
   get_asset one_asset "CAN-KUM-FIN-0027" = Ok None)
  /\ (Some "CAN-KUM-FIN-0027" ∈ tags (default [] (assets one_asset)) ->
      exists r, get_asset one_asset "CAN-KUM-FIN-0027" = Ok (Some r)
                /\ r ∈ default [] (assets one_asset)
                /\ tag r = Some "CAN-KUM-FIN-0027")
  /\ (NoDup (tags (default [] (assets one_asset))) ->
      forall r, r ∈ default [] (assets one_asset) ->
                tag r = Some "CAN-KUM-FIN-0027" ->
                get_asset one_asset "CAN-KUM-FIN-0027" = Ok (Some r)).
Proof.
  apply (get_asset_lookup one_asset (default [] (assets one_asset))
           "CAN-KUM-FIN-0027").
  vm_compute. reflexivity.
Defined.

(** ** Every row has a tag of its own *)

Lemma tagged_save d act pick frm clock d' n rows rows' :
  add_update_asset d act pick frm clock = Ok (d', n) ->
  assets d = Some rows -> assets d' = Some rows' ->
  Forall (fun r => is_Some (tag r)) rows ->
  Forall (fun r => is_Some (tag r)) rows'.
Proof.
  intros H Hrows Hrows' Hall.
  apply add_update_asset_cases in H as (rows0 & H0 & _ & Hcases).
  rewrite Hrows in H0. apply Some_inj in H0 as <-.
  destruct Hcases as [(-> & _)|[(r & new_tag & _ & _ & _ & _ & Hd' & Ht & _)
                               |(t & r0 & upd & _ & _ & _ & _ & _ & Hd' & Hupd)]].
  - rewrite Hrows in Hrows'. by apply Some_inj in Hrows' as <-.
  - rewrite Hrows' in Hd'. apply Some_inj in Hd' as ->.
    apply Forall_app. split; [done|]. constructor; [|constructor]. by rewrite Ht.
  - rewrite Hrows' in Hd'. apply Some_inj in Hd' as ->.
    apply Forall_fmap. eapply Forall_impl; [exact Hall|]. intros r Hr. cbn.
    destruct (decide _); [|done]. destruct (Hupd r) as (-> & _). done.
Qed.

Lemma tagged_step d e rows rows' :
  assets d = Some rows -> assets (sqlite_step d e) = Some rows' ->
  Forall (fun r => is_Some (tag r)) rows ->
  Forall (fun r => is_Some (tag r)) rows'.
Proof.
  intros Hrows Hrows' Hall. destruct e as [act pick frm clock|u p r token];
    simpl in Hrows'.
  - destruct (add_update_asset d act pick frm clock) as [[d' n]|] eqn:E.
    + by eapply tagged_save.
    + rewrite Hrows in Hrows'. by apply Some_inj in Hrows' as <-.
  - assert (assets d = Some rows') as Hsame.
    { revert Hrows'. destruct (_ || _); [done|].
      unfold Auth.add_user. destruct (negb _); [done|].
      destruct (users d); [|done]. by destruct d. }
    rewrite Hrows in Hsame. by apply Some_inj in Hsame as <-.
Qed.

Lemma tagged_run events : forall d rows rows',
  db_inv d ->
  assets d = Some rows -> assets (sqlite_run events d) = Some rows' ->
  Forall (fun r => is_Some (tag r)) rows ->
  Forall (fun r => is_Some (tag r)) rows'.
Proof.
  induction events as [|e events IH]; intros d rows rows' Hinv Hrows Hrows' Hall.
  - simpl in Hrows'. rewrite Hrows in Hrows'. by apply Some_inj in Hrows' as <-.
  - simpl in Hrows'.
    pose proof (db_inv_step d e Hinv) as Hinv1.
    destruct Hinv1 as (rows1 & Hrows1 & Hinv1).
    apply (IH (sqlite_step d e) rows1 rows'
             (ex_intro _ rows1 (conj Hrows1 Hinv1)) Hrows1 Hrows').
    exact (tagged_step d e rows rows1 Hrows Hrows1 Hall).
Qed.

(** X5.  In every database reached from [init_db] on a fresh file by any
    run of the asset page and the user page, every row has a tag, no two
    rows have the same tag, and [get_asset] of the tag of a row returns
    that row. *)
Theorem tags_stay_unique (secret : option string) (events : list event) :
  exists rows,
    assets (sqlite_run events (init_db secret fresh)) = Some rows
    /\ NoDup (tags rows)
    /\ Forall (fun r => is_Some (tag r)) rows
    /\ forall r, r ∈ rows ->
         exists t, tag r = Some t
           /\ get_asset (sqlite_run events (init_db secret fresh)) t
              = Ok (Some r).
Proof.
  pose proof (db_inv_run events _ (db_inv_init secret)) as (rows & Hrows & _ & Hnd).
  assert (Forall (fun r => is_Some (tag r)) rows) as Hall.
  { eapply (tagged_run events (init_db secret fresh) []);
      [apply db_inv_init|done|done|constructor]. }
  exists rows. split; [done|]. split; [done|]. split; [done|].
  intros r Hr. rewrite Forall_forall in Hall.
  destruct (Hall r Hr) as [t Ht]. exists t. split; [done|].
  by eapply get_asset_unique.
Qed.

(** ** The history only grows *)

Lemma history_list_join ts :
  Forall (fun t => is_stamp t = true) ts -> history_list (join_bar ts) = ts.
Proof.
  intros Hts. unfold history_list. destruct ts as [|t ts]; [done|].
  by rewrite join_bar_nonempty, split_join_bar.
Qed.

(** X6.  In every database reached from [init_db] on a fresh file, an
    update keeps every entry of the history of the row, in order, and adds
    the time of the press as the last one; every entry is a time stamp. *)
Theorem history_is_append_only (secret : option string) (events : list event)
  (pick : nat) (frm : form) (clock : datetime) (d' : db) (t : string) :
  add_update_asset (sqlite_run events (init_db secret fresh))
    Update_Existing_Asset pick frm clock = Ok (d', asset_updated t) ->
  exists r r',
    get_asset (sqlite_run events (init_db secret fresh)) t = Ok (Some r)
    /\ get_asset d' t = Ok (Some r')
    /\ history_list (old_history r')
       = history_list (old_history r) ++ [now_iso clock]
    /\ Forall (fun s => is_stamp s = true) (history_list (old_history r')).
Proof.
  set (d := sqlite_run events (init_db secret fresh)). intros H.
  pose proof (db_inv_run events _ (db_inv_init secret)) as (rows & Hrows & Hinv & Hnd).
  fold d in Hrows.
  apply add_update_asset_cases in H as (rows0 & H0 & _ & Hcases).
  rewrite Hrows in H0. apply Some_inj in H0 as <-.
  destruct Hcases as [(_ & [Hn|[t0 Hn]])|[(r & new_tag & _ & Hn & _)
                     |(t0 & r0 & upd & _ & Hn & Hr0 & Ht0 & Hhead & Hd' & Hupd)]];
    try discriminate.
  injection Hn as <-.
  assert (forall r, tag (upd r) = tag r) as Htag by (intros r; apply Hupd).
  exists r0, (upd r0). unfold get_asset. rewrite Hrows, Hd', Hhead.
  split; [done|]. rewrite (head_filter_map_tag t upd rows Htag), Hhead.
  split; [done|].
  rewrite Forall_forall in Hinv. destruct (Hinv r0 Hr0) as (ts & Hts & Hc & Hh).
  destruct (Hupd r0) as (_ & _ & _ & Hh').
  unfold old_history at 1 3. rewrite Hh'.
  unfold old_history. rewrite Hh.
  rewrite <- join_bar_snoc by done.
  assert (Forall (fun s => is_stamp s = true) (ts ++ [now_iso clock])) as Hts'.
  { apply Forall_app. split; [done|]. constructor; [|constructor].
    apply strftime_datetime_stamp. }
  rewrite !history_list_join by done. done.
Qed.

Lemma history_is_append_only_witness :
  exists r r',
    get_asset (sqlite_run [first_save] (init_db None fresh)) "DEL-ACC-IT-0001"
    = Ok (Some r)
    /\ get_asset one_asset_updated "DEL-ACC-IT-0001" = Ok (Some r')
    /\ history_list (old_history r')
       = history_list (old_history r) ++ [now_iso ten]
    /\ Forall (fun s => is_stamp s = true) (history_list (old_history r')).
Proof.
  apply (history_is_append_only None [first_save] 0 dell_form ten
           one_asset_updated "DEL-ACC-IT-0001").
  vm_compute. reflexivity.
Defined.

End Lookup.

Section Users.

Import Sqlite Auth.

(** ** The users table under [add_user] *)

Lemma add_user_Ok d u p r token d' :
  add_user d u p r token = Ok d' ->
  (r = "admin" \/ r = "user")
  /\ exists us,
       users d = Some us
       /\ d' = with_users d
                 (<[u := {| password_hash := _pbkdf2_hash p token;
                            salt := Base64.b64encode token;
                            role := r |}]> us).
Proof.
  unfold add_user. intros H.
  destruct (bool_decide (r ∈ ["admin"; "user"])) eqn:E; [|discriminate].
  apply bool_decide_eq_true in E. cbn [negb] in H.
  destruct (users d) as [us|]; [|discriminate]. apply Ok_inj in H as <-.
  split; [set_solver|]. by exists us.
Qed.

Lemma add_user_bad_role d u p r token :
  r <> "admin" -> r <> "user" -> add_user d u p r token = Raise ValueError.
Proof.
  intros H1 H2. unfold add_user.
  rewrite bool_decide_eq_false_2; [done|]. set_solver.
Qed.

Lemma verify_user_other d us u row u' p' :
  users d = Some us -> u' <> u ->
  verify_user (with_users d (<[u := row]> us)) u' p' = verify_user d u' p'.
Proof.
  intros Hus Hne. unfold verify_user. cbn [users with_users].
  by rewrite Hus, lookup_insert_ne.
Qed.

(** X7.  [add_user] raises [ValueError] for a role that is neither
    "admin" nor "user".  When it returns, the role was one of the two, the
    [assets] table is as it was, the row of the user name holds the role,
    the PBKDF2 verifier of the password under the salt and the salt in
    base 64, which decodes to the bytes that were drawn, and
    [verify_user] answers as before for every other user name. *)
Theorem add_user_outcome (d : db) (u p r token : string) :
  (r <> "admin" -> r <> "user" -> add_user d u p r token = Raise ValueError)
  /\ forall d',
       add_user d u p r token = Ok d' ->
       (r = "admin" \/ r = "user")
       /\ assets d' = assets d
       /\ (exists us row,
             users d = Some us /\ users d' = Some (<[u := row]> us)
             /\ role row = r
             /\ Base64.b64decode (salt row) = Ok token
             /\ password_hash row = _pbkdf2_hash p token)
       /\ forall u' p', u' <> u -> verify_user d' u' p' = verify_user d u' p'.
Proof.
  split; [apply add_user_bad_role|]. intros d' H.
  apply add_user_Ok in H as (Hr & us & Hus & ->).
  split; [done|]. split; [done|]. split.
  - eexists us, _. split; [done|]. split; [reflexivity|]. split; [done|].
    split; [apply b64decode_b64encode|done].
  - intros u' p' Hne. by apply verify_user_other.
Qed.

(** X8.  A second [add_user] of a user name replaces the row of the
    first: the database is the one that the second call alone would have
    given, [verify_user] accepts the new password with the new role, and
    accepts the old password only if it has the verifier of the new one
    under the new salt. *)
Theorem add_user_replaces (d d1 d2 : db) (u p1 r1 token1 p2 r2 token2 : string) :
  add_user d u p1 r1 token1 = Ok d1 ->
  add_user d1 u p2 r2 token2 = Ok d2 ->
  add_user d u p2 r2 token2 = Ok d2
  /\ verify_user d2 u p2 = Ok (true, Some r2)
  /\ verify_user d2 u p1
     = Ok (if String.eqb (_pbkdf2_hash p1 token2) (_pbkdf2_hash p2 token2)
           then (true, Some r2) else (false, None)).
Proof.
  intros H1 H2.
  apply add_user_Ok in H1 as (Hr1 & us & Hus & ->).
  apply add_user_Ok in H2 as (Hr2 & us1 & Hus1 & ->).
  cbn [users with_users] in Hus1. apply Some_inj in Hus1 as <-.
  rewrite insert_insert_eq.
  assert (with_users (with_users d (<[u:={| password_hash := _pbkdf2_hash p1 token1;
                      salt := Base64.b64encode token1; role := r1 |}]> us))
            (<[u:={| password_hash := _pbkdf2_hash p2 token2;
                     salt := Base64.b64encode token2; role := r2 |}]> us)
          = with_users d
              (<[u:={| password_hash := _pbkdf2_hash p2 token2;
                       salt := Base64.b64encode token2; role := r2 |}]> us)) as ->
    by done.
  split; [by apply add_user_ok|].
  split.
  - erewrite verify_user_stored; [|reflexivity|apply lookup_insert_eq].
    by rewrite String.eqb_refl.
  - erewrite verify_user_stored; [|reflexivity|apply lookup_insert_eq]. done.
Qed.

Lemma add_user_replaces_witness :
  exists d2,
    add_user empty_db "alice" "xyz" "admin" token0 = Ok d2
    /\ verify_user d2 "alice" "xyz" = Ok (true, Some "admin").
Proof.
  pose (us1 := <["alice" := {| password_hash := _pbkdf2_hash "abc" token0;
                               salt := Base64.b64encode token0;
                               role := "user" |}]> (∅ : gmap string user_row)).
  pose (d1 := with_users empty_db us1).
  pose (d2 := with_users d1
                (<["alice" := {| password_hash := _pbkdf2_hash "xyz" token0;
                                 salt := Base64.b64encode token0;
                                 role := "admin" |}]> us1)).
  exists d2.
  destruct (add_user_replaces empty_db d1 d2 "alice" "abc" "user" token0
              "xyz" "admin" token0
              (add_user_ok empty_db ∅ "alice" "abc" "user" token0 eq_refl
                 (or_intror eq_refl))
              (add_user_ok d1 us1 "alice" "xyz" "admin" token0 eq_refl
                 (or_introl eq_refl)))
    as (H1 & H2 & _).
  split; [exact H1|exact H2].
Defined.

(** ** The two pages *)

(** X9.  A press of "Save Asset" leaves the users table as it is, a
    press of "Add / Update User" leaves the [assets] table as it is, and
    with an empty user name or an empty password the user page writes
    nothing. *)
Theorem pages_keep_to_their_table (d : db) (act : action) (pick : nat)
  (frm : form) (clock : datetime) (new_user new_pw new_role token : string) :
  users (sqlite_step d (Save_Asset act pick frm clock)) = users d
  /\ assets (sqlite_step d (Add_Update_User new_user new_pw new_role token))
     = assets d
  /\ (new_user = "" \/ new_pw = "" ->
      sqlite_step d (Add_Update_User new_user new_pw new_role token) = d).
Proof.
  split; [|split].
  - simpl. destruct (add_update_asset d act pick frm clock) as [[d' n]|] eqn:E;
      [|done].
    by apply add_update_asset_cases in E as (rows & _ & Hu & _).
  - simpl. destruct (_ || _); [done|].
    destruct (add_user d new_user new_pw new_role token) as [d'|] eqn:E; [|done].
    by apply add_user_Ok in E as (_ & us & _ & ->).
  - intros [-> | ->]; simpl; [done|]. by rewrite orb_true_r.
Qed.

(** X10.  After "Add / Update User" with a user name and a password that
    are not empty and a role of the select box, [verify_user] with that
    name and password returns (True, role). *)
Theorem user_page_then_login (d : db) (us : gmap string user_row)
  (new_user new_pw new_role token : string) :
  users d = Some us -> new_user <> "" -> new_pw <> "" ->
  new_role = "user" \/ new_role = "admin" ->
  verify_user (sqlite_step d (Add_Update_User new_user new_pw new_role token))
    new_user new_pw
  = Ok (true, Some new_role).
Proof.
  intros Hus Hu Hp Hr. simpl.
  apply String.eqb_neq in Hu, Hp. rewrite Hu, Hp. cbn [orb].
  rewrite (add_user_ok d us) by (done || tauto).
  erewrite verify_user_stored; [|reflexivity|apply lookup_insert_eq].
  by rewrite String.eqb_refl.
Qed.

Lemma user_page_then_login_witness :
  verify_user (sqlite_step empty_db (Add_Update_User "alice" "abc" "user" token0))
    "alice" "abc"
  = Ok (true, Some "user").
Proof.
  apply (user_page_then_login empty_db ∅ "alice" "abc" "user" token0);
    [reflexivity|discriminate|discriminate|by left].
Defined.

End Users.

Section LabelSheet.

Import Labels.

(** ** Where the labels go *)

(** The cursor before the label number [k] is drawn. *)
Lemma succ_slot k :
  (k mod 12 = 11 /\ S k / 12 = S (k / 12) /\ S k mod 12 = 0)
  \/ (k mod 12 < 11 /\ S k / 12 = k / 12 /\ S k mod 12 = S (k mod 12)).
Proof.
  pose proof (Nat.div_mod_eq k 12) as Hk.
  pose proof (Nat.mod_upper_bound k 12 ltac:(lia)) as Hlt.
  destruct (decide (k mod 12 = 11)) as [E|E]; [left|right]; split; try lia.
  - assert (S k = 12 * S (k / 12) + 0) as H by lia.
    split.
    + symmetry. apply (Nat.div_unique (S k) 12 (S (k / 12)) 0); lia.
    + symmetry. apply (Nat.mod_unique (S k) 12 (S (k / 12)) 0); lia.
  - assert (S k = 12 * (k / 12) + S (k mod 12)) as H by lia.
    split.
    + symmetry. apply (Nat.div_unique (S k) 12 (k / 12) (S (k mod 12))); lia.
    + symmetry. apply (Nat.mod_unique (S k) 12 (k / 12) (S (k mod 12))); lia.
Qed.

Lemma mod_12_3 k : (k mod 12) mod 3 = k mod 3.
Proof.
  pose proof (Nat.div_mod_eq k 12) as Hk.
  pose proof (Nat.mod_upper_bound k 12 ltac:(lia)) as Hlt.
  pose proof (Nat.div_mod_eq (k mod 12) 3) as Hr.
  pose proof (Nat.mod_upper_bound (k mod 12) 3 ltac:(lia)) as Hlt3.
  apply (Nat.mod_unique k 3 (4 * (k / 12) + (k mod 12) / 3) ((k mod 12) mod 3));
    lia.
Qed.

Lemma advance_slot shown r :
  r < 12 ->
  advance (fst A4) (snd A4) (cursor_at shown r)
  = if decide (r = 11) then cursor_at (S shown) 0 else cursor_at shown (S r).
Proof.
  intros Hr.
  do 12 (destruct r as [|r]; [vm_compute; reflexivity|]). lia.
Qed.

Lemma advance_place k :
  advance (fst A4) (snd A4) (cursor_at (k / 12) (k mod 12))
  = cursor_at (S k / 12) (S k mod 12).
Proof.
  rewrite advance_slot by (apply Nat.mod_upper_bound; lia).
  destruct (succ_slot k) as [(E & -> & ->)|(E & -> & ->)].
  - by rewrite decide_True.
  - rewrite decide_False by lia. done.
Qed.

Lemma draw_place tags : forall k,
  draw (fst A4) (snd A4) tags (cursor_at (k / 12) (k mod 12))
  = imap (fun n => place (k + n)) tags.
Proof.
  induction tags as [|tag tags IH]; intros k; [done|].
  cbn [draw imap cursor_at]. f_equal.
  - unfold place. rewrite Nat.add_0_r, mod_12_3. done.
  - fold (cursor_at (k / 12) (k mod 12)). rewrite advance_place, IH.
    apply imap_ext. intros n tag' _. cbn. f_equal. lia.
Qed.

Lemma generate_qr_pdf_imap asset_tags :
  generate_qr_pdf asset_tags = imap place asset_tags.
Proof. exact (draw_place asset_tags 0). Qed.

(** X11.  [generate_qr_pdf] draws one label for each tag, in the order of
    the tags: the label number [k] (from 0) is on page [k / 12], in the
    row [(k mod 12) / 3] of the four rows of the page, at
    [x = 50 + 150 * (k mod 3)]: three labels to a row, twelve to a
    page. *)
Theorem labels_layout (asset_tags : list string) :
  generate_qr_pdf asset_tags = imap place asset_tags
  /\ length (generate_qr_pdf asset_tags) = length asset_tags
  /\ forall k, generate_qr_pdf asset_tags !! k = place k <$> asset_tags !! k.
Proof.
  pose proof (generate_qr_pdf_imap asset_tags) as H.
  split; [done|]. rewrite H. split; [apply length_imap|].
  intros k. apply list_lookup_imap.
Qed.

Lemma place_on_page k tag : on_page (place k tag).
Proof.
  unfold on_page, place. cbn [at_x at_y].
  pose proof (Nat.mod_upper_bound k 3 ltac:(lia)) as H3.
  pose proof (Nat.mod_upper_bound k 12 ltac:(lia)) as H12.
  assert ((k mod 12) / 3 < 4) as H4 by (apply Nat.Div0.div_lt_upper_bound; lia).
  split; [lia|].
  split.
  - destruct (k mod 3) as [|[|[|?]]]; [vm_compute; reflexivity..|lia].
  - destruct ((k mod 12) / 3) as [|[|[|[|?]]]]; [by vm_compute..|lia].
Qed.

Lemma rows_clear u v :
  u < v -> v < 4 ->
  PrimFloat.leb (row_y v + 100) (row_y u - 15) = true.
Proof.
  intros Huv Hv.
  destruct v as [|[|[|[|?]]]]; [lia| | | |lia];
    destruct u as [|[|[|?]]]; try lia; vm_compute; reflexivity.
Qed.

Lemma place_clear i j ti tj : i <> j -> clear_of (place i ti) (place j tj).
Proof.
  intros Hne. unfold clear_of, place. cbn [page at_x at_y].
  destruct (decide (i / 12 = j / 12)) as [Hp|Hp]; [|by left]. right.
  pose proof (Nat.div_mod_eq i 12) as Hi.
  pose proof (Nat.div_mod_eq j 12) as Hj.
  pose proof (Nat.mod_upper_bound i 12 ltac:(lia)) as Hi12.
  pose proof (Nat.mod_upper_bound j 12 ltac:(lia)) as Hj12.
  pose proof (Nat.mod_upper_bound i 3 ltac:(lia)) as Hi3.
  pose proof (Nat.mod_upper_bound j 3 ltac:(lia)) as Hj3.
  destruct (decide (i mod 3 = j mod 3)) as [Hc|Hc]; [|lia].
  right. right.
  pose proof (Nat.div_mod_eq (i mod 12) 3) as Hir.
  pose proof (Nat.div_mod_eq (j mod 12) 3) as Hjr.
  rewrite mod_12_3 in Hir, Hjr.
  assert ((i mod 12) / 3 < 4) as Hi4 by (apply Nat.Div0.div_lt_upper_bound; lia).
  assert ((j mod 12) / 3 < 4) as Hj4 by (apply Nat.Div0.div_lt_upper_bound; lia).
  destruct (Nat.lt_total ((i mod 12) / 3) ((j mod 12) / 3)) as [Hlt|[Heq|Hgt]].
  - right. by apply rows_clear.
  - lia.
  - left. by apply rows_clear.
Qed.

(** X12.  Every label that [generate_qr_pdf] draws has its image and the
    base line of its caption on the A4 page, and two different labels are
    clear of each other: they are on different pages, or 100 or more apart
    sideways, or one of them, its caption included, is wholly above the
    image of the other. *)
Theorem labels_do_not_overlap (asset_tags : list string) (i j : nat)
  (a b : label) :
  generate_qr_pdf asset_tags !! i = Some a ->
  generate_qr_pdf asset_tags !! j = Some b ->
  on_page a /\ on_page b /\ (i <> j -> clear_of a b).
Proof.
  rewrite generate_qr_pdf_imap, !list_lookup_imap. intros Ha Hb.
  destruct (asset_tags !! i) as [ti|]; [|done].
  destruct (asset_tags !! j) as [tj|]; [|done].
  cbn in Ha, Hb. apply Some_inj in Ha as <-. apply Some_inj in Hb as <-.
  split; [apply place_on_page|]. split; [apply place_on_page|].
  apply place_clear.
Qed.

Lemma labels_do_not_overlap_witness :
  on_page (place 2 "A") /\ on_page (place 12 "A")
  /\ (2 <> 12 -> clear_of (place 2 "A") (place 12 "A")).
Proof.
  apply (labels_do_not_overlap (replicate 13 "A") 2 12);
    vm_compute; reflexivity.
Defined.

End LabelSheet.

Section DashboardRows.

Import Sqlite.

(** ** The dashboard *)

Section Dashboard_facts.

Variable contains : string -> string -> bool.
Variable to_datetime : option string -> option Z.
Variable date_to_datetime : date -> Z.

#[local] Abbreviation filtered := (Dashboard.filtered contains to_datetime date_to_datetime).
#[local] Abbreviation dashboard := (Dashboard.dashboard contains to_datetime date_to_datetime).

Lemma keep_isin_sublist c selected fdf :
  Dashboard.keep_isin c selected fdf `sublist_of` fdf.
Proof. destruct selected; [done|]. apply sublist_filter. Qed.

Lemma filtered_sublist search_text f_category f_dept f_cond f_status date_range
  friendly :
  filtered search_text f_category f_dept f_cond f_status date_range friendly
  `sublist_of` friendly.
Proof.
  unfold Dashboard.filtered.
  set (searched := if negb (String.eqb search_text "") then _ else friendly).
  assert (searched `sublist_of` friendly) as Hs.
  { subst searched. destruct (negb _); [apply sublist_filter|done]. }
  etransitivity; [|exact Hs].
  etransitivity; [|apply (keep_isin_sublist category f_category)].
  etransitivity; [|apply (keep_isin_sublist department f_dept)].
  etransitivity; [|apply (keep_isin_sublist condition f_cond)].
  etransitivity; [|apply (keep_isin_sublist status f_status)].
  destruct date_range as [|start [|end_ [|? ?]]]; try done.
  apply sublist_filter.
Qed.

Lemma count_two_statuses (fdf : list row) :
  Dashboard.count_status "In Use" fdf + Dashboard.count_status "Disposed" fdf
  <= length fdf.
Proof.
  unfold Dashboard.count_status.
  induction fdf as [|r fdf IH]; [done|].
  rewrite !filter_cons.
  destruct (decide (text r status = Some "In Use")) as [E1|E1];
    destruct (decide (text r status = Some "Disposed")) as [E2|E2];
    cbn [length]; try lia.
  rewrite E1 in E2. discriminate.
Qed.

(** X13.  When the dashboard shows a report, the table is not empty, the
    rows shown are rows of the listing in the order of the listing, the
    total is their number and at most the number of rows of the table, and
    the assets in use and the disposed ones together are at most the
    total. *)
Theorem dashboard_shows_stored_rows (d : db) (search_text : string)
  (f_category f_dept f_cond f_status : list string) (date_range : list date)
  (rep : Dashboard.report) :
  dashboard d search_text f_category f_dept f_cond f_status date_range
  = Ok (Some rep) ->
  exists rows,
    assets d = Some rows /\ rows <> []
    /\ Dashboard.fdf_shown rep `sublist_of` order_by_date_added_desc rows
    /\ Dashboard.total_assets rep = length (Dashboard.fdf_shown rep)
    /\ Dashboard.total_assets rep <= length rows
    /\ Dashboard.in_use_assets rep + Dashboard.disposed_assets rep
       <= Dashboard.total_assets rep.
Proof.
  unfold Dashboard.dashboard, get_all_assets_df. intros H.
  destruct (assets d) as [rows|]; [|discriminate]. cbn [mbind result_bind] in H.
  exists rows. split; [done|].
  destruct (order_by_date_added_desc rows) as [|r0 df] eqn:Hdf; [discriminate|].
  apply Ok_inj in H. apply Some_inj in H as <-. cbn.
  pose proof (filtered_sublist search_text f_category f_dept f_cond f_status
                date_range (r0 :: df)) as Hsub.
  split; [by intros ->|]. split; [done|]. split; [done|]. split.
  - apply sublist_length in Hsub. rewrite Hsub, <- Hdf.
    by rewrite order_by_Permutation.
  - apply count_two_statuses.
Qed.

(** The search reads the name and the tag of a row, the categorical
    filters their four columns and the date filter the purchase date. *)
Lemma filter_fmap_same {A} (P Q : A -> Prop) `{!forall x, Decision (P x)}
  `{!forall x, Decision (Q x)} (g : A -> A) (l : list A) :
  (forall x, P (g x) <-> Q x) -> filter P (map g l) = map g (filter Q l).
Proof.
  intros Hpq. induction l as [|x l IH]; [done|].
  cbn [map]. rewrite !filter_cons.
  destruct (decide (P (g x))) as [Hp|Hp]; destruct (decide (Q x)) as [Hq|Hq];
    cbn [map]; rewrite ?IH; try done; exfalso; naive_solver.
Qed.

Lemma keep_isin_fmap c selected (g : row -> row) fdf :
  (forall r, text (g r) c = text r c) ->
  Dashboard.keep_isin c selected (map g fdf)
  = map g (Dashboard.keep_isin c selected fdf).
Proof.
  intros Hg. destruct selected; [done|]. cbn [Dashboard.keep_isin].
  apply filter_fmap_same. intros r. by rewrite Hg.
Qed.

(** X14.  The filter block of the dashboard never reads the description
    of a row: whatever is written in the description column, the same rows
    are kept.  (The search looks for the text in the name and in the tag,
    and in an empty text in the place of the description.) *)
Theorem search_ignores_description (search_text : string)
  (f_category f_dept f_cond f_status : list string) (date_range : list date)
  (friendly : list row) (rewritten : row -> option string) :
  filtered search_text f_category f_dept f_cond f_status date_range
    (map (fun r => set_text description (rewritten r) r) friendly)
  = map (fun r => set_text description (rewritten r) r)
      (filtered search_text f_category f_dept f_cond f_status date_range
         friendly).
Proof.
  set (g := fun r => set_text description (rewritten r) r).
  assert (forall c r, c <> description -> text (g r) c = text r c) as Hg.
  { intros c r Hc. unfold g. cbn. by rewrite decide_False. }
  unfold Dashboard.filtered.
  set (P := fun r : row => _ = true).
  assert ((if negb (String.eqb search_text "") then filter P (map g friendly)
           else map g friendly)
          = map g (if negb (String.eqb search_text "") then filter P friendly
                   else friendly)) as ->.
  { destruct (negb _); [|done]. apply filter_fmap_same. intros r. unfold P.
    by rewrite !Hg. }
  rewrite !keep_isin_fmap by (intros; by apply Hg).
  destruct date_range as [|start [|end_ [|? ?]]]; try done.
  apply filter_fmap_same. intros r. by rewrite Hg.
Qed.

End Dashboard_facts.

Lemma dashboard_shows_stored_rows_witness :
  exists rows,
    assets two_assets = Some rows /\ rows <> []
    /\ Dashboard.fdf_shown laptops_report `sublist_of` order_by_date_added_desc rows
    /\ Dashboard.total_assets laptops_report
       = length (Dashboard.fdf_shown laptops_report)
    /\ Dashboard.total_assets laptops_report <= length rows
    /\ Dashboard.in_use_assets laptops_report
       + Dashboard.disposed_assets laptops_report
       <= Dashboard.total_assets laptops_report.
Proof.
  apply (dashboard_shows_stored_rows (fun _ _ => false) (fun _ => None)
           (fun _ => 0%Z) two_assets "" ["Laptop"] [] [] [] [] laptops_report).
  vm_compute. reflexivity.
Defined.

End DashboardRows.

Section ChartCounts.

Import Sqlite.

(** ** The counts of the charts *)

Lemma bump_keys s counts :
  map fst (Dashboard.bump s counts)
  = if decide (s ∈ map fst counts) then map fst counts
    else map fst counts ++ [s].
Proof.
  induction counts as [|[k n] counts IH]; [done|]. cbn [Dashboard.bump map fst].
  destruct (String.eqb_spec k s) as [->|Hne].
  - rewrite decide_True by left. done.
  - cbn [map fst]. rewrite IH.
    destruct (decide (s ∈ map fst counts)) as [Hin|Hin].
    + rewrite decide_True by (by right). done.
    + rewrite decide_False; [done|]. intros [?|?]%elem_of_cons; congruence.
Qed.

Lemma bump_NoDup s counts :
  NoDup (map fst counts) -> NoDup (map fst (Dashboard.bump s counts)).
Proof.
  intros Hnd. rewrite bump_keys. destruct (decide _) as [Hin|Hin]; [done|].
  apply NoDup_app. split; [done|]. split; [|apply NoDup_singleton].
  intros x Hx Hx'. apply list_elem_of_singleton in Hx' as ->. done.
Qed.

Lemma held_bump s k counts :
  held k (Dashboard.bump s counts)
  = if decide (k = s) then S (held k counts) else held k counts.
Proof.
  unfold held. induction counts as [|[k0 n] counts IH]; cbn [Dashboard.bump find fst snd].
  - destruct (String.eqb_spec s k) as [->|Hne].
    + by rewrite decide_True.
    + by rewrite decide_False.
  - destruct (String.eqb_spec k0 s) as [->|Hne]; cbn [find fst snd].
    + destruct (String.eqb_spec s k) as [->|Hne]; [by rewrite decide_True|].
      by rewrite decide_False.
    + destruct (String.eqb_spec k0 k) as [->|Hne'].
      * by rewrite decide_False.
      * exact IH.
Qed.

Lemma held_elem k n counts :
  NoDup (map fst counts) -> 0 < n -> (k, n) ∈ counts <-> held k counts = n.
Proof.
  intros Hnd Hn. unfold held.
  induction counts as [|[k0 n0] counts IH]; cbn [find fst snd].
  - split; [by intros ?%elem_of_nil|lia].
  - cbn [map fst] in Hnd. apply NoDup_cons in Hnd as [Hk0 Hnd].
    destruct (String.eqb_spec k0 k) as [->|Hne].
    + split.
      * intros [[= ->]|Hin]%elem_of_cons; [done|].
        exfalso. apply Hk0. by apply (list_elem_of_fmap_2 fst _ (k, n)).
      * cbn. intros <-. left.
    + rewrite elem_of_cons, (IH Hnd). split; [|by right].
      intros [[= -> ->]|?]; done.
Qed.

Lemma held_pos k counts :
  Forall (fun kn => 0 < snd kn) counts ->
  held k counts = 0 -> k ∉ map fst counts.
Proof.
  unfold held. induction 1 as [|[k0 n0] counts Hn Hall IH]; cbn [find fst snd].
  - intros _. apply not_elem_of_nil.
  - destruct (String.eqb_spec k0 k) as [->|Hne].
    + cbn in *. intros H0. lia.
    + intros H0 [?|?]%elem_of_cons; [done|]. by apply IH.
Qed.

Lemma bump_pos s counts :
  Forall (fun kn => 0 < snd kn) counts ->
  Forall (fun kn => 0 < snd kn) (Dashboard.bump s counts).
Proof.
  induction 1 as [|[k n] counts Hn Hall IH]; cbn [Dashboard.bump].
  - repeat constructor.
  - destruct (String.eqb k s); constructor; cbn in *; try done; lia.
Qed.

Lemma bump_sum s counts :
  list_sum (map snd (Dashboard.bump s counts)) = S (list_sum (map snd counts)).
Proof.
  unfold list_sum. induction counts as [|[k n] counts IH]; [done|].
  cbn [Dashboard.bump].
  destruct (String.eqb k s); cbn [map snd fold_right]; [done|]. rewrite IH. lia.
Qed.

Lemma tally_spec col : forall acc,
  NoDup (map fst acc) -> Forall (fun kn => 0 < snd kn) acc ->
  NoDup (map fst (tally acc col))
  /\ Forall (fun kn => 0 < snd kn) (tally acc col)
  /\ (forall k, held k (tally acc col) = held k acc + occurrences k col)
  /\ list_sum (map snd (tally acc col))
     = list_sum (map snd acc) + length (filter is_Some col).
Proof.
  induction col as [|v col IH]; intros acc Hnd Hpos.
  - unfold occurrences. cbn [tally foldl]. rewrite !filter_nil. cbn [length].
    split; [done|]. split; [done|].
    split; [intros k; rewrite filter_nil; cbn [length]; lia|lia].
  - cbn [tally foldl]. destruct v as [s|].
    + destruct (IH (Dashboard.bump s acc) (bump_NoDup s acc Hnd) (bump_pos s acc Hpos))
        as (H1 & H2 & H3 & H4).
      split; [done|]. split; [done|]. split.
      * intros k. unfold tally in H3. rewrite H3, held_bump.
        unfold occurrences. rewrite filter_cons.
        destruct (decide (k = s)) as [->|Hne].
        -- rewrite decide_True by done. cbn [length]. lia.
        -- rewrite decide_False by congruence. done.
      * unfold tally in H4. rewrite H4, bump_sum, filter_cons.
        rewrite decide_True by done. cbn [length]. lia.
    + destruct (IH acc Hnd Hpos) as (H1 & H2 & H3 & H4).
      split; [done|]. split; [done|]. split.
      * intros k. unfold tally in H3. rewrite H3. unfold occurrences.
        rewrite filter_cons, decide_False by done. done.
      * unfold tally in H4. rewrite H4, filter_cons.
        rewrite decide_False by (by intros [? ?]). done.
Qed.

Lemma insert_count_Permutation kn sorted :
  Dashboard.insert_count kn sorted ≡ₚ kn :: sorted.
Proof.
  induction sorted as [|x rest IH]; [done|]. cbn [Dashboard.insert_count].
  destruct (_ <=? _)%nat; [done|]. rewrite IH. apply Permutation_swap.
Qed.

Lemma insert_count_sorted kn sorted :
  StronglySorted more_often sorted ->
  StronglySorted more_often (Dashboard.insert_count kn sorted).
Proof.
  induction 1 as [|x rest Hs IH Hx]; cbn [Dashboard.insert_count].
  - repeat constructor.
  - destruct (Nat.leb_spec (snd x) (snd kn)) as [Hle|Hgt].
    + constructor; [by constructor|]. constructor; [done|].
      eapply Forall_impl; [exact Hx|]. intros y Hy. unfold more_often in *. lia.
    + constructor; [done|]. rewrite insert_count_Permutation.
      constructor; [|done]. unfold more_often. lia.
Qed.

Lemma sort_counts_spec counts :
  foldr Dashboard.insert_count [] counts ≡ₚ counts
  /\ StronglySorted more_often (foldr Dashboard.insert_count [] counts).
Proof.
  induction counts as [|kn counts [IHp IHs]]; [split; [done|constructor]|].
  cbn [foldr]. split.
  - rewrite insert_count_Permutation. by constructor.
  - by apply insert_count_sorted.
Qed.

Lemma value_counts_spec (col : list (option string)) :
  NoDup (map fst (Dashboard.value_counts col))
  /\ (forall k n,
        (k, n) ∈ Dashboard.value_counts col
        <-> n = occurrences k col /\ 0 < n)
  /\ StronglySorted more_often (Dashboard.value_counts col)
  /\ list_sum (map snd (Dashboard.value_counts col))
     = length (filter is_Some col).
Proof.
  unfold Dashboard.value_counts. fold (tally [] col).
  destruct (tally_spec col [] (NoDup_nil_2) (Forall_nil_2 _))
    as (Hnd & Hpos & Hheld & Hsum).
  destruct (sort_counts_spec (tally [] col)) as [Hperm Hsorted].
  split; [by rewrite Hperm|]. split; [|split; [done|]].
  - intros k n. rewrite Hperm. split.
    + intros Hin. assert (0 < n) as Hn.
      { rewrite Forall_forall in Hpos. apply (Hpos _ Hin). }
      split; [|done]. apply held_elem in Hin; [|done..].
      rewrite Hheld in Hin. cbn in Hin. lia.
    + intros [-> Hn]. apply held_elem; [done..|]. by rewrite Hheld.
  - rewrite Hperm, Hsum. done.
Qed.

Lemma occurrences_map {A} (f : A -> option string) k (l : list A) :
  occurrences k (map f l) = length (filter (fun r => f r = Some k) l).
Proof.
  unfold occurrences. induction l as [|r l IH]; [done|].
  cbn [map]. rewrite !filter_cons.
  destruct (decide (f r = Some k)); cbn [length]; by rewrite IH.
Qed.

Lemma length_filter_le {A} (P : A -> Prop) `{!forall x, Decision (P x)}
  (l : list A) : length (filter P l) <= length l.
Proof. apply sublist_length, sublist_filter. Qed.

Section Chart_counts.

Variable contains : string -> string -> bool.
Variable to_datetime : option string -> option Z.
Variable date_to_datetime : date -> Z.

(** X15.  In a report of the dashboard the category chart has one bar for
    each category that occurs among the rows shown, with the number of
    those rows as its count, the commonest first; so has the department
    chart; and the counts of a chart add up to at most the total. *)
Theorem chart_counts (d : db) (search_text : string)
  (f_category f_dept f_cond f_status : list string) (date_range : list date)
  (rep : Dashboard.report) :
  Dashboard.dashboard contains to_datetime date_to_datetime d search_text
    f_category f_dept f_cond f_status date_range
  = Ok (Some rep) ->
  (forall k n,
     (k, n) ∈ Dashboard.cat_counts rep
     <-> n = length (filter (fun r => text r category = Some k)
                       (Dashboard.fdf_shown rep))
         /\ 0 < n)
  /\ (forall k n,
        (k, n) ∈ Dashboard.dept_counts rep
        <-> n = length (filter (fun r => text r department = Some k)
                          (Dashboard.fdf_shown rep))
            /\ 0 < n)
  /\ NoDup (map fst (Dashboard.cat_counts rep))
  /\ NoDup (map fst (Dashboard.dept_counts rep))
  /\ StronglySorted more_often (Dashboard.cat_counts rep)
  /\ StronglySorted more_often (Dashboard.dept_counts rep)
  /\ list_sum (map snd (Dashboard.cat_counts rep)) <= Dashboard.total_assets rep
  /\ list_sum (map snd (Dashboard.dept_counts rep))
     <= Dashboard.total_assets rep.
Proof.
  unfold Dashboard.dashboard, get_all_assets_df. intros H.
  destruct (assets d) as [rows|]; [|discriminate]. cbn [mbind result_bind] in H.
  destruct (order_by_date_added_desc rows) as [|r0 df]; [discriminate|].
  apply Ok_inj in H. apply Some_inj in H as <-.
  cbn [Dashboard.cat_counts Dashboard.dept_counts Dashboard.fdf_shown
       Dashboard.total_assets].
  set (fdf := Dashboard.filtered _ _ _ _ _ _ _ _ _ _).
  destruct (value_counts_spec (map (fun r => text r category) fdf))
    as (Hn1 & Hc1 & Hs1 & Hsum1).
  destruct (value_counts_spec (map (fun r => text r department) fdf))
    as (Hn2 & Hc2 & Hs2 & Hsum2).
  split; [intros k n; by rewrite Hc1, occurrences_map|].
  split; [intros k n; by rewrite Hc2, occurrences_map|].
  split; [done|]. split; [done|]. split; [done|]. split; [done|].
  rewrite Hsum1, Hsum2. split.
  - etransitivity; [apply length_filter_le|]. by rewrite length_map.
  - etransitivity; [apply length_filter_le|]. by rewrite length_map.
Qed.

End Chart_counts.

Lemma chart_counts_witness :
  (forall k n,
     (k, n) ∈ Dashboard.cat_counts laptops_report
     <-> n = length (filter (fun r => text r category = Some k)
                       (Dashboard.fdf_shown laptops_report))
         /\ 0 < n)
  /\ (forall k n,
        (k, n) ∈ Dashboard.dept_counts laptops_report
        <-> n = length (filter (fun r => text r department = Some k)
                          (Dashboard.fdf_shown laptops_report))
            /\ 0 < n)
  /\ NoDup (map fst (Dashboard.cat_counts laptops_report))
  /\ NoDup (map fst (Dashboard.dept_counts laptops_report))
  /\ StronglySorted more_often (Dashboard.cat_counts laptops_report)
  /\ StronglySorted more_often (Dashboard.dept_counts laptops_report)
  /\ list_sum (map snd (Dashboard.cat_counts laptops_report))
     <= Dashboard.total_assets laptops_report
  /\ list_sum (map snd (Dashboard.dept_counts laptops_report))
     <= Dashboard.total_assets laptops_report.
Proof.
  apply (chart_counts (fun _ _ => false) (fun _ => None) (fun _ => 0%Z)
           two_assets "" ["Laptop"] [] [] [] [] laptops_report).
  vm_compute. reflexivity.
Defined.

End ChartCounts.

Section Rejections.

Import Sqlite.

(** ** Keys that name no column *)

Lemma resolve_column_exn name e :
  names_rowid name = false -> resolve_column name = Raise e ->
  e = OperationalError.
Proof.
  unfold resolve_column. intros ->. destruct (find _ schema); [done|].
  by intros [= <-].
Qed.

Lemma set_list_unknown updates : forall k v,
  forallb (fun kv => negb (names_rowid (_py_to_sql_col (fst kv)))) updates
  = true ->
  (k, v) ∈ updates ->
  resolve_column (_py_to_sql_col k) = Raise OperationalError ->
  set_list updates = Raise OperationalError.
Proof.
  induction updates as [|[k0 v0] updates IH]; intros k v Hrow Hin Hk;
    [by apply elem_of_nil in Hin|].
  cbn [set_list]. cbn [forallb fst] in Hrow.
  apply andb_true_iff in Hrow as [H0%negb_true_iff Hrow].
  destruct (resolve_column (_py_to_sql_col k0)) as [c0|e0] eqn:E0.
  - apply elem_of_cons in Hin as [[= <- <-]|Hin]; [congruence|].
    cbn [mbind result_bind]. by rewrite (IH k v Hrow Hin Hk).
  - by rewrite (resolve_column_exn _ _ H0 E0).
Qed.

Lemma forallb_and {A} (p q : A -> bool) l :
  forallb (fun x => p x && q x) l = forallb p l && forallb q l.
Proof.
  induction l as [|x l IH]; [done|]. cbn [forallb]. rewrite IH.
  destruct (p x), (q x), (forallb p l); done.
Qed.

(** X16.  [update_asset] whose keys are plain identifiers, none of them a
    name of the implicit rowid, and one of them the name of no column of
    [assets], raises [OperationalError], and so does [update_asset] with
    no change at all; nothing is written. *)
Theorem update_asset_unknown_key (d : db) (rows : list row) (t k : string)
  (v : value) (updates : dict) :
  assets d = Some rows ->
  forallb (fun kv => is_identifier (_py_to_sql_col (fst kv))
                     && negb (names_rowid (_py_to_sql_col (fst kv))))
    updates = true ->
  (k, v) ∈ updates ->
  resolve_column (_py_to_sql_col k) = Raise OperationalError ->
  update_asset d t updates = Raise OperationalError
  /\ update_asset d t [] = Raise OperationalError.
Proof.
  intros Hrows Hid Hin Hk. rewrite forallb_and in Hid.
  apply andb_true_iff in Hid as [Hid Hrow].
  unfold update_asset. rewrite Hid, Hrows. cbn.
  split; [|done]. destruct updates as [|kv updates]; [done|].
  by rewrite (set_list_unknown _ k v Hrow Hin Hk).
Qed.

Lemma update_asset_unknown_key_witness :
  update_asset one_asset "DEL-ACC-IT-0001" [("Owner", PyStr "Ama")]
  = Raise OperationalError
  /\ update_asset one_asset "DEL-ACC-IT-0001" [] = Raise OperationalError.
Proof.
  apply (update_asset_unknown_key one_asset (default [] (assets one_asset))
           "DEL-ACC-IT-0001" "Owner" (PyStr "Ama") [("Owner", PyStr "Ama")]).
  - vm_compute. reflexivity.
  - reflexivity.
  - left.
  - reflexivity.
Defined.

(** ** The row an update of the workbook goes to *)

Lemma first_index_Ok t df : forall i,
  Sheet.first_index t df = Ok i ->
  exists r, df !! i = Some r
    /\ Sheet.py_eq (Sheet.at_ r "Asset Tag") t = true
    /\ forall j r', j < i -> df !! j = Some r' ->
         Sheet.py_eq (Sheet.at_ r' "Asset Tag") t = false.
Proof.
  induction df as [|r0 df IH]; intros i H; [discriminate|].
  cbn [Sheet.first_index] in H.
  destruct (Sheet.py_eq (Sheet.at_ r0 "Asset Tag") t) eqn:E.
  - apply Ok_inj in H as <-. exists r0. split; [done|]. split; [done|].
    intros j r' Hj. lia.
  - apply bind_Ok in H as (i0 & Hi0 & H). apply Ok_inj in H as <-.
    destruct (IH i0 Hi0) as (r & Hr & Heq & Hbefore).
    exists r. split; [done|]. split; [done|].
    intros [|j] r' Hj Hr'; cbn in Hr'.
    + by apply Some_inj in Hr' as <-.
    + eapply Hbefore; [|done]. lia.
Qed.

(** X17.  In the workbook variant an update writes the first row whose
    "Asset Tag" equals the tag picked in the select box: no row before it
    has the tag, the row becomes [update_row] of it, and the other rows are
    the loaded ones. *)
Theorem sheet_update_first_match (w w' : Sheet.workbook) (pick : nat)
  (frm : form) (clock : datetime) (t : value) :
  Sheet.add_update_asset w Update_Existing_Asset pick frm clock
  = Ok (w', Sheet.asset_updated t) ->
  selectbox (map (fun r => Sheet.at_ r "Asset Tag") (Sheet.load_data w)) pick
  = Some t
  /\ exists i r r',
       Sheet.load_data w !! i = Some r
       /\ Sheet.py_eq (Sheet.at_ r "Asset Tag") t = true
       /\ (forall j r0, j < i -> Sheet.load_data w !! j = Some r0 ->
             Sheet.py_eq (Sheet.at_ r0 "Asset Tag") t = false)
       /\ Sheet.update_row (Sheet.form_data frm) (strftime_datetime clock) r
          = Ok r'
       /\ w' = <[i := r']> (Sheet.load_data w).
Proof.
  unfold Sheet.add_update_asset. intros H.
  set (df := Sheet.load_data w) in *.
  apply bind_Ok in H as (asset_tag & Htag & H).
  apply bind_Ok in H as (idx & Hidx & H).
  destruct (df !! idx) as [r|] eqn:Hr; [|discriminate].
  apply bind_Ok in H as (r' & Hr' & H).
  apply Ok_pair_inj in H as [<- [= <-]]. unfold Sheet.save_data.
  split.
  - destruct df as [|r0 df0] eqn:Hdf; [discriminate|].
    destruct (selectbox _ pick) as [t0|] eqn:Hs;
      first [ apply bind_Ok in Htag as (i0 & Hi0 & Htag);
              by apply Ok_inj in Htag as <-
            | exfalso; unfold selectbox in Hs; cbn [map head] in Hs;
              by destruct (_ !! pick) ].
  - destruct (first_index_Ok _ _ _ Hidx) as (r1 & Hr1 & Heq & Hbefore).
    rewrite Hr in Hr1. apply Some_inj in Hr1 as <-.
    by exists idx, r, r'.
Qed.

Lemma sheet_update_first_match_witness :
  selectbox (map (fun r => Sheet.at_ r "Asset Tag") (Sheet.load_data dell_twice)) 1
  = Some (PyStr "DEL-ACC-IT-0001")
  /\ exists i r r',
       Sheet.load_data dell_twice !! i = Some r
       /\ Sheet.py_eq (Sheet.at_ r "Asset Tag") (PyStr "DEL-ACC-IT-0001") = true
       /\ (forall j r0, j < i -> Sheet.load_data dell_twice !! j = Some r0 ->
             Sheet.py_eq (Sheet.at_ r0 "Asset Tag") (PyStr "DEL-ACC-IT-0001")
             = false)
       /\ Sheet.update_row (Sheet.form_data printer_form) (strftime_datetime ten) r
          = Ok r'
       /\ dell_twice_updated = <[i := r']> (Sheet.load_data dell_twice).
Proof.
  apply (sheet_update_first_match dell_twice dell_twice_updated 1 printer_form
           ten (PyStr "DEL-ACC-IT-0001")).
  vm_compute. reflexivity.
Defined.

(** The second of two rows with one tag is picked, the first is written. *)
Lemma second_duplicate_is_never_updated :
  map (fun r => Sheet.at_ r "Asset Name") (Sheet.load_data dell_twice_updated)
  = [PyStr "Canon"; PyStr "Dell"].
Proof. vm_compute. reflexivity. Qed.

End Rejections.

Section StampOrder.

(** ** Time stamps sort by time *)

Lemma horner_of_uint d : forall acc,
  horner (NilEmpty.string_of_uint d) acc = Nat.of_uint_acc d acc.
Proof.
  induction d; intros acc; cbn [NilEmpty.string_of_uint horner Nat.of_uint_acc];
    [done|..]; rewrite IHd, Nat.tail_mul_spec; f_equal;
    unfold digit_value;
    match goal with
    | |- context [code ?c - 48] =>
        let v := eval vm_compute in (code c - 48) in
        change (code c - 48) with v
    end; lia.
Qed.

Lemma horner_str_of_nat n : horner (str_of_nat n) 0 = n.
Proof.
  unfold str_of_nat, NilZero.string_of_uint.
  rewrite <- (DecimalNat.Unsigned.of_to n) at 2. unfold Nat.of_uint.
  destruct (Nat.to_uint n) eqn:E; try apply horner_of_uint. reflexivity.
Qed.

Lemma horner_zeros k s : horner (zeros k +:+ s) 0 = horner s 0.
Proof. induction k; [done|]. cbn. exact IHk. Qed.

Lemma horner_lower s : forall acc, acc * 10 ^ String.length s <= horner s acc.
Proof.
  induction s as [|c s IH]; intros acc; cbn [horner String.length].
  - cbn. lia.
  - etransitivity; [|apply IH]. rewrite Nat.pow_succ_r'. nia.
Qed.

Lemma str_of_nat_head n :
  str_of_nat n = "0"
  \/ exists c r, str_of_nat n = String c r /\ 1 <= digit_value c.
Proof.
  unfold str_of_nat.
  pose proof (DecimalNat.Unsigned.to_of (Nat.to_uint n)) as Hn.
  rewrite DecimalNat.Unsigned.of_to in Hn.
  destruct (Nat.to_uint n) as [|d|d|d|d|d|d|d|d|d|d] eqn:E;
    try (right; eexists _, _; split; [reflexivity|vm_compute; lia]).
  - by left.
  - left. unfold Decimal.unorm in Hn. cbn [Decimal.nzhead] in Hn.
    destruct (Decimal.nzhead d) eqn:Ez;
      try (exfalso; rewrite <- Ez in Hn;
           by apply (DecimalFacts.nzhead_nonzero d d)).
    injection Hn as Hd. by subst d.
Qed.

Lemma str_of_nat_short w n :
  1 <= w -> n < 10 ^ w -> String.length (str_of_nat n) <= w.
Proof.
  intros Hw Hn. destruct (str_of_nat_head n) as [->|(c & r & E & Hc)];
    [cbn; lia|].
  pose proof (horner_str_of_nat n) as Hv. rewrite E in Hv |- *.
  cbn [horner String.length] in *.
  pose proof (horner_lower r (10 * 0 + digit_value c)) as Hl.
  rewrite Hv in Hl.
  destruct (Nat.le_gt_cases (S (String.length r)) w) as [|Hgt]; [done|].
  exfalso. assert (10 ^ w <= 10 ^ String.length r) as Hp.
  { apply Nat.pow_le_mono_r; lia. }
  nia.
Qed.

Lemma digits_unsigned s : all_chars is_digit s = true -> signed s = false.
Proof.
  destruct s as [|c r]; [done|]. cbn. intros [Hc _]%andb_true_iff.
  unfold is_sign, is_digit in *.
  destruct (Ascii.eqb_spec c "+") as [->|]; [by vm_compute in Hc|].
  destruct (Ascii.eqb_spec c "-") as [->|]; [by vm_compute in Hc|done].
Qed.

(** A field of the time stamp: exactly [w] digits that write [n]. *)
Lemma zfill_field w n :
  1 <= w -> n < 10 ^ w ->
  String.length (zfill w (str_of_nat n)) = w
  /\ all_chars is_digit (zfill w (str_of_nat n)) = true
  /\ horner (zfill w (str_of_nat n)) 0 = n.
Proof.
  intros Hw Hn. pose proof (str_of_nat_short w n Hw Hn) as Hlen.
  split; [rewrite length_zfill; lia|].
  split; [apply all_chars_zfill; [done|apply str_of_nat_digits]|].
  rewrite zfill_unsigned by apply digits_unsigned, str_of_nat_digits.
  unfold zero_left_pad. rewrite horner_zeros. apply horner_str_of_nat.
Qed.

Lemma ascii_compare_digits c d :
  is_digit c = true -> is_digit d = true ->
  Ascii.compare c d = Nat.compare (digit_value c) (digit_value d).
Proof.
  unfold is_digit, digit_value, code, Ascii.compare, nat_of_ascii.
  intros [Hc _]%andb_true_iff [Hd _]%andb_true_iff.
  apply Nat.leb_le in Hc, Hd. rewrite N2Nat.inj_compare.
  destruct (Nat.compare_spec (N.to_nat (N_of_ascii c)) (N.to_nat (N_of_ascii d)));
    symmetry; [apply Nat.compare_eq_iff|apply Nat.compare_lt_iff
              |apply Nat.compare_gt_iff]; lia.
Qed.

Lemma digit_value_lt c : is_digit c = true -> digit_value c < 10.
Proof.
  unfold is_digit, digit_value. intros [H1 H2]%andb_true_iff.
  apply Nat.leb_le in H1, H2. lia.
Qed.

Lemma compare_digits a : forall b x y,
  String.length a = String.length b ->
  all_chars is_digit a = true -> all_chars is_digit b = true ->
  Nat.compare (horner a x) (horner b y)
  = match Nat.compare x y with
    | Eq => String.compare a b
    | c => c
    end.
Proof.
  induction a as [|c a IH]; intros [|d b] x y Hlen Ha Hb; try discriminate.
  - cbn. by destruct (Nat.compare x y).
  - cbn [horner String.compare]. cbn in Hlen, Ha, Hb.
    apply andb_true_iff in Ha as [Hc Ha], Hb as [Hd Hb].
    rewrite (IH b) by (done || lia).
    rewrite (ascii_compare_digits c d Hc Hd).
    pose proof (digit_value_lt c Hc). pose proof (digit_value_lt d Hd).
    destruct (Nat.compare_spec x y) as [->|Hlt|Hgt].
    + destruct (Nat.compare_spec (digit_value c) (digit_value d)) as [->|Hlt|Hgt].
      * by rewrite Nat.compare_refl.
      * assert (10 * y + digit_value c < 10 * y + digit_value d) as H' by lia.
        apply Nat.compare_lt_iff in H'. by rewrite H'.
      * assert (10 * y + digit_value d < 10 * y + digit_value c) as H' by lia.
        apply Nat.compare_gt_iff in H'. by rewrite H'.
    + assert (10 * x + digit_value c < 10 * y + digit_value d) as H' by lia.
      apply Nat.compare_lt_iff in H'. by rewrite H'.
    + assert (10 * y + digit_value d < 10 * x + digit_value c) as H' by lia.
      apply Nat.compare_gt_iff in H'. by rewrite H'.
Qed.

Lemma compare_fields w n m :
  1 <= w -> n < 10 ^ w -> m < 10 ^ w ->
  String.compare (zfill w (str_of_nat n)) (zfill w (str_of_nat m))
  = Nat.compare n m.
Proof.
  intros Hw Hn Hm.
  destruct (zfill_field w n Hw Hn) as (Ln & Dn & Vn).
  destruct (zfill_field w m Hw Hm) as (Lm & Dm & Vm).
  pose proof (compare_digits _ _ 0 0 (eq_trans Ln (eq_sym Lm)) Dn Dm) as H.
  rewrite Vn, Vm in H. rewrite H. reflexivity.
Qed.

Lemma compare_app a : forall a' b b',
  String.length a = String.length a' ->
  String.compare (a +:+ b) (a' +:+ b')
  = match String.compare a a' with
    | Eq => String.compare b b'
    | c => c
    end.
Proof.
  induction a as [|c a IH]; intros [|c' a'] b b' Hlen; try discriminate.
  - reflexivity.
  - cbn [String.append String.compare]. cbn in Hlen.
    destruct (Ascii.compare c c'); [|done..]. apply IH. lia.
Qed.

Lemma compare_field_then w n m (sep : ascii) rest rest' :
  1 <= w -> n < 10 ^ w -> m < 10 ^ w ->
  String.compare (zfill w (str_of_nat n) +:+ String sep rest)
    (zfill w (str_of_nat m) +:+ String sep rest')
  = match Nat.compare n m with
    | Eq => String.compare rest rest'
    | c => c
    end.
Proof.
  intros Hw Hn Hm. rewrite compare_app.
  - rewrite compare_fields by done. destruct (Nat.compare n m); [|done..].
    cbn [String.compare].
    assert (Ascii.compare sep sep = Eq) as ->; [|done].
    unfold Ascii.compare. apply N.compare_refl.
  - destruct (zfill_field w n Hw Hn) as (-> & _).
    by destruct (zfill_field w m Hw Hm) as (-> & _).
Qed.

Lemma string_compare_refl s : String.compare s s = Eq.
Proof.
  induction s as [|c s IH]; [done|]. cbn [String.compare].
  assert (Ascii.compare c c = Eq) as ->; [|done].
  unfold Ascii.compare. apply N.compare_refl.
Qed.

Lemma pow_10_2 : 10 ^ 2 = 100.
Proof. reflexivity. Qed.

Lemma pow_10_4 : 10 ^ 4 = 100 * 100.
Proof. reflexivity. Qed.

Lemma horner_upper s : forall acc,
  all_chars is_digit s = true ->
  horner s acc < (acc + 1) * 10 ^ String.length s.
Proof.
  induction s as [|c s IH]; intros acc Hs; cbn [horner String.length].
  - cbn. lia.
  - cbn in Hs. apply andb_true_iff in Hs as [Hc Hs].
    pose proof (digit_value_lt c Hc) as Hd.
    pose proof (IH (10 * acc + digit_value c) Hs) as Hu.
    rewrite Nat.pow_succ_r'. nia.
Qed.

(** From 1000 on a year has its four digits without any padding. *)
Lemma year_unpadded n :
  10 * 100 <= n < 100 * 100 -> zfill 4 (str_of_nat n) = str_of_nat n.
Proof.
  intros [Hlo Hhi].
  pose proof (str_of_nat_short 4 n) as Hshort.
  rewrite pow_10_4 in Hshort. specialize (Hshort ltac:(lia) Hhi).
  pose proof (horner_upper (str_of_nat n) 0 (str_of_nat_digits n)) as Hu.
  rewrite horner_str_of_nat in Hu.
  assert (4 <= String.length (str_of_nat n)) as Hlong.
  { destruct (Nat.le_gt_cases 4 (String.length (str_of_nat n))) as [|Hlt]; [done|].
    exfalso. assert (10 ^ String.length (str_of_nat n) <= 10 ^ 3) as Hp.
    { apply Nat.pow_le_mono_r; lia. }
    change (10 ^ 3) with (10 * 100) in Hp. lia. }
  unfold zfill. by rewrite (proj2 (Nat.leb_le _ _) Hlong).
Qed.

(** X18.  For clocks with a year from 1000 to 9999 and the other fields
    below 100, the year is written with its own four digits, [now_iso]
    has 19 characters, and two time stamps compare as text the way their
    times compare: the order of [date_added] is the order in time. *)
Theorem time_stamps_sort_by_time (t1 t2 : datetime) :
  four_two_digit_fields t1 -> four_two_digit_fields t2 ->
  zfill 4 (str_of_nat (year (dt_date t1))) = str_of_nat (year (dt_date t1))
  /\ String.length (now_iso t1) = 19
  /\ (String.leb (now_iso t1) (now_iso t2) = true
      <-> stamp_number t1 <= stamp_number t2)
  /\ (now_iso t1 = now_iso t2 <-> stamp_number t1 = stamp_number t2).
Proof.
  intros ((Y1' & Y1) & M1 & D1 & h1 & m1 & s1) ((Y2' & Y2) & M2 & D2 & h2 & m2 & s2).
  assert (String.compare (now_iso t1) (now_iso t2)
          = Nat.compare (stamp_number t1) (stamp_number t2)) as Hcmp.
  { unfold now_iso, strftime_datetime, strftime_date, stamp_number.
    rewrite ?(year_unpadded _ (conj Y1' Y1)), ?(year_unpadded _ (conj Y2' Y2)).
    rewrite <- (year_unpadded _ (conj Y1' Y1)), <- (year_unpadded _ (conj Y2' Y2)).
    rewrite !str_app_assoc.
    repeat match goal with
      | |- context [String ?c EmptyString +:+ ?x] =>
          change (String c EmptyString +:+ x) with (String c x)
      end.
    rewrite !compare_field_then by (rewrite ?pow_10_2, ?pow_10_4; lia).
    rewrite compare_fields by (rewrite ?pow_10_2, ?pow_10_4; lia).
    destruct (Nat.compare_spec (year (dt_date t1)) (year (dt_date t2)));
      destruct (Nat.compare_spec (month (dt_date t1)) (month (dt_date t2)));
      destruct (Nat.compare_spec (day (dt_date t1)) (day (dt_date t2)));
      destruct (Nat.compare_spec (hour t1) (hour t2));
      destruct (Nat.compare_spec (minute t1) (minute t2));
      destruct (Nat.compare_spec (second t1) (second t2));
      symmetry;
      first [ apply Nat.compare_eq_iff; lia | apply Nat.compare_lt_iff; lia
            | apply Nat.compare_gt_iff; lia ]. }
  split; [by apply year_unpadded|]. split; [|split].
  - unfold now_iso, strftime_datetime, strftime_date.
    rewrite ?(year_unpadded _ (conj Y1' Y1)).
    rewrite <- (year_unpadded _ (conj Y1' Y1)).
    rewrite !str_length_app.
    destruct (zfill_field 4 (year (dt_date t1))) as (-> & _); [lia|rewrite ?pow_10_2, ?pow_10_4; lia|].
    destruct (zfill_field 2 (month (dt_date t1))) as (-> & _); [lia|rewrite ?pow_10_2, ?pow_10_4; lia|].
    destruct (zfill_field 2 (day (dt_date t1))) as (-> & _); [lia|rewrite ?pow_10_2, ?pow_10_4; lia|].
    destruct (zfill_field 2 (hour t1)) as (-> & _); [lia|rewrite ?pow_10_2, ?pow_10_4; lia|].
    destruct (zfill_field 2 (minute t1)) as (-> & _); [lia|rewrite ?pow_10_2, ?pow_10_4; lia|].
    destruct (zfill_field 2 (second t1)) as (-> & _); [lia|rewrite ?pow_10_2, ?pow_10_4; lia|].
    reflexivity.
  - unfold String.leb. rewrite Hcmp.
    destruct (Nat.compare_spec (stamp_number t1) (stamp_number t2)); split;
      try done; lia.
  - split.
    + intros E. apply Nat.compare_eq_iff. rewrite <- Hcmp, E.
      apply string_compare_refl.
    + intros E. apply String.compare_eq_iff. rewrite Hcmp.
      by apply Nat.compare_eq_iff.
Qed.

Lemma time_stamps_sort_by_time_witness :
  zfill 4 (str_of_nat (year (dt_date nine))) = str_of_nat (year (dt_date nine))
  /\ String.length (now_iso nine) = 19
  /\ (String.leb (now_iso nine) (now_iso ten) = true
      <-> stamp_number nine <= stamp_number ten)
  /\ (now_iso nine = now_iso ten <-> stamp_number nine = stamp_number ten).
Proof.
  apply (time_stamps_sort_by_time nine ten); vm_compute; repeat split; lia.
Defined.

End StampOrder.
